(** * agent_hire: a shallow embedding of the application pipeline

    The development follows the Python sources module by module:

    - [schemas/student_schema.py], [schemas/job_schema.py]: the execution
      format ([StudentArtifactPack], [JobListing]) and its validators;
    - [backend/models.py]: [DraftArtifactPack], [ArtifactSnapshot],
      [UserConfirmation] and their validators;
    - [sandbox/portal.py]: the sandbox portal and its receipt counter;
    - [core/scorer.py], [core/generator.py]: scoring and content selection;
    - [backend/engine.py]: the per-job loop of [run_autopilot];
    - [backend/database.py], [backend/artifact_services.py]: the store, the
      approval service and the engine gateway.

    Conventions.  A Python dictionary that the code reads with
    [d.get(k, default)] is a record whose field [k] is an [option]; a key the
    code reads with [d[k]] is a plain field, except where the code itself
    tests [k in d] or the dictionary comes from the caller unchecked.  Values
    carry the types the data model gives them; where the code takes a
    [Dict[str, Any]] and tests or stores a value without checking its type
    (the [verified] flag of a bullet, the entries of a confirmation), the
    value is a [pyval].  Numbers that Python holds as floats are binary64
    floats.  Exceptions are values of [exn]; a call that may raise returns a
    [result].  Dictionaries that are mutated while shared (the bullets of a
    draft) live in an explicit heap.  The clock, the uuid generator, the
    digest and the random generator are inputs. *)

From Stdlib Require Import ZArith QArith Ascii DecimalString Floats Lia.
From Stdlib Require DecimalFacts DecimalPos DecimalN.
From stdpp Require Import gmap strings list.

Set Warnings "-inexact-float,-register-all".

Open Scope string_scope.
Open Scope list_scope.

(** ** Exceptions and results *)

Inductive exn : Type :=
| ValueError (msg : string)
| RuntimeError (msg : string)
| TypeError (msg : string)
| KeyError (key : string)
| AttributeError (msg : string)
| ValidationError (msg : string)
| IntegrityError (msg : string).

(** [str(e)] for the exceptions above. *)
Definition str_exn (e : exn) : string :=
  match e with
  | ValueError m | RuntimeError m | TypeError m
  | AttributeError m | ValidationError m | IntegrityError m => m
  | KeyError k => "'" +:+ k +:+ "'"
  end.

Inductive result (A : Type) : Type :=
| Ok (a : A)
| Raise (e : exn).
Arguments Ok {A} a.
Arguments Raise {A} e.

#[global] Instance result_ret : MRet result := λ A a, Ok a.
#[global] Instance result_bind : MBind result := λ A B k r,
  match r with
  | Ok a => k a
  | Raise e => Raise e
  end.

Definition is_ok {A} (r : result A) : bool :=
  match r with Ok _ => true | Raise _ => false end.

(** A loop whose body may raise: the first exception ends the loop. *)
Fixpoint for_each {A S} (body : S → A → result S) (l : list A) (s : S)
  : result S :=
  match l with
  | [] => Ok s
  | x :: l' =>
      match body s x with
      | Ok s' => for_each body l' s'
      | Raise e => Raise e
      end
  end.

(** ** Strings *)

(** [sep.join(l)]. *)
Fixpoint join (sep : string) (l : list string) : string :=
  match l with
  | [] => ""
  | [x] => x
  | x :: l' => x +:+ sep +:+ join sep l'
  end.

(** [repr] of a list of plain strings, as an f-string prints it. *)
Definition repr_list (l : list string) : string :=
  "[" +:+ join ", " (map (λ s, "'" +:+ s +:+ "'") l) +:+ "]".

(** [str(n)] for a natural number. *)
Definition str_nat (n : nat) : string :=
  NilEmpty.string_of_uint (Nat.to_uint n).

(** [str(z)] for an integer. *)
Definition str_Z (z : Z) : string :=
  NilEmpty.string_of_int (Z.to_int z).

Definition str_N (n : N) : string :=
  NilEmpty.string_of_uint (N.to_uint n).

Fixpoint zeros (k : nat) : string :=
  match k with
  | O => ""
  | S k' => String "0"%char (zeros k')
  end.

(** [f"{n:06d}"]: the decimal digits, padded on the left with zeros up to
    a width of six; longer numbers are printed in full. *)
Definition format_06d (n : N) : string :=
  let digits := str_N n in
  zeros (6 - String.length digits) +:+ digits.

(** The double-quote character, for messages that contain it. *)
Definition dquote : string := String (ascii_of_nat 34) "".

(** [f"project_{i}_bullet_{j}"]. *)
Definition bullet_id_of (i j : nat) : string :=
  "project_" +:+ str_nat i +:+ "_bullet_" +:+ str_nat j.

(** ** Python values

    What a dictionary typed [Dict[str, Any]] may hold at a key: the values
    JSON decodes to. *)

Inductive pyval : Type :=
| PyNone
| PyBool (b : bool)
| PyInt (z : Z)
| PyFloat (f : float)
| PyStr (s : string)
| PyList (items : list pyval)
| PyDict (items : list (string * pyval)).

(** The truth value of [v] in a condition ([if v], [not v]): [None],
    [False], zero, the empty string and the empty containers are false,
    everything else is true. *)
Definition truthy (v : pyval) : bool :=
  match v with
  | PyNone => false
  | PyBool b => b
  | PyInt z => negb (z =? 0)%Z
  | PyFloat f => negb (PrimFloat.eqb f 0%float)
  | PyStr s => negb (String.eqb s "")
  | PyList items => match items with [] => false | _ :: _ => true end
  | PyDict items => match items with [] => false | _ :: _ => true end
  end.

(** Lists and dictionaries cannot be hashed: as a member of a set or a key
    of a dictionary they raise [TypeError]. *)
Definition hash_check (v : pyval) : result pyval :=
  match v with
  | PyList _ => Raise (TypeError "unhashable type: 'list'")
  | PyDict _ => Raise (TypeError "unhashable type: 'dict'")
  | _ => Ok v
  end.

(** [v == s] for a string [s]: a string equals no value of another type. *)
Definition py_eq_str (v : pyval) (s : string) : bool :=
  match v with
  | PyStr t => bool_decide (t = s)
  | _ => false
  end.

(** [d[key]] on a dictionary that may lack the key. *)
Definition subscript {A} (key : string) (entry : option A) : result A :=
  match entry with
  | Some v => Ok v
  | None => Raise (KeyError key)
  end.

(** ** [schemas/job_schema.py] and [schemas/student_schema.py] *)

Module Proof.
Record t := { type : string; url : string }.
End Proof.

Module Bullet.
Record t := {
    description : string;
    skills : list string;
    verified : bool;
    proofs : option (list Proof.t)
  }.
End Bullet.

Module Project.
Record t := {
    name : string;
    description : string;
    skills : list string;
    bullets : list Bullet.t
  }.
End Project.

Module Education.
Record t := {
    institution : string;
    degree : option string;
    field_of_study : option string
  }.
End Education.

Module Constraints.
Record t := {
    max_apps_per_day : Z;
    min_match_score : float;
    blocked_companies : list string
  }.
End Constraints.

Module StudentArtifactPack.
Record t := {
    source_resume_hash : string;
    skill_vocab : list string;
    education : list Education.t;
    projects : list Project.t;
    constraints : option Constraints.t
  }.
End StudentArtifactPack.

Module JobListing.
Record t := {
    job_id : string;
    company : string;
    role : string;
    location : string;
    required_skills : list string;
    min_experience_years : Z
  }.
End JobListing.

(** *** Dictionaries before validation

    The artifact workflow passes the pack around as a plain dictionary
    ([Dict[str, Any]]).  The type [B] is how a bullet dictionary is held:
    [RawBullet.t] itself for a decoded JSON value, an address for a bullet
    that is shared between several packs (see [Heap] below). *)

Module RawBullet.
  (** The value under ["verified"] is whatever the dictionary holds: the
      workflow tests it in conditions and only the execution schema asks
      for a boolean. *)
Record t := {
    description : option string;
    skills : list string;
    verified : option pyval;
    proofs : option (list Proof.t)
  }.
#[global] Instance inhabited : Inhabited t :=
    populate {| description := None; skills := []; verified := None;
                proofs := None |}.

  (** [bullet.get('verified', False)]. *)
Definition get_verified (bullet : t) : pyval := default (PyBool false) (verified bullet).
End RawBullet.

Module RawProject.
Record t (B : Type) := {
    name : string;
    description : string;
    skills : list string;
    bullets : option (list B)
  }.
Arguments name {B}.
Arguments description {B}.
Arguments skills {B}.
Arguments bullets {B}.
End RawProject.

Module RawPack.
Record t (B : Type) := {
    source_resume_hash : option string;
    skill_vocab : option (list string);
    education : option (list Education.t);
    projects : option (list (RawProject.t B));
    constraints : option Constraints.t
  }.
Arguments source_resume_hash {B}.
Arguments skill_vocab {B}.
Arguments education {B}.
Arguments projects {B}.
Arguments constraints {B}.

  (** [field in v]. *)
Definition contains {B} (v : t B) (field : string) : bool :=
    if decide (field = "source_resume_hash") then bool_decide (is_Some (source_resume_hash v))
    else if decide (field = "skill_vocab") then bool_decide (is_Some (skill_vocab v))
    else if decide (field = "education") then bool_decide (is_Some (education v))
    else if decide (field = "projects") then bool_decide (is_Some (projects v))
    else if decide (field = "constraints") then bool_decide (is_Some (constraints v))
    else false.

  (** Every bullet of the pack, project by project. *)
Definition all_bullets {B} (v : t B) : list B :=
    concat (map (λ p, default [] (RawProject.bullets p)) (default [] (projects v))).
End RawPack.

Module RawJob.
  (** [extra] lists the keys of the dictionary beyond the six of the
      schema. *)
Record t := {
    job_id : string;
    company : string;
    role : string;
    location : string;
    required_skills : list string;
    min_experience_years : Z;
    extra : list string
  }.
End RawJob.

(** *** Validators of the execution format

    Pydantic reports all failures of a construction in one
    [ValidationError]; the embedding keeps the message of the first. *)

(** The construction of a [Bullet]: the required fields, [StrictBool] on
    [verified] (only [True] and [False] pass), then [check_verified]. *)
Definition validate_bullet (b : RawBullet.t) : result Bullet.t :=
  match RawBullet.description b, RawBullet.verified b with
  | Some d, Some (PyBool v) =>
      if negb v then Raise (ValidationError "Every bullet must have verified == true")
      else Ok {| Bullet.description := d; Bullet.skills := RawBullet.skills b;
                 Bullet.verified := v; Bullet.proofs := RawBullet.proofs b |}
  | Some d, Some _ => Raise (ValidationError "Input should be a valid boolean")
  | _, _ => Raise (ValidationError "Field required")
  end.

Fixpoint validate_list {A B} (f : A → result B) (l : list A) : result (list B) :=
  match l with
  | [] => Ok []
  | x :: l' => y ← f x; ys ← validate_list f l'; Ok (y :: ys)
  end.

Definition validate_project (p : RawProject.t RawBullet.t) : result Project.t :=
  match RawProject.bullets p with
  | None => Raise (ValidationError "Field required")
  | Some bs =>
      bs' ← validate_list validate_bullet bs;
      Ok {| Project.name := RawProject.name p;
            Project.description := RawProject.description p;
            Project.skills := RawProject.skills p;
            Project.bullets := bs' |}
  end.

(** [check_skill_vocab_unique]: [len(v) != len(set(v))]. *)
Definition check_skill_vocab_unique (v : list string) : result (list string) :=
  if decide (length v ≠ size (list_to_set v : gset string))
  then Raise (ValidationError "skill_vocab must contain only unique skills")
  else Ok v.

(** [validate_all_skills_and_bullets]. *)
Definition validate_all_skills_and_bullets (self : StudentArtifactPack.t)
  : result StudentArtifactPack.t :=
  let skill_vocab : gset string := list_to_set (StudentArtifactPack.skill_vocab self) in
  for_each (λ _ project,
      for_each (λ _ ps,
          if decide (ps ∉ skill_vocab)
          then Raise (ValidationError ("Project skill '" +:+ ps +:+ "' in project '"
                        +:+ Project.name project +:+ "' is not in skill_vocab"))
          else Ok ()) (Project.skills project) ();;
      for_each (λ _ bullet,
          for_each (λ _ bs,
              if decide (bs ∉ skill_vocab)
              then Raise (ValidationError ("Bullet skill '" +:+ bs +:+ "' in project '"
                            +:+ Project.name project +:+ "' is not in skill_vocab"))
              else Ok ()) (Bullet.skills bullet) ())
        (Project.bullets project) ())
    (StudentArtifactPack.projects self) ();;
  Ok self.

(** The construction of a [StudentArtifactPack] from [student_data]. *)
Definition validate_student (d : RawPack.t RawBullet.t) : result StudentArtifactPack.t :=
  match RawPack.source_resume_hash d, RawPack.skill_vocab d,
        RawPack.education d, RawPack.projects d with
  | Some h, Some vocab, Some edu, Some ps =>
      vocab' ← check_skill_vocab_unique vocab;
      ps' ← validate_list validate_project ps;
      validate_all_skills_and_bullets
        {| StudentArtifactPack.source_resume_hash := h;
           StudentArtifactPack.skill_vocab := vocab';
           StudentArtifactPack.education := edu;
           StudentArtifactPack.projects := ps';
           StudentArtifactPack.constraints := RawPack.constraints d |}
  | _, _, _, _ => Raise (ValidationError "Field required")
  end.

(** The construction of a [JobListing] from [j]: [extra='forbid'] and
    [min_experience_years_non_negative]. *)
Definition validate_job (j : RawJob.t) : result JobListing.t :=
  match RawJob.extra j with
  | _ :: _ => Raise (ValidationError "Extra inputs are not permitted")
  | [] =>
      if (RawJob.min_experience_years j <? 0)%Z
      then Raise (ValidationError "min_experience_years must be >= 0")
      else Ok {| JobListing.job_id := RawJob.job_id j;
                 JobListing.company := RawJob.company j;
                 JobListing.role := RawJob.role j;
                 JobListing.location := RawJob.location j;
                 JobListing.required_skills := RawJob.required_skills j;
                 JobListing.min_experience_years := RawJob.min_experience_years j |}
  end.

(** ** [backend/models.py] *)

Module BulletVerification.
  (** One entry of [bullets_verified], a [Dict[str, Any]] that the model
      does not check: each of the three keys the approval service reads
      may be absent and may hold any value. *)
Record t := {
    bullet_id : option pyval;
    verified : option pyval;
    user_modified : option pyval
  }.
End BulletVerification.

Module UserConfirmation.
Record t := {
    bullets_verified : list BulletVerification.t;
    accuracy_confirmed : bool;
    confirmation_timestamp : string
  }.
End UserConfirmation.

Module ApprovalMetadata.
Record t := {
    user_confirmation : option UserConfirmation.t;
    verification_count : option nat;
    modified_bullets : list pyval
  }.
Definition contains (v : t) (field : string) : bool :=
    if decide (field = "user_confirmation") then bool_decide (is_Some (user_confirmation v))
    else if decide (field = "verification_count") then bool_decide (is_Some (verification_count v))
    else if decide (field = "modified_bullets") then true
    else false.
End ApprovalMetadata.

Module ArtifactSnapshot.
Record t (B : Type) := {
    id : string;
    user_id : Z;
    student_artifact_pack : RawPack.t B;
    approved_at : Z;
    source_resume_hash : string;
    source_profile_hash : string;
    frozen : bool;
    approval_metadata : ApprovalMetadata.t
  }.
Arguments id {B}.
Arguments user_id {B}.
Arguments student_artifact_pack {B}.
Arguments approved_at {B}.
Arguments source_resume_hash {B}.
Arguments source_profile_hash {B}.
Arguments frozen {B}.
Arguments approval_metadata {B}.

Section Validators.
Context {B : Type} (rd : B → RawBullet.t).

Definition validate_frozen_always_true (v : bool) : result bool :=
      if negb v
      then Raise (ValidationError "ArtifactSnapshot must always be frozen (frozen: true)")
      else Ok v.

Definition validate_student_artifact_pack_structure (v : RawPack.t B)
      : result (RawPack.t B) :=
      let required_fields := ["source_resume_hash"; "skill_vocab"; "education"; "projects"] in
      for_each (λ _ field,
          if negb (RawPack.contains v field)
          then Raise (ValidationError ("StudentArtifactPack missing required field: " +:+ field))
          else Ok ()) required_fields ();;
      for_each (λ _ project,
          for_each (λ _ bullet,
              if negb (truthy (RawBullet.get_verified (rd bullet)))
              then Raise (ValidationError
                            "All bullets in approved ArtifactSnapshot must be verified: true")
              else Ok ())
            (default [] (RawProject.bullets project)) ())
        (default [] (RawPack.projects v)) ();;
      Ok v.

Definition validate_approval_metadata (v : ApprovalMetadata.t)
      : result ApprovalMetadata.t :=
      let required_fields := ["user_confirmation"; "verification_count"] in
      for_each (λ _ field,
          if negb (ApprovalMetadata.contains v field)
          then Raise (ValidationError ("Approval metadata missing required field: " +:+ field))
          else Ok ()) required_fields ();;
      Ok v.

    (** The constructor: fields are validated in declaration order. *)
Definition new (id : string) (user_id : Z) (student_artifact_pack : RawPack.t B)
        (approved_at : Z) (source_resume_hash source_profile_hash : string)
        (frozen : bool) (approval_metadata : ApprovalMetadata.t) : result (t B) :=
      pack ← validate_student_artifact_pack_structure student_artifact_pack;
      fr ← validate_frozen_always_true frozen;
      md ← validate_approval_metadata approval_metadata;
      Ok {| id := id; user_id := user_id; student_artifact_pack := pack;
            approved_at := approved_at; source_resume_hash := source_resume_hash;
            source_profile_hash := source_profile_hash; frozen := fr;
            approval_metadata := md |}.
End Validators.
End ArtifactSnapshot.

Module DraftArtifactPack.
Record t (B : Type) := {
    student_artifact_pack : RawPack.t B;
    status : string;
    created_at : Z;
    source_profile_hash : string
  }.
Arguments student_artifact_pack {B}.
Arguments status {B}.
Arguments created_at {B}.
Arguments source_profile_hash {B}.

Section Validators.
Context {B : Type} (rd : B → RawBullet.t).

Definition validate_status_is_draft (v : string) : result string :=
      if decide (v ≠ "DRAFT")
      then Raise (ValidationError
                   ("DraftArtifactPack status must always be " +:+ dquote +:+ "DRAFT" +:+ dquote))
      else Ok v.

Definition validate_no_verified_bullets (v : RawPack.t B) : result (RawPack.t B) :=
      for_each (λ _ project,
          for_each (λ _ bullet,
              if truthy (RawBullet.get_verified (rd bullet))
              then Raise (ValidationError
                            "Draft artifacts cannot contain verified: true bullets")
              else Ok ())
            (default [] (RawProject.bullets project)) ())
        (default [] (RawPack.projects v)) ();;
      Ok v.

Definition new (student_artifact_pack : RawPack.t B) (status : string)
        (created_at : Z) (source_profile_hash : string) : result (t B) :=
      pack ← validate_no_verified_bullets student_artifact_pack;
      st ← validate_status_is_draft status;
      Ok {| student_artifact_pack := pack; status := st; created_at := created_at;
            source_profile_hash := source_profile_hash |}.
End Validators.
End DraftArtifactPack.

(** ** [sandbox/portal.py] *)

(** The module-level generator of [random]: the values that successive
    calls of [random.random()] return, and how many were consumed. *)
Module Random.
Record t := { stream : nat → Q; pos : nat }.
Definition random (g : t) : Q * t :=
    (stream g (pos g), {| stream := stream g; pos := S (pos g) |}).
End Random.

Module SandboxJobPortal.
Record t := { _app_counter : N }.

  (** [SandboxJobPortal()]. *)
Definition init : t := {| _app_counter := 0 |}.

Record submission := { status : string; receipt_id : string }.

Definition FAILURE_RATE : Q := 5 # 100.

  (** [submit_application]; the generator is threaded through the call. *)
Definition submit_application {V} (self : t) (application : gmap string V)
      (g : Random.t) : result submission * t * Random.t :=
    let required_fields := ["job_id"; "student_id"; "content"] in
    let missing := filter (λ field, field ∉ dom application) required_fields in
    match missing with
    | _ :: _ =>
        (Raise (ValueError ("Missing required application field(s): " +:+ repr_list missing)),
         self, g)
    | [] =>
        let (draw, g) := Random.random g in
        if Qlt_le_dec draw FAILURE_RATE
        then (Raise (RuntimeError "Submission failed due to random rejection (sandbox mode)."),
              self, g)
        else
          let self := {| _app_counter := _app_counter self + 1 |} in
          let receipt_id := "sandbox-" +:+ format_06d (_app_counter self) in
          (Ok {| status := "submitted"; receipt_id := receipt_id |}, self, g)
    end.
End SandboxJobPortal.

(** ** [core/scorer.py] *)

(** The scorer computes on Python floats, that is on binary64 values:
    [+], [*], [/] and [<] below are the operations of [PrimFloat]. *)

(** [float(n)] for the length of a list; the division of two such lengths
    is the division of the floats as long as both are below 2^53. *)
Definition float_of_nat (n : nat) : float :=
  PrimFloat.of_uint63 (Uint63.of_Z (Z.of_nat n)).

(** [min(a, b)] and [max(a, b)] of two arguments: the first argument is
    kept unless the second is strictly smaller (larger). *)
Definition py_min (a b : float) : float := if PrimFloat.ltb b a then b else a.
Definition py_max (a b : float) : float := if PrimFloat.ltb a b then b else a.

Record explanation := {
    skill_overlap : float;
    experience_fit : float;
    constraint_match : float;
    final_score : float
  }.

Record score_result := { score : float; explanation_of : explanation }.

Definition score_job_match (student : StudentArtifactPack.t) (job : JobListing.t)
  : score_result :=
  let required_skills : gset string := list_to_set (JobListing.required_skills job) in
  let student_skills : gset string := list_to_set (StudentArtifactPack.skill_vocab student) in
  let skill_overlap : float :=
    if decide (required_skills = ∅) then 1.0%float
    else
      let matched := size (required_skills ∩ student_skills) in
      (float_of_nat matched / float_of_nat (size required_skills))%float in
  let experience_fit : float :=
    if (JobListing.min_experience_years job =? 0)%Z then 1.0%float else 0.0%float in
  let constraint_match : float := 1.0%float in
  let score : float :=
    (0.5 * skill_overlap + 0.3 * experience_fit + 0.2 * constraint_match)%float in
  let score := py_max 0.0%float (py_min 1.0%float score) in
  {| score := score;
     explanation_of := {| skill_overlap := skill_overlap;
                          experience_fit := experience_fit;
                          constraint_match := constraint_match;
                          final_score := score |} |}.

(** ** [core/generator.py] *)

Module ApplicationContent.
Record t := {
    selected_bullets : list Bullet.t;
    cover_paragraph : string;
    answers : gmap string string
  }.
End ApplicationContent.

(** The two nested loops that collect [relevant_verified_bullets]. *)
Definition relevant_verified_bullets (student : StudentArtifactPack.t)
    (job : JobListing.t) : list Bullet.t :=
  let job_skill_set : gset string := list_to_set (JobListing.required_skills job) in
  foldl (λ acc project,
      foldl (λ acc bullet,
          let bullet_skills_set : gset string := list_to_set (Bullet.skills bullet) in
          if decide (bullet_skills_set ∩ job_skill_set ≠ ∅)
          then acc ++ [bullet]
          else acc)
        acc (Project.bullets project))
    [] (StudentArtifactPack.projects student).

Definition generate_application_content (student : StudentArtifactPack.t)
    (job : JobListing.t) : option ApplicationContent.t * option string :=
  let relevant_verified_bullets := relevant_verified_bullets student job in
  match relevant_verified_bullets with
  | [] => (None, Some "NO_RELEVANT_VERIFIED_BULLETS")
  | _ :: _ =>
      let bullet_descriptions := map Bullet.description relevant_verified_bullets in
      let bullet_summary := join ", " bullet_descriptions in
      let cover_paragraph :=
        "I am applying for the " +:+ JobListing.role job
          +:+ " position. My background includes " +:+ bullet_summary +:+ "." in
      let answers : gmap string string := ∅ in
      let relevant_verified_bullets := take 3 relevant_verified_bullets in
      (Some {| ApplicationContent.selected_bullets := relevant_verified_bullets;
               ApplicationContent.cover_paragraph := cover_paragraph;
               ApplicationContent.answers := answers |}, None)
  end.

(** ** [core/tracker.py] *)

(** Modelled from the spec: [core/tracker.py] ([ApplicationTracker]) is not
    among the sources.  The tracker records one event per call of [track],
    with the job id, the status, an optional reason, an optional receipt id
    and a numeric timestamp, and exposes the accumulated list as [events];
    built without arguments it starts empty.  The timestamp of the [n]-th
    event of a tracker is read from [clock n].  The log path is left out. *)
Module ApplicationTracker.
Record event := {
    job_id : string;
    status : string;
    reason : option string;
    receipt_id : option string;
    timestamp : Z
  }.

Record t := { events : list event }.

Definition init : t := {| events := [] |}.

Definition track (clock : nat → Z) (self : t) (job_id status : string)
      (reason receipt_id : option string) : t :=
    {| events := events self ++
         [{| job_id := job_id; status := status; reason := reason;
             receipt_id := receipt_id; timestamp := clock (length (events self)) |}] |}.
End ApplicationTracker.

(** ** [backend/engine.py] *)

(** The values of the application dictionary. *)
Inductive app_value : Type :=
| AppStr (s : string)
| AppContent (c : ApplicationContent.t).

Module Summary.
Record t := {
    queued : nat;
    skipped : nat;
    submitted : nat;
    retried : nat;
    failed : nat
  }.
End Summary.

Module RunResult.
  (** The dictionary [run_autopilot] returns; an empty [summary] is
      [None]. *)
Record t := {
    success : bool;
    error : option string;
    summary : option Summary.t;
    tracker : option ApplicationTracker.t
  }.
End RunResult.

Module Engine.
  (** The local variables of the loop of [run_autopilot], the portal and
      the random generator. *)
Record loop_state := {
    tracker : ApplicationTracker.t;
    portal : SandboxJobPortal.t;
    gen : Random.t;
    queued : nat;
    skipped : nat;
    submitted : nat;
    failed : nat;
    retried : nat;
    apps_today : nat
  }.

Definition set_tracker (st : loop_state) (t : ApplicationTracker.t) : loop_state :=
    {| tracker := t; portal := portal st; gen := gen st; queued := queued st;
       skipped := skipped st; submitted := submitted st; failed := failed st;
       retried := retried st; apps_today := apps_today st |}.

Definition set_portal (st : loop_state) (p : SandboxJobPortal.t) (g : Random.t)
    : loop_state :=
    {| tracker := tracker st; portal := p; gen := g; queued := queued st;
       skipped := skipped st; submitted := submitted st; failed := failed st;
       retried := retried st; apps_today := apps_today st |}.

  (** [queued += dq], [skipped += ds], ... *)
Definition add_counts (st : loop_state) (dq ds dsub df dr da : nat) : loop_state :=
    {| tracker := tracker st; portal := portal st; gen := gen st;
       queued := queued st + dq; skipped := skipped st + ds;
       submitted := submitted st + dsub; failed := failed st + df;
       retried := retried st + dr; apps_today := apps_today st + da |}.

Section WithCollaborators.
    (** [core.validator.validate_job_for_scoring] is not among the sources;
        it is a parameter, and so is the two-decimal formatting of a
        float ([f"{x:.2f}"]). *)
Variable validate_job_for_scoring :
      StudentArtifactPack.t → JobListing.t → nat → result (bool * option string).
Variable format_2f : float → string.
Variable clock : nat → Z.

Definition track (st : loop_state) (job_id status : string)
        (reason receipt_id : option string) : loop_state :=
      set_tracker st (ApplicationTracker.track clock (tracker st) job_id status reason receipt_id).

    (** Lines 117-142: the submission and its retry. *)
Definition submit_with_retry (st : loop_state) (job_id : string)
        (application : gmap string app_value) : loop_state :=
      let '(r1, p, g) := SandboxJobPortal.submit_application (portal st) application (gen st) in
      let st := set_portal st p g in
      match r1 with
      | Ok submission_result =>
          let st := track st job_id "submitted" None
                      (Some (SandboxJobPortal.receipt_id submission_result)) in
          add_counts st 0 0 1 0 0 0
      | Raise e1 =>
          let '(r2, p, g) := SandboxJobPortal.submit_application (portal st) application (gen st) in
          let st := set_portal st p g in
          match r2 with
          | Ok submission_result =>
              let st := track st job_id "retried" None
                          (Some (SandboxJobPortal.receipt_id submission_result)) in
              add_counts st 0 0 0 0 1 0
          | Raise e2 =>
              let st := track st job_id "failed"
                          (Some ("Submission failed twice: " +:+ str_exn e2)) None in
              add_counts st 0 0 0 1 0 0
          end
      end.

Definition skip (st : loop_state) (job_id : string) (reason : option string)
      : loop_state :=
      add_counts (track st job_id "skipped" reason None) 0 1 0 0 0 0.

    (** The body of [for job in jobs]. *)
Definition process_job (student : StudentArtifactPack.t) (st : loop_state)
        (job : JobListing.t) : result loop_state :=
      let job_id := JobListing.job_id job in
      let st := add_counts (track st job_id "queued" None None) 1 0 0 0 0 0 in
      '(ok, not_allowed_reason) ← validate_job_for_scoring student job (apps_today st);
      if negb ok then Ok (skip st job_id not_allowed_reason)
      else
        let score_result := score_job_match student job in
        let score := score score_result in
        match StudentArtifactPack.constraints student with
        | None =>
            Raise (AttributeError "'NoneType' object has no attribute 'min_match_score'")
        | Some c =>
            let min_score := Constraints.min_match_score c in
            if PrimFloat.ltb score min_score
            then
              let reason := "Score " +:+ format_2f score +:+ " < required "
                              +:+ format_2f min_score in
              Ok (skip st job_id (Some reason))
            else
              match generate_application_content student job with
              | (None, skip_reason) => Ok (skip st job_id skip_reason)
              | (Some app_content, _) =>
                  let application : gmap string app_value :=
                    {[ "job_id" := AppStr job_id;
                       "student_id" := AppStr (StudentArtifactPack.source_resume_hash student);
                       "content" := AppContent app_content ]} in
                  let st := submit_with_retry st job_id application in
                  Ok (add_counts st 0 0 0 0 0 1)
              end
        end.

    (** The loop that validates the job entries: the first malformed entry
        ends the run with a failure result ([inl]). *)
Fixpoint validate_jobs (idx : nat) (jobs_data : list RawJob.t) (jobs : list JobListing.t)
      : RunResult.t + list JobListing.t :=
      match jobs_data with
      | [] => inr jobs
      | j :: rest =>
          match validate_job j with
          | Ok job => validate_jobs (S idx) rest (jobs ++ [job])
          | Raise e =>
              inl {| RunResult.success := false;
                     RunResult.error :=
                       Some ("Job entry #" +:+ str_nat (idx + 1)
                               +:+ " schema validation failed: " +:+ str_exn e);
                     RunResult.summary := None;
                     RunResult.tracker := None |}
          end
      end.

Definition run_autopilot (student_data : RawPack.t RawBullet.t)
        (jobs_data : list RawJob.t) (tracker : option ApplicationTracker.t)
        (g : Random.t) : result RunResult.t :=
      match validate_student student_data with
      | Raise e =>
          Ok {| RunResult.success := false;
                RunResult.error :=
                  Some ("Student profile schema validation failed: " +:+ str_exn e);
                RunResult.summary := None;
                RunResult.tracker := None |}
      | Ok student =>
          match validate_jobs 0 jobs_data [] with
          | inl failure => Ok failure
          | inr jobs =>
              let tracker := default ApplicationTracker.init tracker in
              let portal := SandboxJobPortal.init in
              let st := {| tracker := tracker; portal := portal; gen := g;
                           queued := 0; skipped := 0; submitted := 0; failed := 0;
                           retried := 0; apps_today := 0 |} in
              st ← for_each (process_job student) jobs st;
              let summary := {| Summary.queued := queued st;
                                Summary.skipped := skipped st;
                                Summary.submitted := submitted st;
                                Summary.retried := retried st;
                                Summary.failed := failed st |} in
              Ok {| RunResult.success := true;
                    RunResult.error := None;
                    RunResult.summary := Some summary;
                    RunResult.tracker := Some (Engine.tracker st) |}
          end
      end.
End WithCollaborators.
End Engine.

(** ** [backend/database.py] *)

Module JobRow.
Record t := {
    job_id : string;
    company : string;
    role : string;
    location : string;
    required_skills : list string;
    min_experience_years : Z;
    description : option string;
    salary_range : option string;
    job_type : option string;
    posted_date : option string;
    expires_date : option string;
    is_active : bool
  }.
End JobRow.

Module RunRow.
  (** [profile_snapshot] is [None] for the literal ['{}']. *)
Record t := {
    id : Z;
    user_id : Z;
    profile_snapshot : option (RawPack.t RawBullet.t);
    job_ids : list string;
    status : string;
    summary_data : option Summary.t;
    log_path : option string
  }.
End RunRow.

Module HistoryRow.
Record t := {
    id : Z;
    user_id : Z;
    run_id : Z;
    job_id : string;
    company : string;
    role : string;
    status : string;
    skip_reason : option string;
    receipt_id : option string;
    timestamp : Z
  }.
End HistoryRow.

Module DraftRow.
Record t := {
    id : string;
    user_id : Z;
    student_artifact_pack : RawPack.t RawBullet.t;
    source_profile_hash : string
  }.
End DraftRow.

Module SnapshotRow.
Record t := {
    id : string;
    user_id : Z;
    student_artifact_pack : RawPack.t RawBullet.t;
    approved_at : Z;
    source_resume_hash : string;
    source_profile_hash : string;
    approval_metadata : ApprovalMetadata.t;
    integrity_hash : string
  }.
End SnapshotRow.

(** One entry of the list handed to [save_application_history]. *)
Module Application.
Record t := {
    job_id : string;
    status : string;
    reason : option string;
    receipt_id : option string;
    timestamp : Z;
    company : option string;
    role : option string
  }.
End Application.

Module PersistentDatabase.
  (** The tables the artifact workflow and the gateway touch, with the
      row-id sequences of the two [AUTOINCREMENT] tables. *)
Record t := {
    job_listings : list JobRow.t;
    autopilot_runs : list RunRow.t;
    autopilot_runs_seq : Z;
    application_history : list HistoryRow.t;
    application_history_seq : Z;
    draft_artifacts : list DraftRow.t;
    artifact_snapshots : list SnapshotRow.t
  }.

Definition set_runs (db : t) (runs : list RunRow.t) (seq : Z) : t :=
    {| job_listings := job_listings db; autopilot_runs := runs;
       autopilot_runs_seq := seq;
       application_history := application_history db;
       application_history_seq := application_history_seq db;
       draft_artifacts := draft_artifacts db;
       artifact_snapshots := artifact_snapshots db |}.

Definition set_history (db : t) (rows : list HistoryRow.t) (seq : Z) : t :=
    {| job_listings := job_listings db; autopilot_runs := autopilot_runs db;
       autopilot_runs_seq := autopilot_runs_seq db;
       application_history := rows; application_history_seq := seq;
       draft_artifacts := draft_artifacts db;
       artifact_snapshots := artifact_snapshots db |}.

Definition set_artifacts (db : t) (drafts : list DraftRow.t)
      (snapshots : list SnapshotRow.t) : t :=
    {| job_listings := job_listings db; autopilot_runs := autopilot_runs db;
       autopilot_runs_seq := autopilot_runs_seq db;
       application_history := application_history db;
       application_history_seq := application_history_seq db;
       draft_artifacts := drafts; artifact_snapshots := snapshots |}.

  (** [get_job_by_id]: the dictionary built from the row has the six keys
      of the job schema and five more. *)
Definition get_job_by_id (self : t) (job_id : string) : option RawJob.t :=
    match filter (λ r, JobRow.job_id r = job_id ∧ JobRow.is_active r = true)
                 (job_listings self) with
    | [] => None
    | row :: _ =>
        Some {| RawJob.job_id := JobRow.job_id row;
                RawJob.company := JobRow.company row;
                RawJob.role := JobRow.role row;
                RawJob.location := JobRow.location row;
                RawJob.required_skills := JobRow.required_skills row;
                RawJob.min_experience_years := JobRow.min_experience_years row;
                RawJob.extra := ["description"; "salary_range"; "job_type";
                                 "posted_date"; "expires_date"] |}
    end.

  (** The parameters of [create_autopilot_run], after [self]. *)
Definition create_autopilot_run_params : list string := ["user_id"; "job_ids"].

Definition create_autopilot_run (self : t) (user_id : Z) (job_ids : list string)
    : Z * t :=
    let lastrowid := (autopilot_runs_seq self + 1)%Z in
    (lastrowid,
     set_runs self
       (autopilot_runs self ++
          [{| RunRow.id := lastrowid; RunRow.user_id := user_id;
              RunRow.profile_snapshot := None; RunRow.job_ids := job_ids;
              RunRow.status := "running"; RunRow.summary_data := None;
              RunRow.log_path := None |}])
       lastrowid).

Definition complete_autopilot_run (self : t) (run_id : Z) (summary_data : option Summary.t)
      (log_path : string) : t :=
    set_runs self
      (map (λ r, if decide (RunRow.id r = run_id)
                 then {| RunRow.id := RunRow.id r; RunRow.user_id := RunRow.user_id r;
                         RunRow.profile_snapshot := RunRow.profile_snapshot r;
                         RunRow.job_ids := RunRow.job_ids r;
                         RunRow.status := "completed";
                         RunRow.summary_data := summary_data;
                         RunRow.log_path := Some log_path |}
                 else r) (autopilot_runs self))
      (autopilot_runs_seq self).

  (** [x or y] on optional strings: an absent or empty [x] gives [y]. *)
Definition str_or (x : option string) (y : string) : string :=
    match x with
    | Some s => if decide (s = "") then y else s
    | None => y
    end.

Definition save_application_history (self : t) (user_id run_id : Z)
      (applications : list Application.t) : t :=
    foldl (λ db app,
        let company := Application.company app in
        let role := Application.role app in
        let job_details := get_job_by_id self (Application.job_id app) in
        let company := str_or company (from_option RawJob.company "Unknown" job_details) in
        let role := str_or role (from_option RawJob.role "Unknown" job_details) in
        let rowid := (application_history_seq db + 1)%Z in
        set_history db
          (application_history db ++
             [{| HistoryRow.id := rowid; HistoryRow.user_id := user_id;
                 HistoryRow.run_id := run_id;
                 HistoryRow.job_id := Application.job_id app;
                 HistoryRow.company := company; HistoryRow.role := role;
                 HistoryRow.status := Application.status app;
                 HistoryRow.skip_reason := Application.reason app;
                 HistoryRow.receipt_id := Application.receipt_id app;
                 HistoryRow.timestamp := Application.timestamp app |}])
          rowid)
      self applications.

  (** [save_artifact_snapshot]; [now] is [CURRENT_TIMESTAMP].  The id is
      the primary key of the table. *)
Definition save_artifact_snapshot (self : t) (snapshot_id : string) (user_id : Z)
      (student_artifact_pack : RawPack.t RawBullet.t)
      (source_resume_hash source_profile_hash : string)
      (approval_metadata : ApprovalMetadata.t) (integrity_hash : string) (now : Z)
    : result bool * t :=
    if decide (snapshot_id ∈ map SnapshotRow.id (artifact_snapshots self))
    then (Raise (IntegrityError "UNIQUE constraint failed: artifact_snapshots.id"), self)
    else
      (Ok true,
       set_artifacts self (draft_artifacts self)
         (artifact_snapshots self ++
            [{| SnapshotRow.id := snapshot_id; SnapshotRow.user_id := user_id;
                SnapshotRow.student_artifact_pack := student_artifact_pack;
                SnapshotRow.approved_at := now;
                SnapshotRow.source_resume_hash := source_resume_hash;
                SnapshotRow.source_profile_hash := source_profile_hash;
                SnapshotRow.approval_metadata := approval_metadata;
                SnapshotRow.integrity_hash := integrity_hash |}])).

  (** The row [ORDER BY approved_at DESC LIMIT 1] selects; among rows of
      equal time the earliest stored is kept. *)
Definition latest_snapshot (rows : list SnapshotRow.t) : option SnapshotRow.t :=
    foldl (λ best r,
        match best with
        | None => Some r
        | Some b =>
            if (SnapshotRow.approved_at b <? SnapshotRow.approved_at r)%Z
            then Some r else Some b
        end) None rows.

  (** [get_current_artifact_snapshot]: the dictionary always carries
      ["frozen": True], which the caller reads back. *)
Definition get_current_artifact_snapshot (self : t) (user_id : Z)
    : option (SnapshotRow.t * bool) :=
    row ← latest_snapshot
            (filter (λ r, SnapshotRow.user_id r = user_id) (artifact_snapshots self));
    Some (row, true).

Definition delete_draft_artifacts (self : t) (user_id : Z) : bool * t :=
    let kept := filter (λ r, DraftRow.user_id r ≠ user_id) (draft_artifacts self) in
    (bool_decide (length kept < length (draft_artifacts self)),
     set_artifacts self kept (artifact_snapshots self)).
End PersistentDatabase.

(** ** [backend/artifact_services.py] *)

(** *** The heap of bullet dictionaries

    [_apply_user_verifications] assigns to [bullet["verified"]] on
    dictionaries that are reachable from more than one pack, so the bullets
    of a pack held in memory are addresses into a heap.  The dictionaries
    above them (pack, project list, project) are never assigned to and stay
    values. *)

Abbreviation loc := nat (only parsing).
Abbreviation heap := (gmap nat RawBullet.t) (only parsing).

Definition set_verified (h : heap) (bullet : loc) (v : pyval) : heap :=
  let b := h !!! bullet in
  <[bullet := {| RawBullet.description := RawBullet.description b;
                 RawBullet.skills := RawBullet.skills b;
                 RawBullet.verified := Some v;
                 RawBullet.proofs := RawBullet.proofs b |}]> h.

(** What a pack held in memory looks like when its bullets are read
    (this is also what [json.dumps] writes). *)
Definition resolve_project (h : heap) (p : RawProject.t loc) : RawProject.t RawBullet.t :=
  {| RawProject.name := RawProject.name p;
     RawProject.description := RawProject.description p;
     RawProject.skills := RawProject.skills p;
     RawProject.bullets := map (λ l, h !!! l) <$> RawProject.bullets p |}.

Definition resolve (h : heap) (v : RawPack.t loc) : RawPack.t RawBullet.t :=
  {| RawPack.source_resume_hash := RawPack.source_resume_hash v;
     RawPack.skill_vocab := RawPack.skill_vocab v;
     RawPack.education := RawPack.education v;
     RawPack.projects := map (resolve_project h) <$> RawPack.projects v;
     RawPack.constraints := RawPack.constraints v |}.

(** [d.copy()] on a pack: a new top-level dictionary with the same values;
    the project list, the projects and the bullets are the same objects. *)
Definition dict_copy {B} (v : RawPack.t B) : RawPack.t B := v.

(** [enumerate(l)]. *)
Definition enumerate {A} (l : list A) : list (nat * A) := imap (λ i x, (i, x)) l.

(** The memory and the store. *)
Record world := { mem : heap; db : PersistentDatabase.t }.

Module ApprovalService.
Definition _extract_bullets_from_draft {B} (artifact_pack : RawPack.t B) : list string :=
    foldl (λ bullet_ids '(i, project),
        foldl (λ bullet_ids '(j, bullet), bullet_ids ++ [bullet_id_of i j])
          bullet_ids (enumerate (default [] (RawProject.bullets project))))
      [] (enumerate (default [] (RawPack.projects artifact_pack))).

  (** [{bv["bullet_id"] for bv in bullets_verified}]: each entry is
      subscripted and its id hashed, in turn.  The set is only read with
      [in], so it is kept as the list of its members. *)
Definition bullet_id_set (bullets_verified : list BulletVerification.t)
    : result (list pyval) :=
    for_each (λ ids bv,
        bullet_id ← subscript "bullet_id" (BulletVerification.bullet_id bv);
        bullet_id ← hash_check bullet_id;
        Ok (ids ++ [bullet_id])) bullets_verified [].

  (** [bullet_id in ids] for a string. *)
Definition str_in (bullet_id : string) (ids : list pyval) : bool :=
    existsb (λ v, py_eq_str v bullet_id) ids.

Definition _validate_user_confirmation {B} (confirmation : UserConfirmation.t)
      (draft : DraftArtifactPack.t B) : result unit :=
    if negb (UserConfirmation.accuracy_confirmed confirmation)
    then Raise (ValueError "User must confirm accuracy checkbox")
    else
      match UserConfirmation.bullets_verified confirmation with
      | [] => Raise (ValueError "User must verify at least one bullet")
      | _ :: _ =>
          let draft_bullets :=
            _extract_bullets_from_draft (DraftArtifactPack.student_artifact_pack draft) in
          verified_bullet_ids ←
            bullet_id_set (UserConfirmation.bullets_verified confirmation);
          for_each (λ _ bullet_id,
              if negb (str_in bullet_id verified_bullet_ids)
              then Raise (ValueError ("Bullet " +:+ bullet_id +:+ " not verified by user"))
              else Ok ()) draft_bullets ()
      end.

  (** [{bv["bullet_id"]: bv["verified"] for bv in bullets_verified}]: key
      and value are subscripted, then the key is hashed; a later entry
      replaces an earlier one under the same key.  The dictionary is only
      read at positional ids, which are strings, so an entry under a key of
      another type is never found and is left out. *)
Definition verification_lookup_of (bullets_verified : list BulletVerification.t)
    : result (gmap string pyval) :=
    for_each (λ m bv,
        bullet_id ← subscript "bullet_id" (BulletVerification.bullet_id bv);
        verified ← subscript "verified" (BulletVerification.verified bv);
        bullet_id ← hash_check bullet_id;
        Ok (match bullet_id with
            | PyStr s => <[s := verified]> m
            | _ => m
            end)) bullets_verified ∅.

Definition _apply_user_verifications (draft_artifact_pack : RawPack.t loc)
      (confirmation : UserConfirmation.t) (h : heap) : result (RawPack.t loc * heap) :=
    let approved_pack := dict_copy draft_artifact_pack in
    verification_lookup ←
      verification_lookup_of (UserConfirmation.bullets_verified confirmation);
    let h :=
      foldl (λ h '(i, project),
          foldl (λ h '(j, bullet),
              let bullet_id := bullet_id_of i j in
              match verification_lookup !! bullet_id with
              | Some v => set_verified h bullet v
              | None => set_verified h bullet (PyBool false)
              end)
            h (enumerate (default [] (RawProject.bullets project))))
        h (enumerate (default [] (RawPack.projects approved_pack))) in
    Ok (approved_pack, h).

  (** [[bv["bullet_id"] for bv in bullets_verified if
      bv.get("user_modified", False)]]. *)
Definition modified_bullets_of (bullets_verified : list BulletVerification.t)
    : result (list pyval) :=
    for_each (λ ids bv,
        if truthy (default (PyBool false) (BulletVerification.user_modified bv))
        then
          bullet_id ← subscript "bullet_id" (BulletVerification.bullet_id bv);
          Ok (ids ++ [bullet_id])
        else Ok ids) bullets_verified [].

Section WithDigest.
    (** [hashlib.sha256(..).hexdigest()] and [datetime.isoformat()]. *)
Variable sha256_hexdigest : string → string.
Variable isoformat : Z → string.

Definition generate_integrity_hash {B} (self : ArtifactSnapshot.t B) : string :=
      sha256_hexdigest
        (str_Z (ArtifactSnapshot.user_id self) +:+ ":"
           +:+ ArtifactSnapshot.source_resume_hash self +:+ ":"
           +:+ isoformat (ArtifactSnapshot.approved_at self)).

    (** [submit_for_approval]; [snapshot_id] is the value of
        [str(uuid.uuid4())], [utcnow] the clock read by the constructor of
        the snapshot and [now] the one read by the store. *)
Definition submit_for_approval (draft : DraftArtifactPack.t loc)
        (user_confirmation : UserConfirmation.t) (user_id : Z)
        (snapshot_id : string) (utcnow now : Z) (w : world)
      : result (ArtifactSnapshot.t loc) * world :=
      match _validate_user_confirmation user_confirmation draft with
      | Raise e => (Raise e, w)
      | Ok _ =>
          match _apply_user_verifications (DraftArtifactPack.student_artifact_pack draft)
                  user_confirmation (mem w) with
          | Raise e => (Raise e, w)
          | Ok (approved_artifact_pack, h) =>
              let w := {| mem := h; db := db w |} in
              match modified_bullets_of
                      (UserConfirmation.bullets_verified user_confirmation) with
              | Raise e => (Raise e, w)
              | Ok modified_bullets =>
                  let approval_metadata :=
                    {| ApprovalMetadata.user_confirmation := Some user_confirmation;
                       ApprovalMetadata.verification_count :=
                         Some (length (UserConfirmation.bullets_verified user_confirmation));
                       ApprovalMetadata.modified_bullets := modified_bullets |} in
                  match RawPack.source_resume_hash approved_artifact_pack with
                  | None => (Raise (KeyError "source_resume_hash"), w)
                  | Some source_resume_hash =>
                      match ArtifactSnapshot.new (λ l, h !!! l) snapshot_id user_id
                              approved_artifact_pack utcnow source_resume_hash
                              (DraftArtifactPack.source_profile_hash draft) true
                              approval_metadata with
                      | Raise e => (Raise e, w)
                      | Ok snapshot =>
                          let integrity_hash := generate_integrity_hash snapshot in
                          let '(success, d) :=
                            PersistentDatabase.save_artifact_snapshot (db w)
                              (ArtifactSnapshot.id snapshot) user_id
                              (resolve h approved_artifact_pack)
                              (ArtifactSnapshot.source_resume_hash snapshot)
                              (ArtifactSnapshot.source_profile_hash snapshot)
                              approval_metadata integrity_hash now in
                          let w := {| mem := h; db := d |} in
                          match success with
                          | Raise e => (Raise e, w)
                          | Ok success =>
                              if negb success
                              then (Raise (RuntimeError
                                             "Failed to save artifact snapshot to database"), w)
                              else
                                let '(_, d) :=
                                  PersistentDatabase.delete_draft_artifacts (db w) user_id in
                                (Ok snapshot, {| mem := h; db := d |})
                          end
                      end
                  end
              end
          end
      end.
End WithDigest.

  (** [get_current_approved]: the snapshot is rebuilt, and so validated
      again, from the stored row. *)
Definition get_current_approved (d : PersistentDatabase.t) (user_id : Z)
    : result (option (ArtifactSnapshot.t RawBullet.t)) :=
    match PersistentDatabase.get_current_artifact_snapshot d user_id with
    | None => Ok None
    | Some (snapshot_data, frozen) =>
        s ← ArtifactSnapshot.new id
              (SnapshotRow.id snapshot_data) (SnapshotRow.user_id snapshot_data)
              (SnapshotRow.student_artifact_pack snapshot_data)
              (SnapshotRow.approved_at snapshot_data)
              (SnapshotRow.source_resume_hash snapshot_data)
              (SnapshotRow.source_profile_hash snapshot_data)
              frozen (SnapshotRow.approval_metadata snapshot_data);
        Ok (Some s)
    end.
End ApprovalService.

(** A call [f(k1=.., k2=..)] by keywords of a method whose parameters are
    [params]: a keyword that names no parameter is a [TypeError]. *)
Definition check_keywords (fname : string) (params keywords : list string)
  : result unit :=
  match filter (λ k, k ∉ params) keywords with
  | [] => Ok ()
  | k :: _ =>
      Raise (TypeError (fname +:+ "() got an unexpected keyword argument '" +:+ k +:+ "'"))
  end.

Module GatewayResult.
Record t := {
  success : bool;
  run_id : option Z;
  summary : option Summary.t;
  error : option string;
  approved_snapshot_id : string
}.
End GatewayResult.

Module EngineGateway.
Definition _validate_all_bullets_verified (artifact_pack : RawPack.t RawBullet.t)
  : result unit :=
  for_each (λ _ project,
      for_each (λ _ bullet,
          if negb (truthy (RawBullet.get_verified bullet))
          then Raise (ValueError ("Unverified bullet found in approved snapshot: "
                        +:+ default "Unknown" (RawBullet.description bullet)))
          else Ok ())
        (default [] (RawProject.bullets project)) ())
    (default [] (RawPack.projects artifact_pack)) ().

Definition application_of_event (event : ApplicationTracker.event) : Application.t :=
  {| Application.job_id := ApplicationTracker.job_id event;
     Application.status := ApplicationTracker.status event;
     Application.reason := ApplicationTracker.reason event;
     Application.receipt_id := ApplicationTracker.receipt_id event;
     Application.timestamp := ApplicationTracker.timestamp event;
     Application.company := None;
     Application.role := None |}.

Section WithCollaborators.
(** The gateway is built around an approval service handed to its
    constructor, and calls the engine it imports from [backend.engine]. *)
Variable get_current_approved :
  PersistentDatabase.t → Z → result (option (ArtifactSnapshot.t RawBullet.t)).
Variable run_autopilot :
  RawPack.t RawBullet.t → list RawJob.t → result RunResult.t.

(** The body of the [try] block (lines 378-419). *)
Definition execute (user_id : Z) (job_ids : list string)
    (current_snapshot : ArtifactSnapshot.t RawBullet.t)
    (approved_artifact_pack : RawPack.t RawBullet.t) (jobs_data : list RawJob.t)
    (d : PersistentDatabase.t) : result GatewayResult.t * PersistentDatabase.t :=
  match run_autopilot approved_artifact_pack jobs_data with
  | Raise e => (Raise e, d)
  | Ok result =>
      if RunResult.success result
      then
        match check_keywords "create_autopilot_run"
                PersistentDatabase.create_autopilot_run_params
                ["user_id"; "profile_snapshot"; "job_ids"] with
        | Raise e => (Raise e, d)
        | Ok _ =>
            let '(run_id, d) := PersistentDatabase.create_autopilot_run d user_id job_ids in
            let d :=
              match RunResult.tracker result with
              | Some tracker =>
                  let applications :=
                    foldl (λ applications event, applications ++ [application_of_event event])
                      [] (ApplicationTracker.events tracker) in
                  PersistentDatabase.save_application_history d user_id run_id applications
              | None => d
              end in
            let d := PersistentDatabase.complete_autopilot_run d run_id
                       (RunResult.summary result) "" in
            (Ok {| GatewayResult.success := true;
                   GatewayResult.run_id := Some run_id;
                   GatewayResult.summary := RunResult.summary result;
                   GatewayResult.error := None;
                   GatewayResult.approved_snapshot_id :=
                     ArtifactSnapshot.id current_snapshot |}, d)
        end
      else
        (Ok {| GatewayResult.success := false;
               GatewayResult.run_id := None;
               GatewayResult.summary := None;
               GatewayResult.error :=
                 Some (default "Engine execution failed" (RunResult.error result));
               GatewayResult.approved_snapshot_id :=
                 ArtifactSnapshot.id current_snapshot |}, d)
  end.

Definition validate_and_execute (user_id : Z) (job_ids : list string)
    (d : PersistentDatabase.t) : result GatewayResult.t * PersistentDatabase.t :=
  match get_current_approved d user_id with
  | Raise e => (Raise e, d)
  | Ok None =>
      (Raise (ValueError
                ("Engine execution requires approved artifact snapshot. "
                   +:+ "Please use the 'Prepare Application Artifacts' workflow first.")),
       d)
  | Ok (Some current_snapshot) =>
      if negb (ArtifactSnapshot.frozen current_snapshot)
      then (Raise (ValueError "Artifact snapshot must be frozen for engine execution"), d)
      else
        let approved_artifact_pack := ArtifactSnapshot.student_artifact_pack current_snapshot in
        match _validate_all_bullets_verified approved_artifact_pack with
        | Raise e => (Raise e, d)
        | Ok _ =>
            let jobs_data :=
              foldl (λ jobs_data job_id,
                  match PersistentDatabase.get_job_by_id d job_id with
                  | Some job => jobs_data ++ [job]
                  | None => jobs_data
                  end) [] job_ids in
            match jobs_data with
            | [] => (Raise (ValueError "No valid jobs found for execution"), d)
            | _ :: _ =>
                match execute user_id job_ids current_snapshot approved_artifact_pack
                        jobs_data d with
                | (Ok r, d) => (Ok r, d)
                | (Raise e, d) =>
                    (Ok {| GatewayResult.success := false;
                           GatewayResult.run_id := None;
                           GatewayResult.summary := None;
                           GatewayResult.error :=
                             Some ("Engine execution failed: " +:+ str_exn e);
                           GatewayResult.approved_snapshot_id :=
                             ArtifactSnapshot.id current_snapshot |}, d)
                end
            end
        end
  end.
End WithCollaborators.
End EngineGateway.

(** ** Sessions and observations used by the statements *)

(** Successive calls of [submit_application] on one portal instance. *)
Fixpoint submit_all {V} (self : SandboxJobPortal.t) (applications : list (gmap string V))
    (g : Random.t)
  : list (result SandboxJobPortal.submission) * SandboxJobPortal.t * Random.t :=
  match applications with
  | [] => ([], self, g)
  | application :: rest =>
      let '(r, self, g) := SandboxJobPortal.submit_application self application g in
      let '(rs, self, g) := submit_all self rest g in
      (r :: rs, self, g)
  end.

(** The receipt ids of the calls that returned. *)
Definition receipt_ids (rs : list (result SandboxJobPortal.submission)) : list string :=
  omap (λ r, match r with
             | Ok s => Some (SandboxJobPortal.receipt_id s)
             | Raise _ => None
             end) rs.

Fixpoint strip_prefix (p s : string) : option string :=
  match p, s with
  | EmptyString, _ => Some s
  | String a p', String b s' => if decide (a = b) then strip_prefix p' s' else None
  | String _ _, EmptyString => None
  end.

(** The number a receipt id of the form [sandbox-<digits>] carries. *)
Definition receipt_number (receipt_id : string) : option N :=
  digits ← strip_prefix "sandbox-" receipt_id;
  N.of_uint <$> NilEmpty.uint_of_string digits.
(** The required fields an application lacks, in the order of the check. *)
Definition missing_fields {V} (application : gmap string V) : list string :=
  filter (λ field, field ∉ dom application) ["job_id"; "student_id"; "content"].

(** The receipt id the next successful call on [self] is given. *)
Definition next_receipt (self : SandboxJobPortal.t) : string :=
  "sandbox-" +:+ format_06d (SandboxJobPortal._app_counter self + 1).

(** ** Concrete inputs used by the examples *)

(** A generator that always draws one half, and one that always draws
    zero. *)
Definition always_half : Random.t := {| Random.stream := λ _, 1 # 2; Random.pos := 0 |}.
Definition always_zero : Random.t := {| Random.stream := λ _, 0 # 1; Random.pos := 0 |}.

Definition complete_application : gmap string app_value :=
  {[ "job_id" := AppStr "job-1"; "student_id" := AppStr "abc123";
     "content" := AppStr "cover" ]}.

Definition partial_application : gmap string app_value :=
  {[ "job_id" := AppStr "job-1" ]}.

(** The pack and the job of the scoring example: required skills python
    and sql, a vocabulary that holds python only, no experience asked. *)
Definition example_constraints : Constraints.t :=
  {| Constraints.max_apps_per_day := 5;
     Constraints.min_match_score := 0.6%float;
     Constraints.blocked_companies := [] |}.

Definition example_student : StudentArtifactPack.t :=
  {| StudentArtifactPack.source_resume_hash := "abc123";
     StudentArtifactPack.skill_vocab := ["python"];
     StudentArtifactPack.education := [];
     StudentArtifactPack.projects := [];
     StudentArtifactPack.constraints := Some example_constraints |}.

Definition example_job : JobListing.t :=
  {| JobListing.job_id := "job-1";
     JobListing.company := "Acme";
     JobListing.role := "Developer";
     JobListing.location := "Remote";
     JobListing.required_skills := ["python"; "sql"];
     JobListing.min_experience_years := 0 |}.

(** Every bullet of a validated pack, project by project, and those among
    them that share a skill with the job. *)
Definition all_bullets (student : StudentArtifactPack.t) : list Bullet.t :=
  concat (map Project.bullets (StudentArtifactPack.projects student)).

Definition shares_skill (job : JobListing.t) (bullet : Bullet.t) : Prop :=
  Exists (λ s, s ∈ JobListing.required_skills job) (Bullet.skills bullet).

#[global] Instance shares_skill_dec job bullet : Decision (shares_skill job bullet).
Proof. unfold shares_skill. apply _. Defined.

(** The cover paragraph written from a list of bullets. *)
Definition cover_paragraph_of (job : JobListing.t) (bullets : list Bullet.t) : string :=
  "I am applying for the " +:+ JobListing.role job
    +:+ " position. My background includes "
    +:+ join ", " (map Bullet.description bullets) +:+ ".".

(** A pack with four bullets that all carry python. *)
Definition python_bullet (description : string) : Bullet.t :=
  {| Bullet.description := description; Bullet.skills := ["python"];
     Bullet.verified := true; Bullet.proofs := None |}.

Definition four_bullet_student : StudentArtifactPack.t :=
  {| StudentArtifactPack.source_resume_hash := "abc123";
     StudentArtifactPack.skill_vocab := ["python"];
     StudentArtifactPack.education := [];
     StudentArtifactPack.projects :=
       [{| Project.name := "crawler"; Project.description := "a crawler";
           Project.skills := ["python"];
           Project.bullets := [python_bullet "built a crawler";
                               python_bullet "wrote the parser";
                               python_bullet "added tests"] |};
        {| Project.name := "bot"; Project.description := "a bot";
           Project.skills := ["python"];
           Project.bullets := [python_bullet "shipped a bot"] |}];
     StudentArtifactPack.constraints := Some example_constraints |}.

(** The message of the portal's random rejection. *)
Definition rejection_message : string :=
  "Submission failed due to random rejection (sandbox mode).".

(** A job reaches the submission stage of the loop body when the
    validator allows it, the test [score < min_score] on the two floats is
    false and the generator returns content. *)
Definition reaches_submission
    (validate_job_for_scoring :
       StudentArtifactPack.t → JobListing.t → nat → result (bool * option string))
    (student : StudentArtifactPack.t) (apps_today : nat) (job : JobListing.t)
    (content : ApplicationContent.t) : Prop :=
  (∃ reason, validate_job_for_scoring student job apps_today = Ok (true, reason))
  ∧ (∃ c, StudentArtifactPack.constraints student = Some c
          ∧ PrimFloat.ltb (score (score_job_match student job))
                          (Constraints.min_match_score c) = false)
  ∧ ∃ reason, generate_application_content student job = (Some content, reason).

(** The application dictionary the loop body composes. *)
Definition application_for (student : StudentArtifactPack.t) (job : JobListing.t)
    (content : ApplicationContent.t) : gmap string app_value :=
  {[ "job_id" := AppStr (JobListing.job_id job);
     "student_id" := AppStr (StudentArtifactPack.source_resume_hash student);
     "content" := AppContent content ]}.

(** The event [track] appends to a tracker that holds [n] events. *)
Definition event_at (clock : nat → Z) (n : nat) (job_id status : string)
    (reason receipt_id : option string) : ApplicationTracker.event :=
  {| ApplicationTracker.job_id := job_id; ApplicationTracker.status := status;
     ApplicationTracker.reason := reason; ApplicationTracker.receipt_id := receipt_id;
     ApplicationTracker.timestamp := clock n |}.

(** A text includes another when the other occurs in it. *)
Definition includes (text part : string) : Prop :=
  ∃ before after, text = before +:+ part +:+ after.

(** A validator that allows every job, and the state in which the loop
    of a fresh run starts. *)
Definition allow_all (_ : StudentArtifactPack.t) (_ : JobListing.t) (_ : nat)
  : result (bool * option string) := Ok (true, None).

Definition initial_state (g : Random.t) : Engine.loop_state :=
  {| Engine.tracker := ApplicationTracker.init; Engine.portal := SandboxJobPortal.init;
     Engine.gen := g; Engine.queued := 0; Engine.skipped := 0; Engine.submitted := 0;
     Engine.failed := 0; Engine.retried := 0; Engine.apps_today := 0 |}.

(** A generator whose first draw is zero and whose later draws are one
    half: the first submission is rejected, the retry goes through. *)
Definition zero_then_half : Random.t :=
  {| Random.stream := λ n, match n with O => 0 # 1 | S _ => 1 # 2 end; Random.pos := 0 |}.

(** What the generator returns for the four-bullet pack and the example
    job. *)
Definition four_bullet_content : ApplicationContent.t :=
  {| ApplicationContent.selected_bullets :=
       [python_bullet "built a crawler"; python_bullet "wrote the parser";
        python_bullet "added tests"];
     ApplicationContent.cover_paragraph :=
       cover_paragraph_of example_job
         [python_bullet "built a crawler"; python_bullet "wrote the parser";
          python_bullet "added tests"; python_bullet "shipped a bot"];
     ApplicationContent.answers := ∅ |}.

Definition seconds (n : nat) : Z := Z.of_nat n.
Definition no_format (_ : float) : string := "?".

(** The statuses that end the processing of a job, and the number of
    events of a list that carry a given status. *)
Definition terminal_statuses : list string := ["skipped"; "submitted"; "retried"; "failed"].

Definition count_status (status : string) (events : list ApplicationTracker.event) : nat :=
  length (filter (λ e, ApplicationTracker.status e = status) events).

(** The two events of one job: it is queued, then it reaches one terminal
    outcome. *)
Definition tracked_as (job_id : string)
    (p : ApplicationTracker.event * ApplicationTracker.event) : Prop :=
  ApplicationTracker.job_id p.1 = job_id
  ∧ ApplicationTracker.status p.1 = "queued"
  ∧ ApplicationTracker.job_id p.2 = job_id
  ∧ ApplicationTracker.status p.2 ∈ terminal_statuses.

Definition events_of_pairs
    (pairs : list (ApplicationTracker.event * ApplicationTracker.event))
  : list ApplicationTracker.event :=
  concat (map (λ p, [p.1; p.2]) pairs).

(** The four-bullet pack and the example job as decoded dictionaries. *)
Definition raw_python_bullet (description : string) (verified : bool) : RawBullet.t :=
  {| RawBullet.description := Some description; RawBullet.skills := ["python"];
     RawBullet.verified := Some (PyBool verified); RawBullet.proofs := None |}.

Definition four_bullet_pack : RawPack.t RawBullet.t :=
  {| RawPack.source_resume_hash := Some "abc123";
     RawPack.skill_vocab := Some ["python"];
     RawPack.education := Some [];
     RawPack.projects :=
       Some [{| RawProject.name := "crawler"; RawProject.description := "a crawler";
                RawProject.skills := ["python"];
                RawProject.bullets :=
                  Some [raw_python_bullet "built a crawler" true;
                        raw_python_bullet "wrote the parser" true;
                        raw_python_bullet "added tests" true] |};
             {| RawProject.name := "bot"; RawProject.description := "a bot";
                RawProject.skills := ["python"];
                RawProject.bullets := Some [raw_python_bullet "shipped a bot" true] |}];
     RawPack.constraints := Some example_constraints |}.

Definition example_raw_job : RawJob.t :=
  {| RawJob.job_id := "job-1"; RawJob.company := "Acme"; RawJob.role := "Developer";
     RawJob.location := "Remote"; RawJob.required_skills := ["python"; "sql"];
     RawJob.min_experience_years := 0; RawJob.extra := [] |}.

(** A bullet dictionary counts as verified when [bullet.get('verified',
    False)] is true in a condition. *)
Definition is_verified (b : RawBullet.t) : bool := truthy (RawBullet.get_verified b).

(** A pack with one project and two bullets that are not verified yet. *)
Definition unverified_pack : RawPack.t RawBullet.t :=
  {| RawPack.source_resume_hash := Some "abc123";
     RawPack.skill_vocab := Some ["python"];
     RawPack.education := Some [];
     RawPack.projects :=
       Some [{| RawProject.name := "crawler"; RawProject.description := "a crawler";
                RawProject.skills := ["python"];
                RawProject.bullets :=
                  Some [raw_python_bullet "built a crawler" false;
                        raw_python_bullet "wrote the parser" false] |}];
     RawPack.constraints := Some example_constraints |}.

(** A pack whose only bullet holds the string ['no'] under [verified]. *)
Definition loosely_verified_bullet : RawBullet.t :=
  {| RawBullet.description := Some "built a crawler"; RawBullet.skills := ["python"];
     RawBullet.verified := Some (PyStr "no"); RawBullet.proofs := None |}.

Definition loosely_verified_pack : RawPack.t RawBullet.t :=
  {| RawPack.source_resume_hash := Some "abc123";
     RawPack.skill_vocab := Some ["python"];
     RawPack.education := Some [];
     RawPack.projects :=
       Some [{| RawProject.name := "crawler"; RawProject.description := "a crawler";
                RawProject.skills := ["python"];
                RawProject.bullets := Some [loosely_verified_bullet] |}];
     RawPack.constraints := Some example_constraints |}.

Definition empty_metadata : ApprovalMetadata.t :=
  {| ApprovalMetadata.user_confirmation := None;
     ApprovalMetadata.verification_count := None;
     ApprovalMetadata.modified_bullets := [] |}.

(** The first bullet of a pack, in project order, that is not verified. *)
Definition first_unverified (v : RawPack.t RawBullet.t) : option RawBullet.t :=
  List.find (λ bullet, negb (is_verified bullet)) (RawPack.all_bullets v).

(** The job dictionaries the gateway resolves from the store. *)
Definition resolve_jobs (d : PersistentDatabase.t) (job_ids : list string) : list RawJob.t :=
  omap (PersistentDatabase.get_job_by_id d) job_ids.

Definition no_snapshot_message : string :=
  "Engine execution requires approved artifact snapshot. "
    +:+ "Please use the 'Prepare Application Artifacts' workflow first.".

(** An approval service that hands out a given snapshot, whatever the
    store holds. *)
Definition handing_out (snapshot : ArtifactSnapshot.t RawBullet.t)
  : PersistentDatabase.t → Z → result (option (ArtifactSnapshot.t RawBullet.t)) :=
  λ _ _, Ok (Some snapshot).

(** The engine as the gateway calls it: no tracker is passed. *)
Definition engine_call
    (validate_job_for_scoring :
       StudentArtifactPack.t → JobListing.t → nat → result (bool * option string))
    (format_2f : float → string) (clock : nat → Z) (g : Random.t)
  : RawPack.t RawBullet.t → list RawJob.t → result RunResult.t :=
  λ student_data jobs_data,
    Engine.run_autopilot validate_job_for_scoring format_2f clock
      student_data jobs_data None g.

Definition empty_database : PersistentDatabase.t :=
  {| PersistentDatabase.job_listings := [];
     PersistentDatabase.autopilot_runs := [];
     PersistentDatabase.autopilot_runs_seq := 0;
     PersistentDatabase.application_history := [];
     PersistentDatabase.application_history_seq := 0;
     PersistentDatabase.draft_artifacts := [];
     PersistentDatabase.artifact_snapshots := [] |}.

Definition stored_confirmation : UserConfirmation.t :=
  {| UserConfirmation.bullets_verified :=
       [{| BulletVerification.bullet_id := Some (PyStr "project_0_bullet_0");
           BulletVerification.verified := Some (PyBool true);
           BulletVerification.user_modified := None |}];
     UserConfirmation.accuracy_confirmed := true;
     UserConfirmation.confirmation_timestamp := "2024-01-01T00:00:00" |}.

Definition example_metadata : ApprovalMetadata.t :=
  {| ApprovalMetadata.user_confirmation := Some stored_confirmation;
     ApprovalMetadata.verification_count := Some 1;
     ApprovalMetadata.modified_bullets := [] |}.

(** A snapshot object whose pack holds unverified bullets, frozen or
    not. *)
Definition corrupt_snapshot (frozen : bool) : ArtifactSnapshot.t RawBullet.t :=
  {| ArtifactSnapshot.id := "snap-1"; ArtifactSnapshot.user_id := 7;
     ArtifactSnapshot.student_artifact_pack := unverified_pack;
     ArtifactSnapshot.approved_at := 0;
     ArtifactSnapshot.source_resume_hash := "abc123";
     ArtifactSnapshot.source_profile_hash := "p-hash";
     ArtifactSnapshot.frozen := frozen;
     ArtifactSnapshot.approval_metadata := example_metadata |}.

Definition example_job_row : JobRow.t :=
  {| JobRow.job_id := "job-1"; JobRow.company := "Acme"; JobRow.role := "Developer";
     JobRow.location := "Remote"; JobRow.required_skills := ["python"; "sql"];
     JobRow.min_experience_years := 0; JobRow.description := None;
     JobRow.salary_range := None; JobRow.job_type := Some "full-time";
     JobRow.posted_date := None; JobRow.expires_date := None;
     JobRow.is_active := true |}.

(** A store with an approved, fully verified snapshot for user 7 and one
    active job listing. *)
Definition approved_database : PersistentDatabase.t :=
  {| PersistentDatabase.job_listings := [example_job_row];
     PersistentDatabase.autopilot_runs := [];
     PersistentDatabase.autopilot_runs_seq := 0;
     PersistentDatabase.application_history := [];
     PersistentDatabase.application_history_seq := 0;
     PersistentDatabase.draft_artifacts := [];
     PersistentDatabase.artifact_snapshots :=
       [{| SnapshotRow.id := "snap-1"; SnapshotRow.user_id := 7;
           SnapshotRow.student_artifact_pack := four_bullet_pack;
           SnapshotRow.approved_at := 10;
           SnapshotRow.source_resume_hash := "abc123";
           SnapshotRow.source_profile_hash := "p-hash";
           SnapshotRow.approval_metadata := example_metadata;
           SnapshotRow.integrity_hash := "i-hash" |}] |}.

(** The same store, where the pack of the stored snapshot is the one whose
    bullet holds ['no'] under [verified]. *)
Definition loosely_approved_database : PersistentDatabase.t :=
  {| PersistentDatabase.job_listings := [example_job_row];
     PersistentDatabase.autopilot_runs := [];
     PersistentDatabase.autopilot_runs_seq := 0;
     PersistentDatabase.application_history := [];
     PersistentDatabase.application_history_seq := 0;
     PersistentDatabase.draft_artifacts := [];
     PersistentDatabase.artifact_snapshots :=
       [{| SnapshotRow.id := "snap-1"; SnapshotRow.user_id := 7;
           SnapshotRow.student_artifact_pack := loosely_verified_pack;
           SnapshotRow.approved_at := 10;
           SnapshotRow.source_resume_hash := "abc123";
           SnapshotRow.source_profile_hash := "p-hash";
           SnapshotRow.approval_metadata := example_metadata;
           SnapshotRow.integrity_hash := "i-hash" |}] |}.

(** The positional ids of the bullets of a pack: [project_{i}_bullet_{j}]
    for the [j]-th bullet of the [i]-th project. *)
Definition positional_bullet_ids {B} (artifact_pack : RawPack.t B) : list string :=
  concat (imap (λ i project,
                  imap (λ j _, bullet_id_of i j) (default [] (RawProject.bullets project)))
               (default [] (RawPack.projects artifact_pack))).

(** The strings among the bullet ids of a confirmation. *)
Definition confirmed_ids (confirmation : UserConfirmation.t) : list string :=
  omap (λ bv, match BulletVerification.bullet_id bv with
              | Some (PyStr bullet_id) => Some bullet_id
              | _ => None
              end) (UserConfirmation.bullets_verified confirmation).

(** The first positional id of the draft that the confirmation does not
    list. *)
Definition first_missing {B} (draft : DraftArtifactPack.t B)
    (confirmation : UserConfirmation.t) : option string :=
  List.find (λ bullet_id, bool_decide (bullet_id ∉ confirmed_ids confirmation))
    (positional_bullet_ids (DraftArtifactPack.student_artifact_pack draft)).

(** Stand-ins for the digest and the time format in the examples. *)
Definition plain_digest (s : string) : string := s.
Definition plain_time (t : Z) : string := str_Z t.

(** A draft held in memory: its two bullets live at addresses 0 and 1. *)
Definition example_heap : gmap nat RawBullet.t :=
  {[ 0 := raw_python_bullet "built a crawler" false;
     1 := raw_python_bullet "wrote the parser" false ]}.

Definition draft_in_memory : DraftArtifactPack.t nat :=
  {| DraftArtifactPack.student_artifact_pack :=
       {| RawPack.source_resume_hash := Some "abc123";
          RawPack.skill_vocab := Some ["python"];
          RawPack.education := Some [];
          RawPack.projects :=
            Some [{| RawProject.name := "crawler"; RawProject.description := "a crawler";
                     RawProject.skills := ["python"];
                     RawProject.bullets := Some [0; 1] |}];
          RawPack.constraints := Some example_constraints |};
     DraftArtifactPack.status := "DRAFT";
     DraftArtifactPack.created_at := 0;
     DraftArtifactPack.source_profile_hash := "p-hash" |}.

Definition confirm (bullet_id : string) : BulletVerification.t :=
  {| BulletVerification.bullet_id := Some (PyStr bullet_id);
     BulletVerification.verified := Some (PyBool true);
     BulletVerification.user_modified := None |}.

(** A confirmation that lists the first bullet only, and one that lists
    both. *)
Definition partial_confirmation : UserConfirmation.t :=
  {| UserConfirmation.bullets_verified := [confirm "project_0_bullet_0"];
     UserConfirmation.accuracy_confirmed := true;
     UserConfirmation.confirmation_timestamp := "2024-01-01T00:00:00" |}.

Definition full_confirmation : UserConfirmation.t :=
  {| UserConfirmation.bullets_verified :=
       [confirm "project_0_bullet_0"; confirm "project_0_bullet_1"];
     UserConfirmation.accuracy_confirmed := true;
     UserConfirmation.confirmation_timestamp := "2024-01-01T00:00:00" |}.

(** A confirmation that lists both bullets with the string ['no'] under
    [verified]. *)
Definition loose_confirmation : UserConfirmation.t :=
  {| UserConfirmation.bullets_verified :=
       [{| BulletVerification.bullet_id := Some (PyStr "project_0_bullet_0");
           BulletVerification.verified := Some (PyStr "no");
           BulletVerification.user_modified := None |};
        {| BulletVerification.bullet_id := Some (PyStr "project_0_bullet_1");
           BulletVerification.verified := Some (PyStr "no");
           BulletVerification.user_modified := None |}];
     UserConfirmation.accuracy_confirmed := true;
     UserConfirmation.confirmation_timestamp := "2024-01-01T00:00:00" |}.

(** A confirmation whose only entry is the empty dictionary. *)
Definition confirmation_without_id : UserConfirmation.t :=
  {| UserConfirmation.bullets_verified :=
       [{| BulletVerification.bullet_id := None;
           BulletVerification.verified := None;
           BulletVerification.user_modified := None |}];
     UserConfirmation.accuracy_confirmed := true;
     UserConfirmation.confirmation_timestamp := "2024-01-01T00:00:00" |}.

(** An entry of a confirmation is well formed for the checks of the
    approval service when it has a [bullet_id] that can be hashed. *)
Definition has_bullet_id (bv : BulletVerification.t) : Prop :=
  ∃ v, BulletVerification.bullet_id bv = Some v ∧ hash_check v = Ok v.

(** It is well formed for the approval as a whole when it has a
    [verified] entry as well. *)
Definition has_verification (bv : BulletVerification.t) : Prop :=
  has_bullet_id bv ∧ is_Some (BulletVerification.verified bv).

(** The entry carries a boolean under [verified], if it has the key. *)
Definition boolean_verification (bv : BulletVerification.t) : Prop :=
  ∀ v, BulletVerification.verified bv = Some v → ∃ b, v = PyBool b.

Definition example_world : world := {| mem := example_heap; db := empty_database |}.

(** An engine that reports success without doing anything. *)
Definition reporting_success (_ : RawPack.t RawBullet.t) (_ : list RawJob.t)
  : result RunResult.t :=
  Ok {| RunResult.success := true; RunResult.error := None;
        RunResult.summary :=
          Some {| Summary.queued := 1; Summary.skipped := 0; Summary.submitted := 1;
                  Summary.retried := 0; Summary.failed := 0 |};
        RunResult.tracker := Some ApplicationTracker.init |}.

(** A job that asks for three years of experience. *)
Definition senior_job : JobListing.t :=
  {| JobListing.job_id := "job-2";
     JobListing.company := "Acme";
     JobListing.role := "Senior Developer";
     JobListing.location := "Remote";
     JobListing.required_skills := ["python"];
     JobListing.min_experience_years := 3 |}.

(** The receipt ids recorded in a list of events. *)
Definition tracked_receipts (events : list ApplicationTracker.event) : list string :=
  omap ApplicationTracker.receipt_id events.

(** What the loop of [run_autopilot] has done between the states [st] and
    [st']: [k] jobs were skipped, [a] submitted at the first attempt, [b]
    on the retry, and [c] failed twice. *)
Definition loop_effect (st st' : Engine.loop_state) (k a b c : nat) : Prop :=
  Random.stream (Engine.gen st') = Random.stream (Engine.gen st)
  ∧ Engine.skipped st' = Engine.skipped st + k
  ∧ Engine.submitted st' = Engine.submitted st + a
  ∧ Engine.retried st' = Engine.retried st + b
  ∧ Engine.failed st' = Engine.failed st + c
  ∧ Engine.apps_today st' = Engine.apps_today st + (a + b + c)
  ∧ Random.pos (Engine.gen st') = Random.pos (Engine.gen st) + (a + 2 * b + 2 * c)
  ∧ SandboxJobPortal._app_counter (Engine.portal st')
    = (SandboxJobPortal._app_counter (Engine.portal st) + N.of_nat (a + b))%N
  ∧ tracked_receipts (ApplicationTracker.events (Engine.tracker st'))
    = tracked_receipts (ApplicationTracker.events (Engine.tracker st))
      ++ map (λ i, "sandbox-" +:+ format_06d
                     (SandboxJobPortal._app_counter (Engine.portal st) + N.of_nat i))
             (seq 1 (a + b))
  ∧ ((∀ n, ¬ (Random.stream (Engine.gen st) n < SandboxJobPortal.FAILURE_RATE)%Q) →
     b = 0 ∧ c = 0).

(** The four-bullet pack with other constraints, or none. *)
Definition four_bullet_pack_with (c : option Constraints.t) : RawPack.t RawBullet.t :=
  {| RawPack.source_resume_hash := RawPack.source_resume_hash four_bullet_pack;
     RawPack.skill_vocab := RawPack.skill_vocab four_bullet_pack;
     RawPack.education := RawPack.education four_bullet_pack;
     RawPack.projects := RawPack.projects four_bullet_pack;
     RawPack.constraints := c |}.

Definition strict_constraints : Constraints.t :=
  {| Constraints.max_apps_per_day := 5;
     Constraints.min_match_score := 0.8%float;
     Constraints.blocked_companies := [] |}.

(** A pack whose vocabulary holds four of the five skills a job requires,
    with a minimum match score of 0.9. *)
Definition four_of_five_pack : RawPack.t RawBullet.t :=
  {| RawPack.source_resume_hash := Some "abc123";
     RawPack.skill_vocab := Some ["python"; "sql"; "go"; "rust"];
     RawPack.education := Some [];
     RawPack.projects :=
       Some [{| RawProject.name := "crawler"; RawProject.description := "a crawler";
                RawProject.skills := ["python"];
                RawProject.bullets := Some [raw_python_bullet "built a crawler" true] |}];
     RawPack.constraints :=
       Some {| Constraints.max_apps_per_day := 5;
               Constraints.min_match_score := 0.9%float;
               Constraints.blocked_companies := [] |} |}.

Definition five_skill_job : RawJob.t :=
  {| RawJob.job_id := "job-5"; RawJob.company := "Acme"; RawJob.role := "Developer";
     RawJob.location := "Remote";
     RawJob.required_skills := ["python"; "sql"; "go"; "rust"; "java"];
     RawJob.min_experience_years := 0; RawJob.extra := [] |}.

(** The example job entry with another experience requirement. *)
Definition raw_job_asking (years : Z) : RawJob.t :=
  {| RawJob.job_id := "job-2"; RawJob.company := "Acme"; RawJob.role := "Senior Developer";
     RawJob.location := "Remote"; RawJob.required_skills := ["python"];
     RawJob.min_experience_years := years; RawJob.extra := [] |}.

(** ** [backend/status_indicators.py]

    The functions return dictionaries with a fixed set of keys; each is a
    record, except the display status, whose keys differ from branch to
    branch and whose values are all optional strings. *)

(** The truth value of an [Optional[str]]: [None] and the empty string
    are false. *)
Definition str_truthy (s : option string) : bool :=
  match s with
  | Some s => if decide (s = "") then false else true
  | None => false
  end.

Module DraftIndicators.
Record t := {
    is_draft : bool;
    status_badge : string;
    status_color : string;
    total_bullets : nat;
    unverified_bullets : nat;
    verification_progress : string;
    ready_for_approval : bool;
    warning_message : string
  }.
End DraftIndicators.

Module ApprovedIndicators.
Record t := {
    is_approved : bool;
    status_badge : string;
    status_color : string;
    total_bullets : nat;
    verified_bullets : nat;
    frozen : bool;
    approved_at : string;
    success_message : string;
    integrity_hash : string
  }.
End ApprovedIndicators.

Module ExecutionStatus.
Record t := {
    execution_enabled : bool;
    status_message : string;
    status_class : string;
    button_text : string;
    button_enabled : bool;
    requirement_met : string
  }.
End ExecutionStatus.

Module WorkflowStep.
Record t := {
    step : Z;
    name : string;
    status : string;
    timestamp : option string;
    description : string
  }.
#[global] Instance inhabited : Inhabited t :=
    populate {| step := 0%Z; name := ""; status := ""; timestamp := None; description := "" |}.
End WorkflowStep.

Module WorkflowStatus.
Record t := {
    workflow_steps : list WorkflowStep.t;
    current_step : Z;
    overall_status : string;
    progress_percentage : Z;
    next_action : string
  }.
End WorkflowStatus.

Module StatusIndicators.
Section WithDigest.
Variable sha256_hexdigest : string → string.
Variable isoformat : Z → string.
Context {B : Type} (rd : B → RawBullet.t).

(** A model object is always true in a condition; only [None] is false. *)
Definition get_artifact_status_display (draft_artifact : option (DraftArtifactPack.t B))
    (approved_snapshot : option (ArtifactSnapshot.t B)) : gmap string (option string) :=
  match approved_snapshot with
  | Some approved_snapshot =>
      {[ "status" := Some "APPROVED";
         "status_class" := Some "success";
         "status_message" := Some "✅ Artifacts approved - Engine execution enabled";
         "action_required" := None;
         "approved_at" := Some (isoformat (ArtifactSnapshot.approved_at approved_snapshot));
         "snapshot_id" := Some (ArtifactSnapshot.id approved_snapshot) ]}
  | None =>
      match draft_artifact with
      | Some draft_artifact =>
          {[ "status" := Some "DRAFT";
             "status_class" := Some "warning";
             "status_message" := Some "⚠️ Draft artifacts - NOT APPROVED";
             "action_required" :=
               Some "Please review and approve artifacts before engine execution";
             "created_at" := Some (isoformat (DraftArtifactPack.created_at draft_artifact));
             "draft_status" := Some (DraftArtifactPack.status draft_artifact) ]}
      | None =>
          {[ "status" := Some "NONE";
             "status_class" := Some "info";
             "status_message" := Some "ℹ️ No artifacts generated";
             "action_required" := Some "Please generate artifacts from your profile first";
             "created_at" := None;
             "draft_status" := None ]}
      end
  end.

Definition get_draft_artifact_indicators (draft_artifact : DraftArtifactPack.t B)
    : DraftIndicators.t :=
  let student_pack := DraftArtifactPack.student_artifact_pack draft_artifact in
  let '(total_bullets, unverified_bullets) :=
    foldl (λ counts project,
        foldl (λ '(total_bullets, unverified_bullets) bullet,
            let total_bullets := total_bullets + 1 in
            if negb (truthy (RawBullet.get_verified (rd bullet)))
            then (total_bullets, unverified_bullets + 1)
            else (total_bullets, unverified_bullets))
          counts (default [] (RawProject.bullets project)))
      (0, 0) (default [] (RawPack.projects student_pack)) in
  {| DraftIndicators.is_draft := true;
     DraftIndicators.status_badge := "NOT APPROVED";
     DraftIndicators.status_color := "orange";
     DraftIndicators.total_bullets := total_bullets;
     DraftIndicators.unverified_bullets := unverified_bullets;
     DraftIndicators.verification_progress :=
       str_Z (Z.of_nat total_bullets - Z.of_nat unverified_bullets) +:+ "/"
         +:+ str_nat total_bullets +:+ " verified";
     DraftIndicators.ready_for_approval := bool_decide (unverified_bullets = 0);
     DraftIndicators.warning_message :=
       "⚠️ This is a DRAFT. All bullets must be verified before approval." |}.

Definition get_approved_artifact_indicators (approved_snapshot : ArtifactSnapshot.t B)
    : ApprovedIndicators.t :=
  let student_pack := ArtifactSnapshot.student_artifact_pack approved_snapshot in
  let '(total_bullets, verified_bullets) :=
    foldl (λ counts project,
        foldl (λ '(total_bullets, verified_bullets) bullet,
            let total_bullets := total_bullets + 1 in
            if truthy (RawBullet.get_verified (rd bullet))
            then (total_bullets, verified_bullets + 1)
            else (total_bullets, verified_bullets))
          counts (default [] (RawProject.bullets project)))
      (0, 0) (default [] (RawPack.projects student_pack)) in
  {| ApprovedIndicators.is_approved := true;
     ApprovedIndicators.status_badge := "APPROVED";
     ApprovedIndicators.status_color := "green";
     ApprovedIndicators.total_bullets := total_bullets;
     ApprovedIndicators.verified_bullets := verified_bullets;
     ApprovedIndicators.frozen := ArtifactSnapshot.frozen approved_snapshot;
     ApprovedIndicators.approved_at :=
       isoformat (ArtifactSnapshot.approved_at approved_snapshot);
     ApprovedIndicators.success_message :=
       "✅ Artifacts approved and frozen. Engine execution enabled.";
     ApprovedIndicators.integrity_hash :=
       ApprovalService.generate_integrity_hash sha256_hexdigest isoformat approved_snapshot |}.

Definition get_engine_execution_status (approved_snapshot : option (ArtifactSnapshot.t B))
    : ExecutionStatus.t :=
  match approved_snapshot with
  | Some _ =>
      {| ExecutionStatus.execution_enabled := true;
         ExecutionStatus.status_message := "✅ Engine execution enabled";
         ExecutionStatus.status_class := "success";
         ExecutionStatus.button_text := "Run Autopilot";
         ExecutionStatus.button_enabled := true;
         ExecutionStatus.requirement_met := "Approved artifacts available" |}
  | None =>
      {| ExecutionStatus.execution_enabled := false;
         ExecutionStatus.status_message := "❌ Engine execution disabled";
         ExecutionStatus.status_class := "danger";
         ExecutionStatus.button_text := "Approve Artifacts First";
         ExecutionStatus.button_enabled := false;
         ExecutionStatus.requirement_met :=
           "No approved artifacts - please generate and approve first" |}
  end.
End WithDigest.

(** [workflow_steps[current_step - 1]] is read with the total lookup: the
    index is one of 0..3 and the list has four entries. *)
Definition format_approval_workflow_status
    (user_profile_modified draft_created approved_at : option string) : WorkflowStatus.t :=
  let workflow_steps :=
    [ {| WorkflowStep.step := 1%Z; WorkflowStep.name := "Edit Profile";
         WorkflowStep.status :=
           if str_truthy user_profile_modified then "completed" else "pending";
         WorkflowStep.timestamp := user_profile_modified;
         WorkflowStep.description := "Create and edit your user profile" |};
      {| WorkflowStep.step := 2%Z; WorkflowStep.name := "Generate Draft";
         WorkflowStep.status := if str_truthy draft_created then "completed" else "pending";
         WorkflowStep.timestamp := draft_created;
         WorkflowStep.description := "Generate draft artifacts from profile" |};
      {| WorkflowStep.step := 3%Z; WorkflowStep.name := "Review & Approve";
         WorkflowStep.status := if str_truthy approved_at then "completed" else "pending";
         WorkflowStep.timestamp := approved_at;
         WorkflowStep.description := "Review and approve artifacts for engine use" |};
      {| WorkflowStep.step := 4%Z; WorkflowStep.name := "Engine Execution";
         WorkflowStep.status := if str_truthy approved_at then "enabled" else "disabled";
         WorkflowStep.timestamp := None;
         WorkflowStep.description := "Run autopilot with approved artifacts" |} ] in
  let '(current_step, overall_status) :=
    if str_truthy approved_at then (4%Z, "ready_for_execution")
    else if str_truthy draft_created then (3%Z, "awaiting_approval")
    else if str_truthy user_profile_modified then (2%Z, "awaiting_draft_generation")
    else (1%Z, "awaiting_profile") in
  {| WorkflowStatus.workflow_steps := workflow_steps;
     WorkflowStatus.current_step := current_step;
     WorkflowStatus.overall_status := overall_status;
     WorkflowStatus.progress_percentage := ((current_step - 1) * 25)%Z;
     WorkflowStatus.next_action :=
       if (current_step <=? 4)%Z
       then WorkflowStep.description (workflow_steps !!! Z.to_nat (current_step - 1))
       else "Execute autopilot" |}.
End StatusIndicators.

(** ** [backend/database.py]: user management

    The [users] table and its row-id sequence, held apart from the tables
    of the artifact workflow.  [now] is [CURRENT_TIMESTAMP]. *)

Module UserRow.
Record t := {
    id : Z;
    email : string;
    password_hash : string;
    created_at : Z;
    last_login : option Z;
    is_active : bool
  }.
End UserRow.

Module UserTable.
Record t := { users : list UserRow.t; users_seq : Z }.

(** [create_user]: the email column is [UNIQUE]. *)
Definition create_user (self : t) (email password_hash : string) (now : Z)
    : result Z * t :=
  if decide (email ∈ map UserRow.email (users self))
  then (Raise (IntegrityError "UNIQUE constraint failed: users.email"), self)
  else
    let lastrowid := (users_seq self + 1)%Z in
    (Ok lastrowid,
     {| users := users self ++
          [{| UserRow.id := lastrowid; UserRow.email := email;
              UserRow.password_hash := password_hash; UserRow.created_at := now;
              UserRow.last_login := None; UserRow.is_active := true |}];
        users_seq := lastrowid |}).

Definition get_user_by_email (self : t) (email : string) : option UserRow.t :=
  match filter (λ r, UserRow.email r = email) (users self) with
  | [] => None
  | row :: _ => Some row
  end.

Definition update_last_login (self : t) (user_id : Z) (now : Z) : t :=
  {| users :=
       map (λ r, if decide (UserRow.id r = user_id)
                 then {| UserRow.id := UserRow.id r; UserRow.email := UserRow.email r;
                         UserRow.password_hash := UserRow.password_hash r;
                         UserRow.created_at := UserRow.created_at r;
                         UserRow.last_login := Some now;
                         UserRow.is_active := UserRow.is_active r |}
                 else r) (users self);
     users_seq := users_seq self |}.
End UserTable.

(** ** [backend/auth.py] *)

Module AuthManager.
Record t := { db : UserTable.t; active_sessions : gmap string Z }.

(** [AuthManager(db)]. *)
Definition init (db : UserTable.t) : t := {| db := db; active_sessions := ∅ |}.

Section WithDigest.
(** [hashlib.sha256(s.encode()).hexdigest()]. *)
Variable sha256_hexdigest : string → string.

Definition hash_password (password : string) : string :=
  let salt := "job_app_platform_salt" in
  sha256_hexdigest (password +:+ salt).

Definition register_user (self : t) (email password : string) (now : Z)
    : (bool * string * option Z) * t :=
  match UserTable.get_user_by_email (db self) email with
  | Some existing_user => ((false, "User with this email already exists", None), self)
  | None =>
      let password_hash := hash_password password in
      match UserTable.create_user (db self) email password_hash now with
      | (Ok user_id, d) =>
          ((true, "User registered successfully", Some user_id),
           {| db := d; active_sessions := active_sessions self |})
      | (Raise e, d) =>
          ((false, "Registration failed: " +:+ str_exn e, None),
           {| db := d; active_sessions := active_sessions self |})
      end
  end.

(** [login_user]; [token] is the value of [secrets.token_urlsafe(32)]. *)
Definition login_user (self : t) (email password : string) (token : string) (now : Z)
    : (bool * string * option string * option Z) * t :=
  match UserTable.get_user_by_email (db self) email with
  | None => ((false, "Invalid email or password", None, None), self)
  | Some user =>
      if negb (UserRow.is_active user)
      then ((false, "Account is deactivated", None, None), self)
      else
        let password_hash := hash_password password in
        if decide (password_hash ≠ UserRow.password_hash user)
        then ((false, "Invalid email or password", None, None), self)
        else
          let sessions := <[token := UserRow.id user]> (active_sessions self) in
          let d := UserTable.update_last_login (db self) (UserRow.id user) now in
          ((true, "Login successful", Some token, Some (UserRow.id user)),
           {| db := d; active_sessions := sessions |})
  end.
End WithDigest.

Definition logout_user (self : t) (token : string) : bool * t :=
  if decide (token ∈ dom (active_sessions self))
  then (true, {| db := db self; active_sessions := delete token (active_sessions self) |})
  else (false, self).

Definition get_user_from_token (self : t) (token : string) : option Z :=
  active_sessions self !! token.

Definition is_authenticated (self : t) (token : string) : bool :=
  bool_decide (token ∈ dom (active_sessions self)).

(** [require_auth]: [not token] holds of [None] and of the empty string,
    [not user_id] of [None] and of 0. *)
Definition require_auth (self : t) (token : option string) : bool * option Z * string :=
  match token with
  | None => (false, None, "Authentication token required")
  | Some token =>
      if decide (token = "")
      then (false, None, "Authentication token required")
      else
        match get_user_from_token self token with
        | None => (false, None, "Invalid or expired token")
        | Some user_id =>
            if decide (user_id = 0%Z)
            then (false, None, "Invalid or expired token")
            else (true, Some user_id, "Authenticated")
        end
  end.
End AuthManager.

(** ** [backend/database.py]: job listings and application history

    Further methods of [PersistentDatabase] on the tables above. *)

(** The dictionary handed to [add_job_listing]: the keys read with
    [job_data[k]] are plain fields, those read with [job_data.get(k)]
    are optional; [job_type] is [None] when the key is absent. *)
Module JobData.
Record t := {
    job_id : string;
    company : string;
    role : string;
    location : string;
    required_skills : list string;
    min_experience_years : Z;
    description : option string;
    salary_range : option string;
    job_type : option (option string);
    posted_date : option string;
    expires_date : option string
  }.
End JobData.

Module JobListings.
(** [add_job_listing]: [INSERT OR REPLACE] on the [UNIQUE] column
    [job_id] removes the row that holds the id and inserts the new one,
    active by default.  The table's row-id sequence is passed along with
    the store. *)
Definition add_job_listing (self : PersistentDatabase.t) (job_listings_seq : Z)
    (job_data : JobData.t) : Z * PersistentDatabase.t :=
  let row :=
    {| JobRow.job_id := JobData.job_id job_data;
       JobRow.company := JobData.company job_data;
       JobRow.role := JobData.role job_data;
       JobRow.location := JobData.location job_data;
       JobRow.required_skills := JobData.required_skills job_data;
       JobRow.min_experience_years := JobData.min_experience_years job_data;
       JobRow.description := JobData.description job_data;
       JobRow.salary_range := JobData.salary_range job_data;
       JobRow.job_type := default (Some "full-time") (JobData.job_type job_data);
       JobRow.posted_date := JobData.posted_date job_data;
       JobRow.expires_date := JobData.expires_date job_data;
       JobRow.is_active := true |} in
  let lastrowid := (job_listings_seq + 1)%Z in
  (lastrowid,
   {| PersistentDatabase.job_listings :=
        filter (λ r, JobRow.job_id r ≠ JobData.job_id job_data)
          (PersistentDatabase.job_listings self) ++ [row];
      PersistentDatabase.autopilot_runs := PersistentDatabase.autopilot_runs self;
      PersistentDatabase.autopilot_runs_seq := PersistentDatabase.autopilot_runs_seq self;
      PersistentDatabase.application_history := PersistentDatabase.application_history self;
      PersistentDatabase.application_history_seq :=
        PersistentDatabase.application_history_seq self;
      PersistentDatabase.draft_artifacts := PersistentDatabase.draft_artifacts self;
      PersistentDatabase.artifact_snapshots := PersistentDatabase.artifact_snapshots self |}).
End JobListings.

Module ApplicationHistory.
(** [delete_application_history_entry]: [DELETE ... WHERE id = ? AND
    user_id = ?]; the result is [cursor.rowcount > 0]. *)
Definition delete_application_history_entry (self : PersistentDatabase.t)
    (user_id history_id : Z) : bool * PersistentDatabase.t :=
  let rows := PersistentDatabase.application_history self in
  let kept := filter (λ r, ¬ (HistoryRow.id r = history_id ∧ HistoryRow.user_id r = user_id))
                rows in
  (bool_decide (0 < length rows - length kept),
   PersistentDatabase.set_history self kept (PersistentDatabase.application_history_seq self)).

(** [clear_user_application_history]: the result is [cursor.rowcount]. *)
Definition clear_user_application_history (self : PersistentDatabase.t) (user_id : Z)
    : nat * PersistentDatabase.t :=
  let rows := PersistentDatabase.application_history self in
  let kept := filter (λ r, HistoryRow.user_id r ≠ user_id) rows in
  (length rows - length kept,
   PersistentDatabase.set_history self kept (PersistentDatabase.application_history_seq self)).

(** [get_application_stats]: [SELECT status, COUNT( * ) ... GROUP BY
    status] read into a dictionary. *)
Definition get_application_stats (self : PersistentDatabase.t) (user_id : Z)
    : gmap string nat :=
  foldl (λ stats r,
      <[HistoryRow.status r := default 0 (stats !! HistoryRow.status r) + 1]> stats)
    ∅ (filter (λ r, HistoryRow.user_id r = user_id)
         (PersistentDatabase.application_history self)).
End ApplicationHistory.

(** ** [schemas/user_profile_schema.py] and [ArtifactGenerator]

    The validated [UserProfile] object, with the fields the generator
    reads; [basic_info], [internships], [certificates], [skills],
    [proof_pack] and [last_modified] are not read by it. *)

Module UserProfileSchema.
Module Education.
Record t := {
    institution : string;
    degree : option string;
    field : option string;
    start_year : option Z;
    end_year : option Z
  }.
End Education.

Module Project.
Record t := {
    name : string;
    description : string;
    skills : list string;
    links : list string
  }.
End Project.

Module Constraints.
Record t := {
    location : list string;
    visa_required : bool;
    start_date : option string;
    blocked_companies : list string;
    max_apps_per_day : Z;
    min_match_score : float
  }.
End Constraints.

Module UserProfile.
Record t := {
    student_id : string;
    skill_vocab : list string;
    education : list Education.t;
    projects : list Project.t;
    constraints : Constraints.t
  }.
End UserProfile.
End UserProfileSchema.

Module ArtifactGenerator.
Section WithDigest.
Variable sha256_hexdigest : string → string.

(** [_generate_profile_hash]: the dictionary is read at three keys, each
    with a default. *)
Definition _generate_profile_hash {P} (student_id : option string)
    (skill_vocab : option (list string)) (projects : option (list P)) : string :=
  let profile_str :=
    default "" student_id +:+ ":" +:+ str_nat (length (default [] skill_vocab))
      +:+ ":" +:+ str_nat (length (default [] projects)) in
  sha256_hexdigest profile_str.

(** [_convert_to_student_artifact_pack]; [profile.dict()] holds every
    field of the profile. *)
Definition _convert_to_student_artifact_pack (profile : UserProfileSchema.UserProfile.t)
    : RawPack.t RawBullet.t :=
  let converted_projects :=
    foldl (λ converted_projects project,
        let bullets :=
          [{| RawBullet.description := Some (UserProfileSchema.Project.description project);
              RawBullet.skills := take 3 (UserProfileSchema.Project.skills project);
              RawBullet.verified := Some (PyBool false);
              RawBullet.proofs := None |}] in
        converted_projects ++
          [{| RawProject.name := UserProfileSchema.Project.name project;
              RawProject.description := UserProfileSchema.Project.description project;
              RawProject.skills := UserProfileSchema.Project.skills project;
              RawProject.bullets := Some bullets |}])
      [] (UserProfileSchema.UserProfile.projects profile) in
  let converted_education :=
    foldl (λ converted_education edu,
        converted_education ++
          [{| Education.institution := UserProfileSchema.Education.institution edu;
              Education.degree := UserProfileSchema.Education.degree edu;
              Education.field_of_study := UserProfileSchema.Education.field edu |}])
      [] (UserProfileSchema.UserProfile.education profile) in
  let constraints := UserProfileSchema.UserProfile.constraints profile in
  let converted_constraints :=
    {| Constraints.max_apps_per_day :=
         UserProfileSchema.Constraints.max_apps_per_day constraints;
       Constraints.min_match_score :=
         UserProfileSchema.Constraints.min_match_score constraints;
       Constraints.blocked_companies :=
         UserProfileSchema.Constraints.blocked_companies constraints |} in
  {| RawPack.source_resume_hash :=
       Some ("profile_" +:+
               _generate_profile_hash
                 (Some (UserProfileSchema.UserProfile.student_id profile))
                 (Some (UserProfileSchema.UserProfile.skill_vocab profile))
                 (Some (UserProfileSchema.UserProfile.projects profile)));
     RawPack.skill_vocab := Some (UserProfileSchema.UserProfile.skill_vocab profile);
     RawPack.education := Some converted_education;
     RawPack.projects := Some converted_projects;
     RawPack.constraints := Some converted_constraints |}.
End WithDigest.
End ArtifactGenerator.

(** A profile with one project, and the draft generated from it held in
    memory: its bullet lives at address 0. *)
Definition example_profile : UserProfileSchema.UserProfile.t :=
  {| UserProfileSchema.UserProfile.student_id := "s-1";
     UserProfileSchema.UserProfile.skill_vocab := ["python"; "sql"];
     UserProfileSchema.UserProfile.education := [];
     UserProfileSchema.UserProfile.projects :=
       [{| UserProfileSchema.Project.name := "crawler";
           UserProfileSchema.Project.description := "a crawler";
           UserProfileSchema.Project.skills := ["python"];
           UserProfileSchema.Project.links := [] |}];
     UserProfileSchema.UserProfile.constraints :=
       {| UserProfileSchema.Constraints.location := [];
          UserProfileSchema.Constraints.visa_required := false;
          UserProfileSchema.Constraints.start_date := None;
          UserProfileSchema.Constraints.blocked_companies := [];
          UserProfileSchema.Constraints.max_apps_per_day := 5;
          UserProfileSchema.Constraints.min_match_score := 0.6%float |} |}.

Definition generated_heap : gmap nat RawBullet.t :=
  {[ 0 := {| RawBullet.description := Some "a crawler"; RawBullet.skills := ["python"];
             RawBullet.verified := Some (PyBool false); RawBullet.proofs := None |} ]}.

Definition generated_draft : DraftArtifactPack.t nat :=
  {| DraftArtifactPack.student_artifact_pack :=
       {| RawPack.source_resume_hash := Some "profile_s-1:2:1";
          RawPack.skill_vocab := Some ["python"; "sql"];
          RawPack.education := Some [];
          RawPack.projects :=
            Some [{| RawProject.name := "crawler"; RawProject.description := "a crawler";
                     RawProject.skills := ["python"];
                     RawProject.bullets := Some [0] |}];
          RawPack.constraints := Some example_constraints |};
     DraftArtifactPack.status := "DRAFT";
     DraftArtifactPack.created_at := 0;
     DraftArtifactPack.source_profile_hash := "s-1:2:1" |}.

Definition first_bullet_confirmation : UserConfirmation.t :=
  {| UserConfirmation.bullets_verified := [confirm "project_0_bullet_0"];
     UserConfirmation.accuracy_confirmed := true;
     UserConfirmation.confirmation_timestamp := "2024-01-01T00:00:00" |}.

(** * Part II: statements and proofs *)

(** ** Decimal formatting *)

Lemma string_length_app (s1 s2 : string) :
  String.length (s1 +:+ s2) = String.length s1 + String.length s2.
Proof. induction s1 as [|a s1 IH]; simpl; [done | by rewrite IH]. Qed.

Lemma length_zeros (k : nat) : String.length (zeros k) = k.
Proof. induction k as [|k IH]; simpl; [done | by rewrite IH]. Qed.

Lemma length_string_of_uint (d : Decimal.uint) :
  String.length (NilEmpty.string_of_uint d) = Decimal.nb_digits d.
Proof. induction d; simpl; congruence. Qed.

Lemma usize_nb_digits (d : Decimal.uint) :
  DecimalPos.Unsigned.usize d = N.of_nat (Decimal.nb_digits d).
Proof.
  induction d; cbn [DecimalPos.Unsigned.usize Decimal.nb_digits];
    rewrite ?IHd, ?Nat2N.inj_succ; done.
Qed.

(** A number whose most significant digit is not zero is at least the
    power of ten of its remaining length. *)
Lemma of_uint_acc_lower (l : Decimal.uint) (acc : positive) :
  (10 ^ N.of_nat (Decimal.nb_digits l) ≤ Npos (Pos.of_uint_acc l acc))%N.
Proof.
  rewrite DecimalPos.Unsigned.of_uint_acc_rev, usize_nb_digits.
  assert (1 ≤ Npos acc)%N by lia.
  assert (0 < 10 ^ N.of_nat (Decimal.nb_digits l))%N by (apply N.neq_0_lt_0, N.pow_nonzero; lia).
  nia.
Qed.

Lemma nb_digits_to_uint (n : N) :
  (n < 10 ^ 6)%N → (Decimal.nb_digits (N.to_uint n) ≤ 6)%nat.
Proof.
  intros Hn.
  pose proof (DecimalN.Unsigned.of_to n) as Hof.
  pose proof (DecimalN.Unsigned.to_of (N.to_uint n)) as Hnorm.
  rewrite Hof in Hnorm.
  destruct (N.to_uint n) as [|l|l|l|l|l|l|l|l|l|l] eqn:E; cbn [Decimal.nb_digits]; [lia | | ..].
  1: { (* a leading zero: the number is zero itself *)
    rewrite DecimalFacts.unorm_D0 in Hnorm. unfold Decimal.unorm in Hnorm.
    destruct (Decimal.nzhead l) eqn:Hz;
      try (exfalso; by eapply (DecimalFacts.nzhead_nonzero l); rewrite Hz, <- Hnorm).
    injection Hnorm as ->. simpl. lia. }
  all: cbn [N.of_uint Pos.of_uint] in Hof;
    match type of Hof with
    | Npos (Pos.of_uint_acc ?l ?a) = _ => pose proof (of_uint_acc_lower l a) as Hlow
    end;
    rewrite Hof in Hlow;
    assert (N.of_nat (Decimal.nb_digits l) < 6)%N
      by (apply (N.pow_lt_mono_r_iff 10); lia);
    lia.
Qed.

Lemma length_format_06d (n : N) :
  String.length (format_06d n) = Nat.max 6 (Decimal.nb_digits (N.to_uint n)).
Proof.
  unfold format_06d, str_N.
  rewrite string_length_app, length_zeros, length_string_of_uint. lia.
Qed.

Lemma length_format_06d_small (n : N) :
  (n < 10 ^ 6)%N → String.length (format_06d n) = 6.
Proof.
  intros Hn. rewrite length_format_06d.
  pose proof (nb_digits_to_uint n Hn). lia.
Qed.

Lemma uint_of_string_zeros (k : nat) (s : string) :
  NilEmpty.uint_of_string (zeros k +:+ s)
  = Nat.iter k (option_map Decimal.D0) (NilEmpty.uint_of_string s).
Proof. induction k as [|k IH]; simpl; [done | by rewrite IH]. Qed.

Lemma of_uint_iter_D0 (k : nat) (d : Decimal.uint) :
  N.of_uint <$> Nat.iter k (option_map Decimal.D0) (Some d) = Some (N.of_uint d).
Proof.
  induction k as [|k IH]; simpl; [done |].
  destruct (Nat.iter k (option_map Decimal.D0) (Some d)) as [d'|]; simpl in *; [|done].
  by injection IH as <-.
Qed.

Lemma strip_prefix_sandbox (s : string) :
  strip_prefix "sandbox-" ("sandbox-" +:+ s) = Some s.
Proof. reflexivity. Qed.

Lemma receipt_number_format (n : N) :
  receipt_number ("sandbox-" +:+ format_06d n) = Some n.
Proof.
  unfold receipt_number. rewrite strip_prefix_sandbox.
  change (N.of_uint <$> NilEmpty.uint_of_string (format_06d n) = Some n).
  unfold format_06d, str_N.
  rewrite uint_of_string_zeros, NilEmpty.usu, of_uint_iter_D0.
  by rewrite DecimalN.Unsigned.of_to.
Qed.

(** ** The sandbox portal (claim C9) *)

Section Portal.
Context {V : Type}.
Implicit Types (self : SandboxJobPortal.t) (application : gmap string V) (g : Random.t).

(** The three ways out of [submit_application]. *)
Lemma submit_application_cases self application g :
  SandboxJobPortal.submit_application self application g =
    if decide (missing_fields application = []) then
      if Qlt_le_dec (Random.stream g (Random.pos g)) SandboxJobPortal.FAILURE_RATE
      then (Raise (RuntimeError "Submission failed due to random rejection (sandbox mode)."),
            self, (Random.random g).2)
      else (Ok {| SandboxJobPortal.status := "submitted";
                  SandboxJobPortal.receipt_id := next_receipt self |},
            {| SandboxJobPortal._app_counter := SandboxJobPortal._app_counter self + 1 |},
            (Random.random g).2)
    else (Raise (ValueError ("Missing required application field(s): "
                               +:+ repr_list (missing_fields application))), self, g).
Proof.
  unfold SandboxJobPortal.submit_application, missing_fields.
  destruct (filter _ _) as [|f fs]; [rewrite decide_True by done | by rewrite decide_False].
  unfold Random.random. by destruct (Qlt_le_dec _ _).
Qed.

Lemma missing_fields_spec application field :
  field ∈ missing_fields application ↔
  field ∈ ["job_id"; "student_id"; "content"] ∧ application !! field = None.
Proof.
  unfold missing_fields. rewrite list_elem_of_filter, not_elem_of_dom. tauto.
Qed.

(** A failed call leaves the counter alone. *)
Lemma submit_application_raise self application g e self' g' :
  SandboxJobPortal.submit_application self application g = (Raise e, self', g') →
  self' = self.
Proof.
  rewrite submit_application_cases.
  repeat case_match; intros [= <- <- <-] || intros [=]; done.
Qed.

Lemma receipt_ids_ok s rs :
  receipt_ids (Ok s :: rs) = SandboxJobPortal.receipt_id s :: receipt_ids rs.
Proof. reflexivity. Qed.

Lemma receipt_ids_raise e rs : receipt_ids (Raise e :: rs) = receipt_ids rs.
Proof. reflexivity. Qed.

(** The receipts of a session count up from the counter it started
    with. *)
Lemma submit_all_receipts (applications : list (gmap string V)) self g :
  let s := submit_all self applications g in
  let n := length (receipt_ids s.1.1) in
  receipt_ids s.1.1 =
    map (λ k, "sandbox-" +:+ format_06d (SandboxJobPortal._app_counter self + N.of_nat k))
        (seq 1 n)
  ∧ SandboxJobPortal._app_counter s.1.2 = (SandboxJobPortal._app_counter self + N.of_nat n)%N.
Proof.
  revert self g. induction applications as [|application rest IH]; intros self g.
  { simpl. split; [done | lia]. }
  cbn [submit_all]. rewrite submit_application_cases.
  destruct (decide _); [destruct (Qlt_le_dec _ _) |].
  1,3: (match goal with |- context [submit_all ?p ?l ?g'] =>
          specialize (IH p g'); destruct (submit_all p l g') as [[rs p'] g'']
        end; exact IH).
  match goal with |- context [submit_all ?p ?l ?g'] =>
    specialize (IH p g'); destruct (submit_all p l g') as [[rs p'] g'']
  end.
  cbn [fst snd SandboxJobPortal._app_counter] in *.
  destruct IH as [IH1 IH2]. rewrite receipt_ids_ok.
  cbn [length seq map SandboxJobPortal.receipt_id]. split.
  - f_equal; try done. rewrite IH1 at 1. rewrite <- (seq_shift _ 1), map_map.
    apply map_ext. intros k. do 2 f_equal. lia.
  - rewrite IH2. lia.
Qed.

(** The result of the [i]-th call of a session is the result of a single
    call on the portal as it then is. *)
Lemma submit_all_lookup (applications : list (gmap string V)) self g i application :
  applications !! i = Some application →
  ∃ self_i g_i,
    (submit_all self applications g).1.1 !! i
    = Some (SandboxJobPortal.submit_application self_i application g_i).1.1.
Proof.
  revert self g i. induction applications as [|a rest IH]; intros self g i Hi; [done |].
  cbn [submit_all].
  destruct (SandboxJobPortal.submit_application self a g) as [[r p] g1] eqn:E.
  destruct i as [|i].
  - injection Hi as ->. exists self, g. rewrite E.
    by destruct (submit_all p rest g1) as [[rs p'] g''].
  - destruct (IH p g1 i Hi) as (self_i & g_i & Hl). exists self_i, g_i.
    by destruct (submit_all p rest g1) as [[rs p'] g''].
Qed.

(** A session in which every application is complete and no draw falls
    under the failure rate: every call returns a receipt. *)
Lemma submit_all_success (applications : list (gmap string V)) self g :
  Forall (λ application, missing_fields application = []) applications →
  (∀ k, ¬ (Random.stream g k < SandboxJobPortal.FAILURE_RATE)%Q) →
  length (receipt_ids (submit_all self applications g).1.1) = length applications.
Proof.
  intros Hall Hg. revert self g Hg.
  induction Hall as [|application rest Hm _ IH]; intros self g Hg; [done |].
  cbn [submit_all]. rewrite submit_application_cases, decide_True by done.
  destruct (Qlt_le_dec _ _) as [Hlt|_]; [by apply Hg in Hlt |].
  match goal with |- context [submit_all ?p ?l ?g'] =>
    specialize (IH p g' Hg); destruct (submit_all p l g') as [[rs p'] g'']
  end.
  cbn [fst snd] in *. rewrite receipt_ids_ok. cbn [length]. by rewrite IH.
Qed.
End Portal.

(** C9 (amended): for every portal instance and every session of calls on
    it, a call whose application lacks one of [job_id], [student_id],
    [content] fails with a [ValueError] naming exactly the missing fields;
    the receipt ids of the successful calls are [sandbox-] followed by the
    numbers 1, 2, 3, ... in this order (so they are strictly increasing and
    start at [sandbox-000001]); the counter ends at the number of successful
    calls, so neither a missing-field call nor a random rejection advances
    it; and the number is zero-padded to at least six digits, exactly six
    for every receipt below one million. *)
Theorem portal_receipts_padded (applications : list (gmap string app_value))
    (g : Random.t) :
  let s := submit_all SandboxJobPortal.init applications g in
  let ids := receipt_ids s.1.1 in
  (∀ i application, applications !! i = Some application →
     (∃ field, field ∈ ["job_id"; "student_id"; "content"] ∧ application !! field = None) →
     missing_fields application ≠ [] ∧
     (∀ field, field ∈ missing_fields application ↔
               field ∈ ["job_id"; "student_id"; "content"] ∧ application !! field = None) ∧
     s.1.1 !! i = Some (Raise (ValueError ("Missing required application field(s): "
                                             +:+ repr_list (missing_fields application)))))
  ∧ ids = map (λ k, "sandbox-" +:+ format_06d (N.of_nat k)) (seq 1 (length ids))
  ∧ map receipt_number ids = map (λ k, Some (N.of_nat k)) (seq 1 (length ids))
  ∧ SandboxJobPortal._app_counter s.1.2 = N.of_nat (length ids)
  ∧ (∀ k : N, (k < 10 ^ 6)%N → String.length (format_06d k) = 6)
  ∧ (∀ k : N, (6 ≤ String.length (format_06d k))%nat).
Proof.
  intros s ids.
  destruct (submit_all_receipts applications SandboxJobPortal.init g) as [Hids Hcnt].
  fold s in Hids, Hcnt. fold ids in Hids, Hcnt.
  assert (Hfmt : ids = map (λ k, "sandbox-" +:+ format_06d (N.of_nat k)) (seq 1 (length ids))).
  { rewrite Hids at 1. apply map_ext. intros k. by rewrite N.add_0_l. }
  split_and!.
  - intros i application Hi (field & Hin & Hnone).
    assert (Hm : field ∈ missing_fields application) by by apply missing_fields_spec.
    split_and!.
    + intros Hnil. rewrite Hnil in Hm. by apply elem_of_nil in Hm.
    + apply missing_fields_spec.
    + destruct (submit_all_lookup applications SandboxJobPortal.init g i application Hi)
        as (self_i & g_i & Hl).
      unfold s. rewrite Hl, submit_application_cases.
      rewrite decide_False; [done |].
      intros Hnil. rewrite Hnil in Hm. by apply elem_of_nil in Hm.
  - exact Hfmt.
  - rewrite Hfmt at 1. rewrite map_map. apply map_ext. intros k.
    apply receipt_number_format.
  - rewrite Hcnt. simpl. lia.
  - apply length_format_06d_small.
  - intros k. rewrite length_format_06d. lia.
Qed.

Lemma portal_receipts_padded_witness :
  (submit_all SandboxJobPortal.init [partial_application; complete_application]
     always_half).1.1 !! 0
  = Some (Raise (ValueError
       "Missing required application field(s): ['student_id', 'content']"))
  ∧ String.length (format_06d 42) = 6.
Proof.
  destruct (portal_receipts_padded [partial_application; complete_application] always_half)
    as (Hmissing & _ & _ & _ & Hsix & _).
  split.
  - destruct (Hmissing 0 partial_application) as (_ & _ & Hres).
    + reflexivity.
    + exists "content". split; [| reflexivity]. repeat constructor.
    + rewrite Hres. vm_compute. reflexivity.
  - apply Hsix. reflexivity.
Defined.

(** C9 as stated fails: the millionth successful call of one instance
    returns [sandbox-1000000], which has seven digits. *)
Lemma portal_receipt_seven_digits :
  ¬ (∀ (applications : list (gmap string app_value)) (g : Random.t) (r : string),
       r ∈ receipt_ids (submit_all SandboxJobPortal.init applications g).1.1 →
       ∃ digits, r = "sandbox-" +:+ digits ∧ String.length digits = 6).
Proof.
  intros Hsix.
  set (n := N.to_nat 1000000).
  assert (Hn : N.of_nat n = 1000000%N) by apply N2Nat.id.
  set (applications := replicate n complete_application).
  assert (Hlen : length (receipt_ids
            (submit_all SandboxJobPortal.init applications always_half).1.1) = n).
  { unfold applications. rewrite submit_all_success, length_replicate; [done | |].
    - apply Forall_replicate. by vm_compute.
    - intros k. by vm_compute. }
  destruct (submit_all_receipts applications SandboxJobPortal.init always_half) as [Hids _].
  rewrite Hlen in Hids.
  destruct (Hsix applications always_half "sandbox-1000000") as (digits & Hd & Hl).
  - rewrite Hids. apply list_elem_of_fmap. exists n. split.
    + simpl. rewrite Hn. by vm_compute.
    + apply elem_of_seq. lia.
  - assert (Hlen7 : String.length ("sandbox-" +:+ digits) = 15) by (by rewrite <- Hd).
    rewrite string_length_app in Hlen7. simpl in Hlen7. lia.
Qed.

(** ** The match scorer (claim C6) *)

(** On binary64 values a strict comparison that holds gives the weak one. *)
Lemma ltb_leb (x y : float) : PrimFloat.ltb x y = true → PrimFloat.leb x y = true.
Proof.
  rewrite ltb_spec, leb_spec. unfold SFltb, SFleb.
  by destruct (SFcompare _ _) as [[]|].
Qed.

(** The clamp returns a float between 0 and 1, whatever it is given. *)
Lemma clamp_bounds (x : float) :
  PrimFloat.leb 0 (py_max 0 (py_min 1 x)) = true
  ∧ PrimFloat.leb (py_max 0 (py_min 1 x)) 1 = true.
Proof.
  unfold py_max, py_min. destruct (PrimFloat.ltb x 1) eqn:Hx.
  - destruct (PrimFloat.ltb 0 x) eqn:H0.
    + split; by apply ltb_leb.
    + split; reflexivity.
  - change (PrimFloat.ltb 0 1) with true. cbn match. split; reflexivity.
Qed.

(** The example of the claim evaluated in binary64, as Python does. *)
Lemma score_example_binary64 :
  score (score_job_match example_student example_job) = 0.75%float.
Proof. vm_compute. reflexivity. Qed.

(** C6 (amended): for every pack and job, in the binary64 arithmetic of
    Python floats, the components the scorer reports are [skill_overlap] =
    |required ∩ vocab| / |required| (1.0 when the job requires no skill),
    [experience_fit] = 1.0 exactly when [min_experience_years] is 0 and 0.0
    otherwise, [constraint_match] = 1.0, and the score is 0.5 x
    skill_overlap + 0.3 x experience_fit + 0.2 x constraint_match clamped to
    [0,1] (each operation rounded); the score lies between 0.0 and 1.0; for
    required skills {python, sql}, a vocabulary with python and without sql,
    and [min_experience_years] 0, the score is 0.75. *)
Theorem score_job_match_formula (student : StudentArtifactPack.t) (job : JobListing.t) :
  let required_skills : gset string := list_to_set (JobListing.required_skills job) in
  let skill_vocab : gset string := list_to_set (StudentArtifactPack.skill_vocab student) in
  let overlap : float :=
    if decide (required_skills = ∅) then 1.0%float
    else (float_of_nat (size (required_skills ∩ skill_vocab))
          / float_of_nat (size required_skills))%float in
  let fit : float :=
    if decide (JobListing.min_experience_years job = 0%Z) then 1.0%float else 0.0%float in
  let r := score_job_match student job in
  skill_overlap (explanation_of r) = overlap
  ∧ experience_fit (explanation_of r) = fit
  ∧ constraint_match (explanation_of r) = 1.0%float
  ∧ score r = py_max 0.0 (py_min 1.0 (0.5 * overlap + 0.3 * fit + 0.2 * 1.0))%float
  ∧ final_score (explanation_of r) = score r
  ∧ PrimFloat.leb 0.0 (score r) = true ∧ PrimFloat.leb (score r) 1.0 = true
  ∧ (required_skills = {["python"; "sql"]} → "python" ∈ skill_vocab → "sql" ∉ skill_vocab →
     JobListing.min_experience_years job = 0%Z → score r = 0.75%float).
Proof.
  intros required_skills skill_vocab overlap fit r.
  assert (Hso : skill_overlap (explanation_of r) = overlap).
  { unfold r, score_job_match, overlap. cbn [explanation_of skill_overlap].
    fold required_skills skill_vocab. by destruct (decide (required_skills = ∅)). }
  assert (Hef : experience_fit (explanation_of r) = fit).
  { unfold r, score_job_match, fit. cbn [explanation_of experience_fit].
    destruct (Z.eqb_spec (JobListing.min_experience_years job) 0) as [->|Hne].
    - by rewrite decide_True.
    - by rewrite decide_False. }
  assert (Hscore : score r
            = py_max 0.0 (py_min 1.0 (0.5 * overlap + 0.3 * fit + 0.2 * 1.0))%float).
  { rewrite <- Hso, <- Hef. reflexivity. }
  split_and!; try done.
  - rewrite Hscore. apply clamp_bounds.
  - rewrite Hscore. apply clamp_bounds.
  - intros Hreq Hpy Hsql Hexp. rewrite Hscore.
    assert (Hsz : size required_skills = 2).
    { rewrite Hreq. by vm_compute. }
    assert (Hint : required_skills ∩ skill_vocab = {["python"]}).
    { rewrite Hreq. apply set_eq. intros x.
      rewrite elem_of_intersection, elem_of_union, !elem_of_singleton.
      split; [intros [[->| ->] Hx]; done | intros ->; auto]. }
    unfold overlap, fit. rewrite Hint, Hsz, size_singleton.
    rewrite decide_False, decide_True by (done || (rewrite Hreq; by vm_compute)).
    vm_compute. reflexivity.
Qed.

Lemma score_job_match_formula_witness :
  score (score_job_match example_student example_job) = 0.75%float.
Proof.
  destruct (score_job_match_formula example_student example_job)
    as (_ & _ & _ & _ & _ & _ & _ & Hexample).
  apply Hexample.
  - vm_compute. reflexivity.
  - apply (bool_decide_unpack _). by vm_compute.
  - apply (bool_decide_unpack _). by vm_compute.
  - reflexivity.
Defined.

(** C6 as stated fails on its own example: the score is not 0.85. *)
Lemma score_example_is_not_085 :
  score (score_job_match example_student example_job) ≠ 0.85%float.
Proof.
  intros H. apply (f_equal (λ x, PrimFloat.eqb x 0.85%float)) in H.
  vm_compute in H. discriminate H.
Qed.

(** ** The content generator (claim C7) *)

(** A loop that appends the elements passing a test is a [filter]. *)
Lemma foldl_append_filter {A} (P : A → Prop) `{∀ x, Decision (P x)} (l acc : list A) :
  foldl (λ acc x, if decide (P x) then acc ++ [x] else acc) acc l = acc ++ filter P l.
Proof.
  revert acc. induction l as [|x l IH]; intros acc; simpl.
  - by rewrite app_nil_r.
  - rewrite IH, filter_cons. destruct (decide (P x)); [by rewrite <- app_assoc | done].
Qed.

Lemma skills_intersect_iff (job : JobListing.t) (bullet : Bullet.t) :
  (list_to_set (Bullet.skills bullet) : gset string)
    ∩ list_to_set (JobListing.required_skills job) ≠ ∅
  ↔ shares_skill job bullet.
Proof.
  unfold shares_skill. rewrite Exists_exists. split.
  - intros Hne. apply set_choose_L in Hne as [s Hs].
    apply elem_of_intersection in Hs as [Hb Hj].
    exists s. by rewrite !elem_of_list_to_set in Hb, Hj.
  - intros (s & Hb & Hj) Hempty.
    assert (Hs : s ∈ (list_to_set (Bullet.skills bullet) : gset string)
                       ∩ list_to_set (JobListing.required_skills job)).
    { apply elem_of_intersection. by rewrite !elem_of_list_to_set. }
    rewrite Hempty in Hs. by apply not_elem_of_empty in Hs.
Qed.

Lemma relevant_loop (job : JobListing.t) (projects : list Project.t) (acc : list Bullet.t) :
  foldl (λ acc project,
      foldl (λ acc bullet,
          if decide ((list_to_set (Bullet.skills bullet) : gset string)
                       ∩ list_to_set (JobListing.required_skills job) ≠ ∅)
          then acc ++ [bullet] else acc)
        acc (Project.bullets project))
    acc projects
  = acc ++ filter (shares_skill job) (concat (map Project.bullets projects)).
Proof.
  revert acc. induction projects as [|project rest IH]; intros acc.
  - simpl. by rewrite app_nil_r.
  - cbn [foldl map concat]. rewrite IH. rewrite filter_app, app_assoc. f_equal.
    rewrite foldl_append_filter. f_equal.
    apply list_filter_iff. intros bullet. apply skills_intersect_iff.
Qed.

(** The nested loops select, in order, the bullets that share a skill
    with the job. *)
Lemma relevant_verified_bullets_filter student job :
  relevant_verified_bullets student job = filter (shares_skill job) (all_bullets student).
Proof. unfold relevant_verified_bullets. by rewrite relevant_loop. Qed.

Lemma elem_of_all_bullets student bullet :
  bullet ∈ all_bullets student ↔
  ∃ project, project ∈ StudentArtifactPack.projects student
             ∧ bullet ∈ Project.bullets project.
Proof.
  unfold all_bullets. rewrite list_elem_of_In, in_concat. split.
  - intros (bs & Hbs & Hb). apply in_map_iff in Hbs as (project & <- & Hp).
    exists project. by rewrite !list_elem_of_In.
  - intros (project & Hp & Hb). exists (Project.bullets project).
    rewrite <- !list_elem_of_In. split; [| done].
    apply list_elem_of_In, in_map, list_elem_of_In, Hp.
Qed.

(** C7 (amended): for every pack and job, [generate_application_content]
    returns the skip reason NO_RELEVANT_VERIFIED_BULLETS and no content
    exactly when no bullet of any project has a skill among the job's
    required skills; otherwise it returns the first three relevant bullets
    (at most 3) and the cover paragraph of the template, whose joined
    descriptions are those of all relevant bullets, taken before the cap. *)
Theorem generate_application_content_spec (student : StudentArtifactPack.t)
    (job : JobListing.t) :
  let relevant := filter (shares_skill job) (all_bullets student) in
  (generate_application_content student job = (None, Some "NO_RELEVANT_VERIFIED_BULLETS")
   ↔ ∀ project bullet s,
       project ∈ StudentArtifactPack.projects student →
       bullet ∈ Project.bullets project →
       s ∈ Bullet.skills bullet → s ∉ JobListing.required_skills job)
  ∧ (relevant = [] →
     generate_application_content student job = (None, Some "NO_RELEVANT_VERIFIED_BULLETS"))
  ∧ (relevant ≠ [] →
     generate_application_content student job =
       (Some {| ApplicationContent.selected_bullets := take 3 relevant;
                ApplicationContent.cover_paragraph := cover_paragraph_of job relevant;
                ApplicationContent.answers := ∅ |}, None)
     ∧ (length (take 3 relevant) ≤ 3)%nat).
Proof.
  intros relevant.
  assert (Hnil : relevant = [] →
    generate_application_content student job = (None, Some "NO_RELEVANT_VERIFIED_BULLETS")).
  { intros Hr. unfold generate_application_content.
    rewrite relevant_verified_bullets_filter. fold relevant. by rewrite Hr. }
  assert (Hcons : relevant ≠ [] →
    generate_application_content student job =
      (Some {| ApplicationContent.selected_bullets := take 3 relevant;
               ApplicationContent.cover_paragraph := cover_paragraph_of job relevant;
               ApplicationContent.answers := ∅ |}, None)).
  { intros Hr. unfold generate_application_content.
    rewrite relevant_verified_bullets_filter. fold relevant.
    by destruct relevant. }
  assert (Hiff : relevant = [] ↔ ∀ project bullet s,
       project ∈ StudentArtifactPack.projects student →
       bullet ∈ Project.bullets project →
       s ∈ Bullet.skills bullet → s ∉ JobListing.required_skills job).
  { split.
    - intros Hr project bullet s Hp Hb Hs Hj.
      apply (filter_nil_not_elem_of (shares_skill job) (all_bullets student) bullet Hr).
      + apply Exists_exists. eauto.
      + apply elem_of_all_bullets. eauto.
    - intros Hno. destruct relevant as [|bullet l] eqn:Hr; [done | exfalso].
      assert (Hin : bullet ∈ relevant) by (rewrite Hr; apply list_elem_of_here).
      apply list_elem_of_filter in Hin as [Hshare Hall].
      apply Exists_exists in Hshare as (s & Hs & Hj).
      apply elem_of_all_bullets in Hall as (project & Hp & Hb).
      by apply (Hno project bullet s). }
  split_and!; [| done | intros Hr; split; [by apply Hcons | rewrite length_take; lia]].
  rewrite <- Hiff. split; [| done].
  intros Hgen. destruct (decide (relevant = [])) as [|Hne]; [done |].
  rewrite (Hcons Hne) in Hgen. discriminate Hgen.
Qed.

Lemma generate_application_content_spec_witness :
  generate_application_content four_bullet_student example_job =
    (Some {| ApplicationContent.selected_bullets :=
               [python_bullet "built a crawler"; python_bullet "wrote the parser";
                python_bullet "added tests"];
             ApplicationContent.cover_paragraph :=
               "I am applying for the Developer position. My background includes built a crawler, wrote the parser, added tests, shipped a bot.";
             ApplicationContent.answers := ∅ |}, None).
Proof.
  destruct (generate_application_content_spec four_bullet_student example_job)
    as (_ & _ & Hcontent).
  destruct Hcontent as [Hgen _].
  - by vm_compute.
  - rewrite Hgen. vm_compute. reflexivity.
Defined.

(** C7 as stated fails: with four relevant bullets the paragraph lists
    four descriptions, one more than the capped selection holds. *)
Lemma cover_paragraph_not_capped :
  ∃ content,
    generate_application_content four_bullet_student example_job = (Some content, None)
    ∧ length (ApplicationContent.selected_bullets content) = 3
    ∧ ApplicationContent.cover_paragraph content
      ≠ cover_paragraph_of example_job (ApplicationContent.selected_bullets content).
Proof.
  eexists. split; [by vm_compute |]. split; [reflexivity |].
  vm_compute. discriminate.
Qed.

(** ** The engine: submission and retry (claim C8) *)

Section EngineRetry.
Variable validate_job_for_scoring :
  StudentArtifactPack.t → JobListing.t → nat → result (bool * option string).
Variable format_2f : float → string.
Variable clock : nat → Z.

Lemma application_for_complete student job content :
  missing_fields (application_for student job content) = [].
Proof. reflexivity. Qed.

(** The loop body, for a job that reaches the submission stage. *)
Lemma process_job_submits student st job content :
  reaches_submission validate_job_for_scoring student (Engine.apps_today st) job content →
  Engine.process_job validate_job_for_scoring format_2f clock student st job =
    Ok (Engine.add_counts
          (Engine.submit_with_retry clock
             (Engine.add_counts
                (Engine.track clock st (JobListing.job_id job) "queued" None None)
                1 0 0 0 0 0)
             (JobListing.job_id job) (application_for student job content))
          0 0 0 0 0 1).
Proof.
  intros ((reason & Hval) & (c & Hc & Hscore) & (reason' & Hgen)).
  unfold Engine.process_job.
  cbn [Engine.apps_today Engine.add_counts Engine.track Engine.set_tracker].
  rewrite Nat.add_0_r, Hval. cbn [mbind result_bind negb].
  rewrite Hc, Hscore. by rewrite Hgen.
Qed.
(** The portal refuses a complete application only at random, with one
    and the same message. *)
Lemma submit_application_complete_raises {V} (self p : SandboxJobPortal.t)
    (application : gmap string V) (g g' : Random.t) (e : exn) :
  missing_fields application = [] →
  SandboxJobPortal.submit_application self application g = (Raise e, p, g') →
  e = RuntimeError rejection_message.
Proof.
  intros Hm H. rewrite submit_application_cases, Hm in H.
  rewrite decide_True in H by done.
  destruct (Qlt_le_dec _ _) in H; [| done]. by injection H as <- _ _.
Qed.

(** C8: in every engine run, when the submission of a job that reached the
    submission stage raises, the engine submits once more and no further;
    when the retry returns, the job is tracked as retried with the receipt
    id of the retry; when the retry raises as well, the job is tracked as
    failed with the reason "Submission failed twice: " followed by the text
    of the retry's error.  The application the engine composed lacks no
    field, so either error is the portal's random rejection: the two carry
    the same text, and the reason includes the text of the first error and
    of the retry's. *)
Theorem retry_exactly_once student st job content e1 p1 g1 r2 p2 g2 :
  reaches_submission validate_job_for_scoring student (Engine.apps_today st) job content →
  SandboxJobPortal.submit_application (Engine.portal st)
    (application_for student job content) (Engine.gen st) = (Raise e1, p1, g1) →
  SandboxJobPortal.submit_application p1 (application_for student job content) g1
    = (r2, p2, g2) →
  let job_id := JobListing.job_id job in
  let n := length (ApplicationTracker.events (Engine.tracker st)) in
  ∃ st',
    Engine.process_job validate_job_for_scoring format_2f clock student st job = Ok st'
    ∧ Engine.portal st' = p2 ∧ Engine.gen st' = g2
    ∧ Random.pos g2 = Random.pos (Engine.gen st) + 2
    ∧ Engine.submitted st' = Engine.submitted st
    ∧ Engine.skipped st' = Engine.skipped st
    ∧ match r2 with
      | Ok submission_result =>
          ApplicationTracker.events (Engine.tracker st') =
            ApplicationTracker.events (Engine.tracker st) ++
              [event_at clock n job_id "queued" None None;
               event_at clock (S n) job_id "retried" None
                 (Some (SandboxJobPortal.receipt_id submission_result))]
          ∧ SandboxJobPortal.receipt_id submission_result = next_receipt (Engine.portal st)
          ∧ Engine.retried st' = Engine.retried st + 1
          ∧ Engine.failed st' = Engine.failed st
      | Raise e2 =>
          let reason := "Submission failed twice: " +:+ str_exn e2 in
          ApplicationTracker.events (Engine.tracker st') =
            ApplicationTracker.events (Engine.tracker st) ++
              [event_at clock n job_id "queued" None None;
               event_at clock (S n) job_id "failed" (Some reason) None]
          ∧ Engine.failed st' = Engine.failed st + 1
          ∧ Engine.retried st' = Engine.retried st
          ∧ str_exn e1 = rejection_message ∧ str_exn e2 = rejection_message
          ∧ includes reason (str_exn e1) ∧ includes reason (str_exn e2)
      end.
Proof.
  intros Hreach H1 H2 job_id n.
  rewrite (process_job_submits _ _ _ _ Hreach). eexists. split; [reflexivity |].
  unfold Engine.submit_with_retry.
  cbn [Engine.portal Engine.gen Engine.add_counts Engine.track Engine.set_tracker].
  rewrite H1.
  cbn [Engine.portal Engine.gen Engine.set_portal].
  rewrite H2.
  assert (He1 : e1 = RuntimeError rejection_message).
  { by eapply submit_application_complete_raises; [apply application_for_complete |]. }
  assert (He2 : ∀ e2, r2 = Raise e2 → e2 = RuntimeError rejection_message).
  { intros e2 ->.
    by eapply submit_application_complete_raises; [apply application_for_complete |]. }
  assert (Hpos : Random.pos g2 = Random.pos (Engine.gen st) + 2).
  { rewrite submit_application_cases, application_for_complete in H1, H2.
    rewrite decide_True in H1, H2 by done.
    destruct (Qlt_le_dec _ _) in H1; [| done]. injection H1 as _ <- <-.
    destruct (Qlt_le_dec _ _) in H2; injection H2 as _ _ <-; simpl; lia. }
  assert (Hrec : ∀ s, r2 = Ok s →
            SandboxJobPortal.receipt_id s = next_receipt (Engine.portal st)).
  { intros s ->.
    rewrite submit_application_cases, application_for_complete in H1, H2.
    rewrite decide_True in H1, H2 by done.
    destruct (Qlt_le_dec _ _) in H1; [| done]. injection H1 as _ <- <-.
    destruct (Qlt_le_dec _ _) in H2; [done |]. by injection H2 as <- _ _. }
  destruct r2 as [submission_result|e2].
  - cbn [Engine.portal Engine.gen Engine.add_counts Engine.track Engine.set_tracker
         Engine.set_portal Engine.tracker Engine.submitted Engine.skipped
         Engine.retried Engine.failed ApplicationTracker.track
         ApplicationTracker.events].
    rewrite ?length_app, <- ?app_assoc. cbn [length app].
    unfold event_at. fold n. fold job_id.
    replace (n + 1) with (S n) by lia.
    repeat split; auto with lia.
  - rewrite (He2 e2 eq_refl), He1.
    cbn [Engine.portal Engine.gen Engine.add_counts Engine.track Engine.set_tracker
         Engine.set_portal Engine.tracker Engine.submitted Engine.skipped
         Engine.retried Engine.failed ApplicationTracker.track
         ApplicationTracker.events str_exn].
    rewrite ?length_app, <- ?app_assoc. cbn [length app].
    unfold event_at. fold n. fold job_id.
    replace (n + 1) with (S n) by lia.
    assert (Hinc : includes ("Submission failed twice: " +:+ rejection_message)
                     rejection_message).
    { exists "Submission failed twice: ", "". reflexivity. }
    repeat split; auto with lia.
Qed.
End EngineRetry.

Lemma four_bullet_reaches_submission :
  reaches_submission allow_all four_bullet_student 0 example_job four_bullet_content.
Proof.
  split_and!.
  - by exists None.
  - exists example_constraints. split; [done |]. by vm_compute.
  - by exists None.
Qed.

Lemma retry_exactly_once_witness :
  ∃ st',
    Engine.process_job allow_all no_format seconds four_bullet_student
      (initial_state zero_then_half) example_job = Ok st'
    ∧ ApplicationTracker.events (Engine.tracker st') =
        [event_at seconds 0 "job-1" "queued" None None;
         event_at seconds 1 "job-1" "retried" None (Some "sandbox-000001")]
    ∧ Engine.retried st' = 1.
Proof.
  destruct (retry_exactly_once allow_all no_format seconds four_bullet_student
              (initial_state zero_then_half) example_job four_bullet_content
              (RuntimeError rejection_message) SandboxJobPortal.init
              (Random.random zero_then_half).2
              (Ok {| SandboxJobPortal.status := "submitted";
                     SandboxJobPortal.receipt_id := "sandbox-000001" |})
              {| SandboxJobPortal._app_counter := 1 |}
              (Random.random (Random.random zero_then_half).2).2)
    as (st' & Hrun & _ & _ & _ & _ & _ & Hevents & _ & Hretried & _).
  - exact four_bullet_reaches_submission.
  - by vm_compute.
  - by vm_compute.
  - exists st'. split; [exact Hrun |]. split; [exact Hevents | exact Hretried].
Defined.

(** Both submissions rejected: the job is tracked as failed, and the
    reason holds the text the two errors share. *)
Lemma failed_twice_example :
  ∃ st',
    Engine.process_job allow_all no_format seconds four_bullet_student
      (initial_state always_zero) example_job = Ok st'
    ∧ ApplicationTracker.events (Engine.tracker st') =
        [event_at seconds 0 "job-1" "queued" None None;
         event_at seconds 1 "job-1" "failed"
           (Some "Submission failed twice: Submission failed due to random rejection (sandbox mode).")
           None].
Proof. eexists. split; by vm_compute. Qed.

(** ** The engine: accounting of a run (claim C10) *)

Section EngineAccounting.
Variable validate_job_for_scoring :
  StudentArtifactPack.t → JobListing.t → nat → result (bool * option string).
Variable format_2f : float → string.
Variable clock : nat → Z.

Abbreviation process_job := (Engine.process_job validate_job_for_scoring format_2f clock).

Ltac engine_simpl :=
  cbn [Engine.portal Engine.gen Engine.add_counts Engine.track Engine.set_tracker
       Engine.set_portal Engine.tracker Engine.queued Engine.submitted Engine.skipped
       Engine.retried Engine.failed Engine.apps_today Engine.skip
       ApplicationTracker.track ApplicationTracker.events ApplicationTracker.status
       ApplicationTracker.job_id fst snd] in *.

Lemma count_status_singleton status t :
  count_status status [t] = if decide (ApplicationTracker.status t = status) then 1 else 0.
Proof. unfold count_status. rewrite filter_cons, filter_nil. by case_decide. Qed.

Ltac step_done Hfin :=
  intros [= <-]; eapply Hfin;
  [ engine_simpl; reflexivity
  | reflexivity
  | repeat constructor
  | engine_simpl; lia
  | rewrite count_status_singleton; engine_simpl; case_decide; try done; lia .. ].

(** One turn of the loop appends the queued event and one terminal event,
    and adds one to [queued] and to the counter of that terminal status. *)
Lemma process_job_step student st job st' :
  process_job student st job = Ok st' →
  ∃ p, tracked_as (JobListing.job_id job) p
    ∧ ApplicationTracker.events (Engine.tracker st')
      = ApplicationTracker.events (Engine.tracker st) ++ [p.1; p.2]
    ∧ Engine.queued st' = Engine.queued st + 1
    ∧ Engine.skipped st' = Engine.skipped st + count_status "skipped" [p.2]
    ∧ Engine.submitted st' = Engine.submitted st + count_status "submitted" [p.2]
    ∧ Engine.retried st' = Engine.retried st + count_status "retried" [p.2]
    ∧ Engine.failed st' = Engine.failed st + count_status "failed" [p.2].
Proof.
  unfold Engine.process_job.
  set (q := {| ApplicationTracker.job_id := JobListing.job_id job;
               ApplicationTracker.status := "queued";
               ApplicationTracker.reason := None;
               ApplicationTracker.receipt_id := None;
               ApplicationTracker.timestamp :=
                 clock (length (ApplicationTracker.events (Engine.tracker st))) |}).
  assert (Hfin : ∀ st1 t,
    ApplicationTracker.events (Engine.tracker st1)
      = (ApplicationTracker.events (Engine.tracker st) ++ [q]) ++ [t] →
    ApplicationTracker.job_id t = JobListing.job_id job →
    ApplicationTracker.status t ∈ terminal_statuses →
    Engine.queued st1 = Engine.queued st + 1 →
    Engine.skipped st1 = Engine.skipped st + count_status "skipped" [t] →
    Engine.submitted st1 = Engine.submitted st + count_status "submitted" [t] →
    Engine.retried st1 = Engine.retried st + count_status "retried" [t] →
    Engine.failed st1 = Engine.failed st + count_status "failed" [t] →
    ∃ p, tracked_as (JobListing.job_id job) p
      ∧ ApplicationTracker.events (Engine.tracker st1)
        = ApplicationTracker.events (Engine.tracker st) ++ [p.1; p.2]
      ∧ Engine.queued st1 = Engine.queued st + 1
      ∧ Engine.skipped st1 = Engine.skipped st + count_status "skipped" [p.2]
      ∧ Engine.submitted st1 = Engine.submitted st + count_status "submitted" [p.2]
      ∧ Engine.retried st1 = Engine.retried st + count_status "retried" [p.2]
      ∧ Engine.failed st1 = Engine.failed st + count_status "failed" [p.2]).
  { intros st1 t Hev Hid Hst ? ? ? ? ?. exists (q, t).
    rewrite <- app_assoc in Hev. by repeat split. }
  engine_simpl.
  destruct (validate_job_for_scoring _ _ _) as [[ok reason]|e]; [| done].
  cbn [mbind result_bind].
  destruct ok; cbn [negb].
  2: by step_done Hfin.
  destruct (StudentArtifactPack.constraints student) as [c|]; [| done].
  destruct (PrimFloat.ltb _ _).
  { by step_done Hfin. }
  destruct (generate_application_content student job) as [[content|] skip_reason].
  2: by step_done Hfin.
  unfold Engine.submit_with_retry. engine_simpl.
  destruct (SandboxJobPortal.submit_application _ _ _) as [[r1 p1] g1].
  destruct r1 as [s1|e1]; engine_simpl.
  { by step_done Hfin. }
  destruct (SandboxJobPortal.submit_application _ _ _) as [[r2 p2] g2].
  destruct r2 as [s2|e2]; engine_simpl.
  all: by step_done Hfin.
Qed.
Lemma count_status_app status l1 l2 :
  count_status status (l1 ++ l2) = count_status status l1 + count_status status l2.
Proof. unfold count_status. by rewrite filter_app, length_app. Qed.

(** Every terminal event carries exactly one of the four statuses. *)
Lemma count_terminal (l : list ApplicationTracker.event) :
  Forall (λ t, ApplicationTracker.status t ∈ terminal_statuses) l →
  count_status "skipped" l + count_status "submitted" l
    + count_status "retried" l + count_status "failed" l = length l.
Proof.
  induction 1 as [|t l Ht _ IH]; [done |].
  change (t :: l) with ([t] ++ l). rewrite !count_status_app, !count_status_singleton.
  cbn [length app]. rewrite <- IH.
  unfold terminal_statuses in Ht. rewrite !elem_of_cons, elem_of_nil in Ht.
  destruct Ht as [-> | [-> | [-> | [-> | []]]]]; repeat case_decide; try done; lia.
Qed.

(** The whole loop: one pair of events per job, in listing order. *)
Lemma for_each_process_job student jobs st st' :
  for_each (process_job student) jobs st = Ok st' →
  ∃ pairs,
    Forall2 (λ job p, tracked_as (JobListing.job_id job) p) jobs pairs
    ∧ ApplicationTracker.events (Engine.tracker st')
      = ApplicationTracker.events (Engine.tracker st) ++ events_of_pairs pairs
    ∧ Engine.queued st' = Engine.queued st + length jobs
    ∧ Engine.skipped st' = Engine.skipped st + count_status "skipped" pairs.*2
    ∧ Engine.submitted st' = Engine.submitted st + count_status "submitted" pairs.*2
    ∧ Engine.retried st' = Engine.retried st + count_status "retried" pairs.*2
    ∧ Engine.failed st' = Engine.failed st + count_status "failed" pairs.*2.
Proof.
  revert st. induction jobs as [|job rest IH]; intros st.
  - intros [= <-]. exists []. unfold events_of_pairs. simpl.
    rewrite app_nil_r. repeat split; (constructor || (unfold count_status; simpl; lia)).
  - cbn [for_each]. destruct (process_job student st job) as [st1|e] eqn:Hstep; [| done].
    intros Hrest.
    apply process_job_step in Hstep as (p & Hp & Hev & Hq & Hsk & Hsu & Hre & Hfa).
    apply IH in Hrest as (pairs & Hps & Hev' & Hq' & Hsk' & Hsu' & Hre' & Hfa').
    exists (p :: pairs). split; [by constructor |].
    rewrite fmap_cons. change (p.2 :: pairs.*2) with ([p.2] ++ pairs.*2).
    rewrite !count_status_app.
    split; [| cbn [length]; repeat split; lia].
    rewrite Hev', Hev. unfold events_of_pairs. cbn [map concat]. by rewrite <- app_assoc.
Qed.

(** The validation loop keeps one job per entry, with the same job id. *)
Lemma validate_jobs_inr idx jobs_data acc jobs :
  Engine.validate_jobs idx jobs_data acc = inr jobs →
  ∃ jobs', jobs = acc ++ jobs'
    ∧ Forall2 (λ j job, JobListing.job_id job = RawJob.job_id j) jobs_data jobs'.
Proof.
  revert idx acc. induction jobs_data as [|j rest IH]; intros idx acc.
  - intros [= <-]. exists []. by rewrite app_nil_r.
  - cbn [Engine.validate_jobs].
    destruct (validate_job j) as [job|e] eqn:Hj; [| done].
    intros (jobs' & -> & Hall)%IH. exists (job :: jobs').
    rewrite <- app_assoc. split; [done |]. constructor; [| done].
    unfold validate_job in Hj. destruct (RawJob.extra j); [| done].
    destruct (_ <? _)%Z; [done |]. by injection Hj as <-.
Qed.

Lemma validate_jobs_inl idx jobs_data acc failure :
  Engine.validate_jobs idx jobs_data acc = inl failure →
  RunResult.success failure = false.
Proof.
  revert idx acc. induction jobs_data as [|j rest IH]; intros idx acc; [done |].
  cbn [Engine.validate_jobs]. destruct (validate_job j) as [job|e]; [by apply IH |].
  by intros [= <-].
Qed.

(** C10: for every call of [run_autopilot] that returns [success == true],
    the summary's [queued] count is the number of input job listings and
    [queued = skipped + submitted + retried + failed]; the tracker gained,
    for each job in listing order, one [queued] event followed by exactly
    one event whose status is skipped, submitted, retried or failed, and
    each count of the summary is the number of jobs with that outcome. *)
Theorem run_autopilot_accounting student_data jobs_data tracker g res :
  Engine.run_autopilot validate_job_for_scoring format_2f clock
    student_data jobs_data tracker g = Ok res →
  RunResult.success res = true →
  ∃ s t pairs,
    RunResult.summary res = Some s ∧ RunResult.tracker res = Some t
    ∧ Summary.queued s = length jobs_data
    ∧ Summary.queued s
      = Summary.skipped s + Summary.submitted s + Summary.retried s + Summary.failed s
    ∧ Forall2 (λ j p, tracked_as (RawJob.job_id j) p) jobs_data pairs
    ∧ ApplicationTracker.events t
      = ApplicationTracker.events (default ApplicationTracker.init tracker)
          ++ events_of_pairs pairs
    ∧ Summary.skipped s = count_status "skipped" pairs.*2
    ∧ Summary.submitted s = count_status "submitted" pairs.*2
    ∧ Summary.retried s = count_status "retried" pairs.*2
    ∧ Summary.failed s = count_status "failed" pairs.*2.
Proof.
  unfold Engine.run_autopilot.
  destruct (validate_student student_data) as [student|e]; [| by intros [= <-]].
  destruct (Engine.validate_jobs 0 jobs_data []) as [failure|jobs] eqn:Hjobs.
  { intros [= <-] Hs. apply validate_jobs_inl in Hjobs. congruence. }
  apply validate_jobs_inr in Hjobs as (jobs' & -> & Hids). rewrite app_nil_l.
  destruct (for_each _ jobs' _) as [st'|e] eqn:Hloop; [| done].
  cbn [mbind result_bind]. intros [= <-] _.
  apply for_each_process_job in Hloop
    as (pairs & Hps & Hev & Hq & Hsk & Hsu & Hre & Hfa).
  engine_simpl.
  assert (Hlen : length jobs' = length jobs_data) by (symmetry; by eapply Forall2_length).
  assert (Hlen' : length pairs.*2 = length jobs_data).
  { rewrite length_fmap, <- Hlen. symmetry. by eapply Forall2_length. }
  assert (Hterm : Forall (λ t, ApplicationTracker.status t ∈ terminal_statuses) pairs.*2).
  { apply Forall_fmap. eapply Forall2_Forall_r; [exact Hps |].
    apply Forall_forall. intros job _ p Hp. apply Hp. }
  pose proof (count_terminal _ Hterm) as Hsum.
  eexists _, _, pairs. split; [reflexivity |]. split; [reflexivity |].
  cbn [Summary.queued Summary.skipped Summary.submitted Summary.retried Summary.failed].
  split_and!; try done; try lia.
  clear -Hps Hids. revert pairs Hps.
  induction Hids as [|j job jobs_data jobs' Hid _ IH]; intros pairs Hps.
  - inversion Hps. constructor.
  - inversion Hps as [|? p ? pairs' Hp Hrest]; subst. constructor; [| by apply IH].
    by rewrite <- Hid.
Qed.
End EngineAccounting.

Lemma run_autopilot_accounting_witness :
  ∃ res s,
    Engine.run_autopilot allow_all no_format seconds four_bullet_pack
      [example_raw_job; example_raw_job] None zero_then_half = Ok res
    ∧ RunResult.summary res = Some s
    ∧ Summary.queued s = 2
    ∧ Summary.queued s
      = Summary.skipped s + Summary.submitted s + Summary.retried s + Summary.failed s.
Proof.
  assert (Hr : ∃ res,
    Engine.run_autopilot allow_all no_format seconds four_bullet_pack
      [example_raw_job; example_raw_job] None zero_then_half = Ok res
    ∧ RunResult.success res = true).
  { vm_compute. eexists. split; reflexivity. }
  destruct Hr as (res & Hrun & Hok).
  destruct (run_autopilot_accounting allow_all no_format seconds four_bullet_pack
              [example_raw_job; example_raw_job] None zero_then_half res Hrun Hok)
    as (s & t & pairs & Hs & _ & Hq & Hsum & _).
  exists res, s. split_and!; done.
Defined.

(** ** Drafts and snapshots (claim C2) *)

(** A loop that raises on the first element that fails a test. *)
Lemma for_each_check {A} (test : A → bool) (err : A → exn) (l : list A) :
  for_each (λ _ x, if test x then Raise (err x) else Ok ()) l ()
  = match List.find test l with
    | Some x => Raise (err x)
    | None => Ok ()
    end.
Proof.
  induction l as [|x l IH]; [done |]. cbn [for_each List.find].
  by destruct (test x).
Qed.

Lemma for_each_app {A S} (body : S → A → result S) (l1 l2 : list A) (s : S) :
  for_each body (l1 ++ l2) s
  = match for_each body l1 s with
    | Ok s' => for_each body l2 s'
    | Raise e => Raise e
    end.
Proof.
  revert s. induction l1 as [|x l1 IH]; intros s; [done |].
  cbn [for_each app]. by destruct (body s x).
Qed.

(** Two nested loops over the projects and their bullets visit the
    bullets of the pack in order. *)
Lemma for_each_nested {A B} (f : A → list B) (body : unit → B → result unit) (l : list A) :
  for_each (λ _ x, for_each body (f x) ()) l () = for_each body (concat (map f l)) ().
Proof.
  induction l as [|x l IH]; [done |]. cbn [for_each map concat].
  rewrite for_each_app. by destruct (for_each body (f x) ()) as [[]|].
Qed.

Lemma for_each_bullets {B} (test : B → bool) (err : B → exn) (v : RawPack.t B) :
  for_each (λ _ project,
      for_each (λ _ bullet, if test bullet then Raise (err bullet) else Ok ())
        (default [] (RawProject.bullets project)) ())
    (default [] (RawPack.projects v)) ()
  = match List.find test (RawPack.all_bullets v) with
    | Some bullet => Raise (err bullet)
    | None => Ok ()
    end.
Proof.
  rewrite (for_each_nested (λ project, default [] (RawProject.bullets project))).
  apply for_each_check.
Qed.

Lemma find_some_exists {A} (test : A → bool) (l : list A) :
  (∃ x, x ∈ l ∧ test x = true) → ∃ y, List.find test l = Some y ∧ test y = true.
Proof.
  intros (x & Hx & Ht). destruct (List.find test l) as [y|] eqn:Hf.
  - exists y. split; [done |]. by apply find_some in Hf as [_ ?].
  - apply list_elem_of_In in Hx. pose proof (find_none _ _ Hf x Hx). congruence.
Qed.

Lemma find_none_forall {A} (test : A → bool) (l : list A) :
  (∀ x, x ∈ l → test x = false) → List.find test l = None.
Proof.
  intros Hall. destruct (List.find test l) as [y|] eqn:Hf; [| done].
  apply find_some in Hf as [Hin Ht]. apply list_elem_of_In in Hin.
  rewrite (Hall y Hin) in Ht. done.
Qed.

Section Constructors.
Context {B : Type} (rd : B → RawBullet.t).

Lemma validate_no_verified_bullets_find (v : RawPack.t B) :
  DraftArtifactPack.validate_no_verified_bullets rd v
  = match List.find (λ bullet, is_verified (rd bullet)) (RawPack.all_bullets v) with
    | Some _ => Raise (ValidationError "Draft artifacts cannot contain verified: true bullets")
    | None => Ok v
    end.
Proof.
  unfold DraftArtifactPack.validate_no_verified_bullets.
  rewrite (for_each_bullets (λ bullet, is_verified (rd bullet))
             (λ _, ValidationError "Draft artifacts cannot contain verified: true bullets")).
  by destruct (List.find _ _).
Qed.

Lemma snapshot_bullets_find (v : RawPack.t B) :
  for_each (λ _ project,
      for_each (λ _ bullet,
          if negb (truthy (RawBullet.get_verified (rd bullet)))
          then Raise (ValidationError
                        "All bullets in approved ArtifactSnapshot must be verified: true")
          else Ok ())
        (default [] (RawProject.bullets project)) ())
    (default [] (RawPack.projects v)) ()
  = match List.find (λ bullet, negb (is_verified (rd bullet))) (RawPack.all_bullets v) with
    | Some _ => Raise (ValidationError
                         "All bullets in approved ArtifactSnapshot must be verified: true")
    | None => Ok ()
    end.
Proof.
  apply (for_each_bullets (λ bullet, negb (is_verified (rd bullet)))
           (λ _, ValidationError
                   "All bullets in approved ArtifactSnapshot must be verified: true")).
Qed.

(** A snapshot is only built from a pack whose bullets are all verified. *)
Lemma snapshot_new_ok_verified id user_id v approved_at h1 h2 frozen md s :
  ArtifactSnapshot.new rd id user_id v approved_at h1 h2 frozen md = Ok s →
  ∀ bullet, bullet ∈ RawPack.all_bullets v → is_verified (rd bullet) = true.
Proof.
  unfold ArtifactSnapshot.new, ArtifactSnapshot.validate_student_artifact_pack_structure.
  destruct (for_each _ ["source_resume_hash"; _; _; _] ()) as [[]|]; [| done].
  cbn [mbind result_bind]. rewrite snapshot_bullets_find.
  destruct (List.find _ _) as [b|] eqn:Hf; [done |]. intros _ bullet Hin.
  apply list_elem_of_In in Hin. pose proof (find_none _ _ Hf bullet Hin) as Hn.
  by apply negb_false_iff in Hn.
Qed.

(** A draft is only built from a pack none of whose bullets is verified. *)
Lemma draft_new_ok_unverified v status created_at h dr :
  DraftArtifactPack.new rd v status created_at h = Ok dr →
  ∀ bullet, bullet ∈ RawPack.all_bullets v → is_verified (rd bullet) = false.
Proof.
  unfold DraftArtifactPack.new. rewrite validate_no_verified_bullets_find.
  destruct (List.find _ _) as [b|] eqn:Hf; [done |]. intros _ bullet Hin.
  apply list_elem_of_In in Hin. apply (find_none _ _ Hf bullet Hin).
Qed.

(** C2 (amended): the construction of a [DraftArtifactPack] fails
    whenever some bullet of its wrapped pack has [verified == true], and
    more generally whenever the value under [verified] is true in a
    condition; the construction of an [ArtifactSnapshot] fails whenever some
    bullet of its wrapped pack has no [verified] entry or one that is false
    in a condition ([False], [None], 0, the empty string or container); and
    for a wrapped pack with at least one bullet the two constructions cannot
    both succeed. *)
Theorem draft_and_snapshot_exclusive (v : RawPack.t B)
    (status : string) (created_at : Z) (source_profile_hash : string)
    (id : string) (user_id approved_at : Z) (source_resume_hash : string)
    (frozen : bool) (approval_metadata : ApprovalMetadata.t) :
  let draft := DraftArtifactPack.new rd v status created_at source_profile_hash in
  let snapshot := ArtifactSnapshot.new rd id user_id v approved_at source_resume_hash
                    source_profile_hash frozen approval_metadata in
  ((∃ bullet, bullet ∈ RawPack.all_bullets v
              ∧ RawBullet.verified (rd bullet) = Some (PyBool true))
   → ∃ e, draft = Raise e)
  ∧ ((∃ bullet value, bullet ∈ RawPack.all_bullets v
                      ∧ RawBullet.verified (rd bullet) = Some value ∧ truthy value = true)
     → ∃ e, draft = Raise e)
  ∧ ((∃ bullet, bullet ∈ RawPack.all_bullets v
                ∧ (RawBullet.verified (rd bullet) = None
                   ∨ ∃ value, RawBullet.verified (rd bullet) = Some value
                              ∧ truthy value = false))
     → ∃ e, snapshot = Raise e)
  ∧ (RawPack.all_bullets v ≠ [] → ¬ (is_ok draft = true ∧ is_ok snapshot = true)).
Proof.
  intros draft snapshot.
  assert (Hdraft : (∃ bullet value, bullet ∈ RawPack.all_bullets v
                      ∧ RawBullet.verified (rd bullet) = Some value ∧ truthy value = true)
                   → ∃ e, draft = Raise e).
  { intros (bullet & value & Hin & Hv & Ht).
    destruct draft as [dr|e] eqn:Hd; [| by exists e].
    pose proof (draft_new_ok_unverified _ _ _ _ _ Hd bullet Hin) as Hf.
    unfold is_verified, RawBullet.get_verified in Hf. rewrite Hv in Hf.
    simpl in Hf. congruence. }
  split_and!.
  - intros (bullet & Hin & Hv). apply Hdraft. by exists bullet, (PyBool true).
  - exact Hdraft.
  - intros (bullet & Hin & Hv).
    destruct snapshot as [s|e] eqn:Hs; [| by exists e].
    pose proof (snapshot_new_ok_verified _ _ _ _ _ _ _ _ _ Hs bullet Hin) as Ht.
    unfold is_verified, RawBullet.get_verified in Ht.
    destruct Hv as [Hv | (value & Hv & Hf)]; rewrite Hv in Ht; simpl in Ht;
      [done | congruence].
  - intros Hne [Hd Hs].
    destruct draft as [dr|] eqn:Hdr; [| done]. destruct snapshot as [s|] eqn:Hsn; [| done].
    destruct (RawPack.all_bullets v) as [|bullet rest] eqn:Hall; [done |].
    assert (Hin : bullet ∈ RawPack.all_bullets v) by (rewrite Hall; apply list_elem_of_here).
    pose proof (draft_new_ok_unverified _ _ _ _ _ Hdr bullet Hin).
    pose proof (snapshot_new_ok_verified _ _ _ _ _ _ _ _ _ Hsn bullet Hin).
    congruence.
Qed.
End Constructors.

Lemma draft_and_snapshot_exclusive_witness :
  (∃ e, DraftArtifactPack.new id four_bullet_pack "DRAFT" 0 "p-hash" = Raise e)
  ∧ (∃ e, DraftArtifactPack.new id loosely_verified_pack "DRAFT" 0 "p-hash" = Raise e)
  ∧ (∃ e, ArtifactSnapshot.new id "snap-1" 7 unverified_pack 0 "abc123" "p-hash" true
            empty_metadata = Raise e)
  ∧ ¬ (is_ok (DraftArtifactPack.new id unverified_pack "DRAFT" 0 "p-hash") = true
       ∧ is_ok (ArtifactSnapshot.new id "snap-1" 7 unverified_pack 0 "abc123" "p-hash" true
                  empty_metadata) = true).
Proof.
  destruct (draft_and_snapshot_exclusive id four_bullet_pack "DRAFT" 0 "p-hash"
              "snap-1" 7 0 "abc123" true empty_metadata) as (Hdraft & _ & _ & _).
  destruct (draft_and_snapshot_exclusive id loosely_verified_pack "DRAFT" 0 "p-hash"
              "snap-1" 7 0 "abc123" true empty_metadata) as (_ & Htruthy & _ & _).
  destruct (draft_and_snapshot_exclusive id unverified_pack "DRAFT" 0 "p-hash"
              "snap-1" 7 0 "abc123" true empty_metadata) as (_ & _ & Hsnapshot & Hexcl).
  split_and!.
  - apply Hdraft. exists (raw_python_bullet "built a crawler" true).
    split; [| reflexivity]. vm_compute. repeat constructor.
  - apply Htruthy. exists loosely_verified_bullet, (PyStr "no").
    split; [| split; reflexivity]. vm_compute. repeat constructor.
  - apply Hsnapshot. exists (raw_python_bullet "built a crawler" false).
    split; [vm_compute; repeat constructor |]. right. by exists (PyBool false).
  - apply Hexcl. by vm_compute.
Defined.

(** C2 as stated fails: a pack whose only bullet holds the string ['no']
    under [verified] has a bullet without [verified == true], and the
    construction of an [ArtifactSnapshot] around it succeeds. *)
Lemma snapshot_accepts_truthy_flag :
  ¬ (∀ (v : RawPack.t RawBullet.t) (snapshot_id : string) (user_id approved_at : Z)
       (source_resume_hash source_profile_hash : string) (frozen : bool)
       (approval_metadata : ApprovalMetadata.t),
       (∃ bullet, bullet ∈ RawPack.all_bullets v
                  ∧ RawBullet.verified bullet ≠ Some (PyBool true)) →
       ∃ e, ArtifactSnapshot.new id snapshot_id user_id v approved_at source_resume_hash
              source_profile_hash frozen approval_metadata = Raise e).
Proof.
  intros Hfails.
  destruct (Hfails loosely_verified_pack "snap-1" 7%Z 0%Z "abc123" "p-hash" true
              example_metadata) as [e He].
  - exists loosely_verified_bullet. split; [| done]. vm_compute. repeat constructor.
  - vm_compute in He. discriminate He.
Qed.

(** ** The engine gateway (claim C1) *)

Lemma validate_all_bullets_verified_find (v : RawPack.t RawBullet.t) :
  EngineGateway._validate_all_bullets_verified v
  = match first_unverified v with
    | Some bullet =>
        Raise (ValueError ("Unverified bullet found in approved snapshot: "
                 +:+ default "Unknown" (RawBullet.description bullet)))
    | None => Ok ()
    end.
Proof.
  unfold EngineGateway._validate_all_bullets_verified, first_unverified.
  apply (for_each_bullets (λ bullet, negb (is_verified bullet))
           (λ bullet, ValueError ("Unverified bullet found in approved snapshot: "
                        +:+ default "Unknown" (RawBullet.description bullet)))).
Qed.

Lemma resolve_jobs_loop (d : PersistentDatabase.t) (job_ids : list string) (acc : list RawJob.t) :
  foldl (λ jobs_data job_id,
      match PersistentDatabase.get_job_by_id d job_id with
      | Some job => jobs_data ++ [job]
      | None => jobs_data
      end) acc job_ids
  = acc ++ resolve_jobs d job_ids.
Proof.
  revert acc. induction job_ids as [|job_id rest IH]; intros acc.
  - by rewrite app_nil_r.
  - cbn [foldl]. rewrite IH. unfold resolve_jobs. cbn [omap list_omap].
    destruct (PersistentDatabase.get_job_by_id d job_id); [by rewrite <- app_assoc | done].
Qed.

Section Gateway.
Variable get_current_approved :
  PersistentDatabase.t → Z → result (option (ArtifactSnapshot.t RawBullet.t)).
Variable run_autopilot :
  RawPack.t RawBullet.t → list RawJob.t → result RunResult.t.

Abbreviation validate_and_execute :=
  (EngineGateway.validate_and_execute get_current_approved run_autopilot).

(** C1 (amended): for every user and job-id list, [validate_and_execute]
    raises when the approval service has no current approved snapshot for
    the user, when the snapshot's [frozen] flag is false, and when some
    bullet of the snapshot's wrapped pack has no [verified] entry or one
    that is false in a condition, in which case the error names the first
    such bullet found; in each of these cases the store is left as it was,
    so no AutopilotRun record is created. *)
Theorem gateway_refuses (user_id : Z) (job_ids : list string) (d : PersistentDatabase.t) :
  (get_current_approved d user_id = Ok None →
   validate_and_execute user_id job_ids d = (Raise (ValueError no_snapshot_message), d))
  ∧ (∀ snapshot,
       get_current_approved d user_id = Ok (Some snapshot) →
       ArtifactSnapshot.frozen snapshot = false →
       validate_and_execute user_id job_ids d
       = (Raise (ValueError "Artifact snapshot must be frozen for engine execution"), d))
  ∧ (∀ snapshot,
       get_current_approved d user_id = Ok (Some snapshot) →
       ArtifactSnapshot.frozen snapshot = true →
       (∃ bullet, bullet ∈ RawPack.all_bullets (ArtifactSnapshot.student_artifact_pack snapshot)
                  ∧ truthy (RawBullet.get_verified bullet) = false) →
       ∃ bullet,
         first_unverified (ArtifactSnapshot.student_artifact_pack snapshot) = Some bullet
         ∧ truthy (RawBullet.get_verified bullet) = false
         ∧ validate_and_execute user_id job_ids d
           = (Raise (ValueError ("Unverified bullet found in approved snapshot: "
                       +:+ default "Unknown" (RawBullet.description bullet))), d)).
Proof.
  unfold EngineGateway.validate_and_execute. split_and!.
  - by intros ->.
  - intros snapshot -> Hf. by rewrite Hf.
  - intros snapshot -> Hf (b & Hin & Hv). rewrite Hf. cbn [negb].
    rewrite validate_all_bullets_verified_find. unfold first_unverified.
    destruct (find_some_exists (λ bullet, negb (is_verified bullet))
                (RawPack.all_bullets (ArtifactSnapshot.student_artifact_pack snapshot)))
      as (bullet & Hfind & Hneg).
    { exists b. split; [done |]. unfold is_verified. by rewrite Hv. }
    exists bullet. rewrite Hfind. split_and!; [done | | done].
    unfold is_verified in Hneg. by apply negb_true_iff in Hneg.
Qed.

(** The keyword call of [create_autopilot_run] never binds. *)
Lemma create_autopilot_run_keywords :
  check_keywords "create_autopilot_run" PersistentDatabase.create_autopilot_run_params
    ["user_id"; "profile_snapshot"; "job_ids"]
  = Raise (TypeError
      "create_autopilot_run() got an unexpected keyword argument 'profile_snapshot'").
Proof. reflexivity. Qed.

(** What the gateway does with an engine result that reports success. *)
Lemma gateway_discards_engine_success user_id job_ids d snapshot res :
  get_current_approved d user_id = Ok (Some snapshot) →
  ArtifactSnapshot.frozen snapshot = true →
  first_unverified (ArtifactSnapshot.student_artifact_pack snapshot) = None →
  resolve_jobs d job_ids ≠ [] →
  run_autopilot (ArtifactSnapshot.student_artifact_pack snapshot) (resolve_jobs d job_ids)
    = Ok res →
  RunResult.success res = true →
  validate_and_execute user_id job_ids d
  = (Ok {| GatewayResult.success := false;
           GatewayResult.run_id := None;
           GatewayResult.summary := None;
           GatewayResult.error :=
             Some ("Engine execution failed: create_autopilot_run() got an "
                     +:+ "unexpected keyword argument 'profile_snapshot'");
           GatewayResult.approved_snapshot_id := ArtifactSnapshot.id snapshot |}, d).
Proof.
  intros Hget Hf Hver Hjobs Hrun Hok. unfold EngineGateway.validate_and_execute.
  rewrite Hget, Hf. cbn [negb]. rewrite validate_all_bullets_verified_find, Hver.
  rewrite resolve_jobs_loop, app_nil_l.
  destruct (resolve_jobs d job_ids) as [|job rest] eqn:Hres; [done |].
  unfold EngineGateway.execute. rewrite Hrun, Hok, create_autopilot_run_keywords.
  reflexivity.
Qed.

(** X29: whatever the approval service and the engine return,
    [validate_and_execute] leaves the store as it was and never returns a
    success result: the keyword call of [create_autopilot_run] names a
    parameter the method does not have, so a run record is never persisted,
    no history entry is written and no run is marked completed. *)
Theorem gateway_never_completes_a_run (user_id : Z) (job_ids : list string)
    (d : PersistentDatabase.t) :
  let out := validate_and_execute user_id job_ids d in
  out.2 = d
  ∧ match out.1 with
    | Ok r => GatewayResult.success r = false ∧ GatewayResult.run_id r = None
    | Raise _ => True
    end.
Proof.
  unfold EngineGateway.validate_and_execute.
  destruct (get_current_approved d user_id) as [[snapshot|]|]; [| done | done].
  destruct (ArtifactSnapshot.frozen snapshot); [| done]. cbn [negb].
  destruct (EngineGateway._validate_all_bullets_verified _) as [[]|]; [| done].
  destruct (foldl _ _ _) as [|job rest]; [done |].
  unfold EngineGateway.execute.
  destruct (run_autopilot _ _) as [res|e]; [| done].
  destruct (RunResult.success res); [| done].
  by rewrite create_autopilot_run_keywords.
Qed.
End Gateway.

Lemma gateway_refuses_witness :
  EngineGateway.validate_and_execute ApprovalService.get_current_approved
    (engine_call allow_all no_format seconds always_half) 7 ["job-1"] empty_database
  = (Raise (ValueError no_snapshot_message), empty_database)
  ∧ EngineGateway.validate_and_execute (handing_out (corrupt_snapshot false))
      (engine_call allow_all no_format seconds always_half) 7 ["job-1"] approved_database
    = (Raise (ValueError "Artifact snapshot must be frozen for engine execution"),
       approved_database)
  ∧ EngineGateway.validate_and_execute (handing_out (corrupt_snapshot true))
      (engine_call allow_all no_format seconds always_half) 7 ["job-1"] approved_database
    = (Raise (ValueError "Unverified bullet found in approved snapshot: built a crawler"),
       approved_database).
Proof.
  split_and!.
  - destruct (gateway_refuses ApprovalService.get_current_approved
                (engine_call allow_all no_format seconds always_half) 7 ["job-1"]
                empty_database) as (Hnone & _ & _).
    apply Hnone. reflexivity.
  - destruct (gateway_refuses (handing_out (corrupt_snapshot false))
                (engine_call allow_all no_format seconds always_half) 7 ["job-1"]
                approved_database) as (_ & Hfrozen & _).
    apply (Hfrozen (corrupt_snapshot false)); reflexivity.
  - destruct (gateway_refuses (handing_out (corrupt_snapshot true))
                (engine_call allow_all no_format seconds always_half) 7 ["job-1"]
                approved_database) as (_ & _ & Hbullet).
    destruct (Hbullet (corrupt_snapshot true)) as (bullet & Hfirst & _ & Hres).
    + reflexivity.
    + reflexivity.
    + exists (raw_python_bullet "built a crawler" false).
      split; [vm_compute; repeat constructor | by vm_compute].
    + rewrite Hres. vm_compute in Hfirst. injection Hfirst as <-. reflexivity.
Defined.

(** C1 as stated fails: the stored snapshot holds a bullet whose
    [verified] entry is the string ['no'], so the bullet does not have
    [verified == true]; the approval service hands the snapshot out, the
    gateway's own check passes, and the call returns the engine's failure
    instead of raising. *)
Lemma gateway_accepts_truthy_flag :
  ¬ (∀ (user_id : Z) (job_ids : list string) (d : PersistentDatabase.t)
       (snapshot : ArtifactSnapshot.t RawBullet.t),
       ApprovalService.get_current_approved d user_id = Ok (Some snapshot) →
       (∃ bullet,
          bullet ∈ RawPack.all_bullets (ArtifactSnapshot.student_artifact_pack snapshot)
          ∧ RawBullet.verified bullet ≠ Some (PyBool true)) →
       ∃ e, EngineGateway.validate_and_execute ApprovalService.get_current_approved
              (engine_call allow_all no_format seconds always_half) user_id job_ids d
            = (Raise e, d)).
Proof.
  intros Hraises.
  destruct (ApprovalService.get_current_approved loosely_approved_database 7)
    as [[snapshot|]|] eqn:Hget; [| by vm_compute in Hget | by vm_compute in Hget].
  destruct (Hraises 7%Z ["job-1"] loosely_approved_database snapshot Hget) as [e He].
  - exists loosely_verified_bullet. split; [| done].
    vm_compute in Hget. injection Hget as <-. vm_compute. repeat constructor.
  - vm_compute in He. discriminate He.
Qed.

(** What the gateway returns on that store. *)
Lemma gateway_on_truthy_flag :
  EngineGateway.validate_and_execute ApprovalService.get_current_approved
    (engine_call allow_all no_format seconds always_half) 7 ["job-1"]
    loosely_approved_database
  = (Ok {| GatewayResult.success := false;
           GatewayResult.run_id := None;
           GatewayResult.summary := None;
           GatewayResult.error :=
             Some ("Student profile schema validation failed: "
                     +:+ "Input should be a valid boolean");
           GatewayResult.approved_snapshot_id := "snap-1" |},
     loosely_approved_database).
Proof. vm_compute. reflexivity. Qed.

(** The approval service that ships with the gateway rebuilds the
    snapshot from the stored row, so what it returns is frozen and fully
    verified: a stored pack with an unverified bullet is refused by the
    constructor of the snapshot, before the gateway's own checks. *)
Lemma get_current_approved_validated d user_id snapshot :
  ApprovalService.get_current_approved d user_id = Ok (Some snapshot) →
  ArtifactSnapshot.frozen snapshot = true
  ∧ first_unverified (ArtifactSnapshot.student_artifact_pack snapshot) = None.
Proof.
  unfold ApprovalService.get_current_approved.
  destruct (PersistentDatabase.get_current_artifact_snapshot d user_id)
    as [[row frozen]|]; [| done].
  destruct (ArtifactSnapshot.new _ _ _ _ _ _ _ _ _) as [s|e] eqn:Hnew; [| done].
  cbn [mbind result_bind]. intros [= <-].
  pose proof (snapshot_new_ok_verified id _ _ _ _ _ _ _ _ _ Hnew) as Hall.
  unfold ArtifactSnapshot.new in Hnew.
  destruct (ArtifactSnapshot.validate_student_artifact_pack_structure _ _) as [pack|] eqn:Hp;
    [| done].
  cbn [mbind result_bind] in Hnew.
  unfold ArtifactSnapshot.validate_frozen_always_true in Hnew.
  destruct frozen; [| done]. cbn [negb mbind result_bind] in Hnew.
  destruct (ArtifactSnapshot.validate_approval_metadata _) as [md|]; [| done].
  cbn [mbind result_bind] in Hnew. injection Hnew as <-.
  cbn [ArtifactSnapshot.frozen ArtifactSnapshot.student_artifact_pack].
  split; [done |].
  assert (pack = SnapshotRow.student_artifact_pack row) as ->.
  { unfold ArtifactSnapshot.validate_student_artifact_pack_structure in Hp.
    destruct (for_each _ ["source_resume_hash"; _; _; _] ()) as [[]|]; [| done].
    cbn [mbind result_bind] in Hp.
    destruct (for_each _ _ ()) as [[]|]; [| done]. by injection Hp as <-. }
  apply find_none_forall. intros bullet Hin.
  pose proof (Hall bullet Hin) as Hv. cbn [id] in Hv. by rewrite Hv.
Qed.

Lemma shipped_gateway_refuses_corrupt_store run_autopilot user_id job_ids d row frozen :
  PersistentDatabase.get_current_artifact_snapshot d user_id = Some (row, frozen) →
  (∃ bullet, bullet ∈ RawPack.all_bullets (SnapshotRow.student_artifact_pack row)
             ∧ truthy (RawBullet.get_verified bullet) = false) →
  ∃ e, EngineGateway.validate_and_execute ApprovalService.get_current_approved
         run_autopilot user_id job_ids d = (Raise e, d).
Proof.
  intros Hrow (bullet & Hin & Hbad). unfold EngineGateway.validate_and_execute.
  unfold ApprovalService.get_current_approved. rewrite Hrow.
  destruct (ArtifactSnapshot.new _ _ _ _ _ _ _ _ _) as [s|e] eqn:Hnew; [| by exists e].
  pose proof (snapshot_new_ok_verified id _ _ _ _ _ _ _ _ _ Hnew bullet Hin) as Hv.
  unfold is_verified in Hv. cbn [id] in Hv. congruence.
Qed.

Lemma get_job_by_id_extra d job_id j :
  PersistentDatabase.get_job_by_id d job_id = Some j → RawJob.extra j ≠ [].
Proof.
  unfold PersistentDatabase.get_job_by_id.
  destruct (filter _ _) as [|row rest]; [done |]. by intros [= <-].
Qed.

(** X30: the engine refuses every job dictionary the store hands to the
    gateway: [get_job_by_id] builds a dictionary with five keys beyond the
    six of the job schema, which forbids extra keys, so on a non-empty list
    of such dictionaries the engine returns a failure result. *)
Theorem engine_rejects_store_rows validate_job_for_scoring format_2f clock g
    student_data d job_ids :
  resolve_jobs d job_ids ≠ [] →
  ∃ res,
    engine_call validate_job_for_scoring format_2f clock g student_data
      (resolve_jobs d job_ids) = Ok res
    ∧ RunResult.success res = false.
Proof.
  intros Hne. unfold engine_call, Engine.run_autopilot.
  destruct (validate_student student_data) as [student|e]; [| by eexists].
  destruct (resolve_jobs d job_ids) as [|j rest] eqn:Hres; [done |].
  assert (Hj : RawJob.extra j ≠ []).
  { assert (Hin : j ∈ resolve_jobs d job_ids) by (rewrite Hres; apply list_elem_of_here).
    unfold resolve_jobs in Hin. apply list_elem_of_omap in Hin as (job_id & _ & Hget).
    by eapply get_job_by_id_extra. }
  cbn [Engine.validate_jobs]. unfold validate_job.
  destruct (RawJob.extra j); [done |]. by eexists.
Qed.

Lemma engine_rejects_store_rows_witness :
  ∃ res,
    engine_call allow_all no_format seconds always_half four_bullet_pack
      (resolve_jobs approved_database ["job-1"]) = Ok res
    ∧ RunResult.success res = false.
Proof.
  apply (engine_rejects_store_rows allow_all no_format seconds always_half four_bullet_pack
           approved_database ["job-1"]).
  by vm_compute.
Defined.

(** ** The approval service (claims C4 and C5) *)

Lemma for_each_check_dec {A} (P : A → Prop) `{∀ x, Decision (P x)} (err : A → exn)
    (l : list A) :
  for_each (λ _ x, if decide (P x) then Raise (err x) else Ok ()) l ()
  = match List.find (λ x, bool_decide (P x)) l with
    | Some x => Raise (err x)
    | None => Ok ()
    end.
Proof.
  induction l as [|x l IH]; [done |]. cbn [for_each List.find].
  destruct (decide (P x)).
  - by rewrite bool_decide_eq_true_2.
  - by rewrite bool_decide_eq_false_2.
Qed.

Lemma find_pointwise {A} (f g : A → bool) (l : list A) :
  (∀ x, f x = g x) → List.find f l = List.find g l.
Proof.
  intros Hfg. induction l as [|x l IH]; [done |]. cbn [List.find].
  by rewrite Hfg, IH.
Qed.

(** A loop over [enumerate(l)] that appends one id per element. *)
Lemma foldl_enumerate_ids {A} (f : nat → string) (h : nat → nat) (l : list A)
    (acc : list string) :
  foldl (λ acc '(j, _), acc ++ [f j]) acc (imap (λ j x, (h j, x)) l)
  = acc ++ imap (λ j _, f (h j)) l.
Proof.
  revert h acc. induction l as [|x l IH]; intros h acc.
  - by rewrite app_nil_r.
  - cbn [imap foldl]. rewrite (IH (h ∘ S)). by rewrite <- app_assoc.
Qed.

Lemma extract_bullets_loop {B} (h : nat → nat) (projects : list (RawProject.t B))
    (acc : list string) :
  foldl (λ bullet_ids '(i, project),
      foldl (λ bullet_ids '(j, bullet), bullet_ids ++ [bullet_id_of i j])
        bullet_ids (enumerate (default [] (RawProject.bullets project))))
    acc (imap (λ i x, (h i, x)) projects)
  = acc ++ concat (imap (λ i project,
                     imap (λ j _, bullet_id_of (h i) j)
                       (default [] (RawProject.bullets project))) projects).
Proof.
  revert h acc. induction projects as [|project rest IH]; intros h acc.
  - by rewrite app_nil_r.
  - cbn [imap foldl concat]. rewrite (IH (h ∘ S)).
    rewrite app_assoc. f_equal.
    exact (foldl_enumerate_ids (bullet_id_of (h 0)) (λ j, j) _ acc).
Qed.

Lemma extract_bullets_positional {B} (artifact_pack : RawPack.t B) :
  ApprovalService._extract_bullets_from_draft artifact_pack
  = positional_bullet_ids artifact_pack.
Proof.
  exact (extract_bullets_loop (λ i, i) (default [] (RawPack.projects artifact_pack)) []).
Qed.

(** The set of confirmed ids is built exactly when every entry has an id
    that can be hashed; it then holds the ids of the entries. *)
Lemma bullet_id_set_loop (bullets_verified : list BulletVerification.t) (acc : list pyval) :
  match for_each (λ ids bv,
            bullet_id ← subscript "bullet_id" (BulletVerification.bullet_id bv);
            bullet_id ← hash_check bullet_id;
            Ok (ids ++ [bullet_id])) bullets_verified acc with
  | Ok ids => Forall has_bullet_id bullets_verified
              ∧ ids = acc ++ omap BulletVerification.bullet_id bullets_verified
  | Raise _ => ¬ Forall has_bullet_id bullets_verified
  end.
Proof.
  revert acc. induction bullets_verified as [|bv rest IH]; intros acc.
  - cbn [for_each omap list_omap]. by rewrite app_nil_r.
  - cbn [for_each omap list_omap].
    destruct (BulletVerification.bullet_id bv) as [v|] eqn:Hid; cbn [subscript mbind result_bind].
    2: { intros Hall. apply Forall_cons in Hall as [(v & Hv & _) _]. congruence. }
    destruct (hash_check v) as [v'|e] eqn:Hhash; cbn [mbind result_bind].
    2: { intros Hall. apply Forall_cons in Hall as [(v' & Hv & Hh) _]. congruence. }
    assert (v' = v) as ->.
    { destruct v; cbn [hash_check] in Hhash; congruence. }
    specialize (IH (acc ++ [v])). destruct (for_each _ rest _) as [ids|e].
    + destruct IH as [Hall ->]. split.
      * constructor; [by exists v | done].
      * by rewrite <- app_assoc.
    + intros Hall. apply Forall_cons in Hall as [_ Hall]. by apply IH.
Qed.

Lemma str_in_confirmed (bullet_id : string) (confirmation : UserConfirmation.t) :
  ApprovalService.str_in bullet_id
    (omap BulletVerification.bullet_id (UserConfirmation.bullets_verified confirmation))
  = bool_decide (bullet_id ∈ confirmed_ids confirmation).
Proof.
  unfold confirmed_ids, ApprovalService.str_in.
  induction (UserConfirmation.bullets_verified confirmation) as [|bv rest IH].
  - cbn. by rewrite bool_decide_eq_false_2 by apply not_elem_of_nil.
  - cbn [omap list_omap].
    destruct (BulletVerification.bullet_id bv) as [v|]; [| exact IH].
    cbn [existsb]. rewrite IH.
    destruct v as [| | | |t| |]; cbn [py_eq_str orb]; try done.
    apply eq_true_iff_eq. rewrite orb_true_iff, !bool_decide_eq_true, elem_of_cons.
    split; intros [?|?]; auto.
Qed.

(** The checks of [_validate_user_confirmation], in their order. *)
Lemma validate_user_confirmation_cases {B} (confirmation : UserConfirmation.t)
    (draft : DraftArtifactPack.t B) :
  ApprovalService._validate_user_confirmation confirmation draft
  = if negb (UserConfirmation.accuracy_confirmed confirmation)
    then Raise (ValueError "User must confirm accuracy checkbox")
    else if bool_decide (UserConfirmation.bullets_verified confirmation = [])
    then Raise (ValueError "User must verify at least one bullet")
    else match ApprovalService.bullet_id_set
                 (UserConfirmation.bullets_verified confirmation) with
         | Raise e => Raise e
         | Ok _ =>
             match first_missing draft confirmation with
             | Some bullet_id =>
                 Raise (ValueError ("Bullet " +:+ bullet_id +:+ " not verified by user"))
             | None => Ok ()
             end
         end.
Proof.
  unfold ApprovalService._validate_user_confirmation, first_missing.
  destruct (UserConfirmation.accuracy_confirmed confirmation); cbn [negb]; [| done].
  destruct (UserConfirmation.bullets_verified confirmation) as [|bv rest] eqn:Hbv; [done |].
  rewrite bool_decide_eq_false_2 by done.
  rewrite extract_bullets_positional.
  pose proof (bullet_id_set_loop (bv :: rest) []) as Hset.
  unfold ApprovalService.bullet_id_set.
  destruct (for_each _ (bv :: rest) []) as [ids|e]; [| done].
  destruct Hset as [_ ->]. rewrite app_nil_l. cbn [mbind result_bind].
  rewrite (for_each_check (λ bullet_id, negb (ApprovalService.str_in bullet_id
             (omap BulletVerification.bullet_id (bv :: rest))))
             (λ bullet_id, ValueError ("Bullet " +:+ bullet_id +:+ " not verified by user"))).
  erewrite find_pointwise; [reflexivity |].
  intros bullet_id. cbn beta. rewrite <- Hbv, str_in_confirmed.
  by destruct (decide (bullet_id ∈ confirmed_ids confirmation));
    [rewrite bool_decide_eq_true_2, bool_decide_eq_false_2 by auto
    | rewrite bool_decide_eq_false_2, bool_decide_eq_true_2 by auto].
Qed.

Section Approval.
Variable sha256_hexdigest : string → string.
Variable isoformat : Z → string.

Abbreviation submit_for_approval :=
  (ApprovalService.submit_for_approval sha256_hexdigest isoformat).

(** C4 (amended): for every draft and user confirmation,
    [submit_for_approval] raises when the confirmation's
    [accuracy_confirmed] flag is false, raises when its [bullets_verified]
    list is empty, and raises when some positional bullet id
    [project_{i}_bullet_{j}] of the draft is not in the confirmation's list;
    the checks run in this order, so once the first two pass, and every
    entry of the list carries a [bullet_id] that can be hashed, the error
    names the first missing bullet.  In each case the memory and the store
    are left as they were: no snapshot is created or persisted. *)
Theorem submit_for_approval_rejects (draft : DraftArtifactPack.t loc)
    (confirmation : UserConfirmation.t) (user_id : Z) (snapshot_id : string)
    (utcnow now : Z) (w : world) :
  let out := submit_for_approval draft confirmation user_id snapshot_id utcnow now w in
  let ids := positional_bullet_ids (DraftArtifactPack.student_artifact_pack draft) in
  (UserConfirmation.accuracy_confirmed confirmation = false →
   out = (Raise (ValueError "User must confirm accuracy checkbox"), w))
  ∧ (UserConfirmation.bullets_verified confirmation = [] →
     ∃ msg, out = (Raise (ValueError msg), w)
       ∧ (UserConfirmation.accuracy_confirmed confirmation = true →
          msg = "User must verify at least one bullet"))
  ∧ ((∃ bullet_id, bullet_id ∈ ids ∧ bullet_id ∉ confirmed_ids confirmation) →
     ∃ e, out = (Raise e, w)
       ∧ (UserConfirmation.accuracy_confirmed confirmation = true →
          UserConfirmation.bullets_verified confirmation ≠ [] →
          Forall has_bullet_id (UserConfirmation.bullets_verified confirmation) →
          ∃ bullet_id,
            first_missing draft confirmation = Some bullet_id
            ∧ bullet_id ∈ ids ∧ (bullet_id ∉ confirmed_ids confirmation)
            ∧ e = ValueError ("Bullet " +:+ bullet_id +:+ " not verified by user"))).
Proof.
  intros out ids. unfold out, ApprovalService.submit_for_approval.
  rewrite validate_user_confirmation_cases. split_and!.
  - by intros ->.
  - intros ->. rewrite bool_decide_eq_true_2 by done.
    destruct (UserConfirmation.accuracy_confirmed confirmation); cbn [negb];
      (eexists; split; [reflexivity | done]).
  - intros (b & Hin & Hnot).
    destruct (find_some_exists
                (λ bullet_id, bool_decide (bullet_id ∉ confirmed_ids confirmation)) ids)
      as (bullet_id & Hfind & Htest).
    { exists b. split; [done |]. by apply bool_decide_eq_true_2. }
    fold ids in Hfind. unfold first_missing. fold ids. rewrite Hfind.
    destruct (UserConfirmation.accuracy_confirmed confirmation); cbn [negb];
      [| eexists; split; [reflexivity | done]].
    destruct (bool_decide (UserConfirmation.bullets_verified confirmation = [])) eqn:Hbv.
    { eexists; split; [reflexivity |].
      intros _ Hne. by apply bool_decide_eq_true_1 in Hbv. }
    pose proof (bullet_id_set_loop (UserConfirmation.bullets_verified confirmation) [])
      as Hset.
    unfold ApprovalService.bullet_id_set.
    destruct (for_each _ (UserConfirmation.bullets_verified confirmation) []) as [set|e].
    2: { eexists; split; [reflexivity |]. intros _ _ Hall. by destruct Hset. }
    eexists; split; [reflexivity |].
    intros _ _ _. exists bullet_id. split_and!; try done.
    + apply find_some in Hfind as [Hin' _]. by apply list_elem_of_In.
    + by apply bool_decide_eq_true_1 in Htest.
Qed.
(** A successful approval leaves every bullet of the draft it was given
    verified in memory: the approved pack is a shallow copy, so the flags
    are written to the draft's own bullets. *)
Lemma submit_for_approval_verifies_draft (draft : DraftArtifactPack.t loc)
    (confirmation : UserConfirmation.t) (user_id : Z) (snapshot_id : string)
    (utcnow now : Z) (w w' : world) (snapshot : ArtifactSnapshot.t loc) :
  submit_for_approval draft confirmation user_id snapshot_id utcnow now w
    = (Ok snapshot, w') →
  ∀ bullet, bullet ∈ RawPack.all_bullets (DraftArtifactPack.student_artifact_pack draft) →
            is_verified (mem w' !!! bullet) = true.
Proof.
  unfold ApprovalService.submit_for_approval.
  destruct (ApprovalService._validate_user_confirmation _ _) as [[]|]; [| done].
  unfold ApprovalService._apply_user_verifications, dict_copy.
  destruct (ApprovalService.verification_lookup_of _) as [verification_lookup|]; [| done].
  cbn [mbind result_bind].
  set (h := foldl _ (mem w) _).
  destruct (ApprovalService.modified_bullets_of _) as [modified_bullets|]; [| done].
  destruct (RawPack.source_resume_hash _) as [hash|]; [| done].
  destruct (ArtifactSnapshot.new _ _ _ _ _ _ _ _ _) as [s|] eqn:Hnew; [| done].
  destruct (PersistentDatabase.save_artifact_snapshot _ _ _ _ _ _ _ _ _) as [[[]|] d];
    [| done | done].
  cbn [negb]. destruct (PersistentDatabase.delete_draft_artifacts _ _) as [deleted d'].
  intros [= <- <-]. cbn [mem].
  exact (snapshot_new_ok_verified (λ l, h !!! l) _ _ _ _ _ _ _ _ _ Hnew).
Qed.
End Approval.

Lemma submit_for_approval_rejects_witness :
  ApprovalService.submit_for_approval plain_digest plain_time draft_in_memory
    partial_confirmation 7 "snap-1" 10 11 example_world
  = (Raise (ValueError "Bullet project_0_bullet_1 not verified by user"), example_world).
Proof.
  destruct (submit_for_approval_rejects plain_digest plain_time draft_in_memory
              partial_confirmation 7 "snap-1" 10 11 example_world)
    as (_ & _ & Hmissing).
  destruct Hmissing as (e & Hout & Hmsg).
  - exists "project_0_bullet_1". split.
    + vm_compute. repeat constructor.
    + apply (bool_decide_unpack _). by vm_compute.
  - destruct Hmsg as (bullet_id & Hfirst & _ & _ & ->); [reflexivity | done | |].
    + repeat constructor. by eexists.
    + rewrite Hout. vm_compute in Hfirst. injection Hfirst as <-. reflexivity.
Defined.

(** C4 as stated fails: with a confirmation whose list holds the empty
    dictionary, the draft's bullet ids do not appear in the list, and the
    call raises [KeyError('bullet_id')]: the error names none of them. *)
Lemma submit_for_approval_key_error :
  let out := ApprovalService.submit_for_approval plain_digest plain_time draft_in_memory
               confirmation_without_id 7 "snap-1" 10 11 example_world in
  positional_bullet_ids (DraftArtifactPack.student_artifact_pack draft_in_memory)
    = ["project_0_bullet_0"; "project_0_bullet_1"]
  ∧ confirmed_ids confirmation_without_id = []
  ∧ out = (Raise (KeyError "bullet_id"), example_world)
  ∧ str_exn (KeyError "bullet_id") = "'bullet_id'"
  ∧ ¬ includes (str_exn (KeyError "bullet_id")) "project_0_bullet_0"
  ∧ ¬ includes (str_exn (KeyError "bullet_id")) "project_0_bullet_1".
Proof.
  split_and!; try by vm_compute.
  - intros (before & after & H). apply (f_equal String.length) in H.
    rewrite !string_length_app in H. simpl in H. lia.
  - intros (before & after & H). apply (f_equal String.length) in H.
    rewrite !string_length_app in H. simpl in H. lia.
Qed.

(** C5 fails on the code: approving the draft held in memory with a
    confirmation of both bullets returns a snapshot, and afterwards the
    draft that was passed in reads differently: its bullets, unverified
    before the call, are verified. *)
Theorem submit_for_approval_mutates_draft :
  let out := ApprovalService.submit_for_approval plain_digest plain_time draft_in_memory
               full_confirmation 7 "snap-1" 10 11 example_world in
  let pack := DraftArtifactPack.student_artifact_pack draft_in_memory in
  is_ok out.1 = true
  ∧ map is_verified (RawPack.all_bullets (resolve (mem example_world) pack)) = [false; false]
  ∧ map is_verified (RawPack.all_bullets (resolve (mem out.2) pack)) = [true; true]
  ∧ resolve (mem out.2) pack ≠ resolve (mem example_world) pack.
Proof.
  split_and!; [by vm_compute | by vm_compute | by vm_compute |].
  intros H. apply (f_equal (λ p, map is_verified (RawPack.all_bullets p))) in H.
  vm_compute in H. discriminate H.
Qed.

(** Such a flag reaches the store through the approval itself: a
    confirmation that lists the bullets with ['no'] under [verified] is
    accepted, the stored pack holds ['no'] on every bullet, and the
    execution schema refuses that pack. *)
Lemma approval_stores_truthy_flag :
  ∃ snapshot w' row,
    ApprovalService.submit_for_approval plain_digest plain_time draft_in_memory
      loose_confirmation 7 "snap-1" 10 11 example_world = (Ok snapshot, w')
    ∧ PersistentDatabase.artifact_snapshots (db w') = [row]
    ∧ map RawBullet.verified (RawPack.all_bullets (SnapshotRow.student_artifact_pack row))
      = [Some (PyStr "no"); Some (PyStr "no")]
    ∧ validate_student (SnapshotRow.student_artifact_pack row)
      = Raise (ValidationError "Input should be a valid boolean").
Proof. eexists _, _, _. split_and!; by vm_compute. Qed.

(** The gateway on a store with an approved snapshot and an active
    listing: the engine refuses the stored job dictionary, and nothing is
    written. *)
Lemma gateway_on_approved_store :
  EngineGateway.validate_and_execute ApprovalService.get_current_approved
    (engine_call allow_all no_format seconds always_half) 7 ["job-1"] approved_database
  = (Ok {| GatewayResult.success := false;
           GatewayResult.run_id := None;
           GatewayResult.summary := None;
           GatewayResult.error :=
             Some "Job entry #1 schema validation failed: Extra inputs are not permitted";
           GatewayResult.approved_snapshot_id := "snap-1" |},
     approved_database).
Proof. vm_compute. reflexivity. Qed.

(** The same call with an engine that reports success: the keyword call
    of [create_autopilot_run] raises, the gateway turns the error into a
    failure result, and no run is recorded. *)
Lemma gateway_on_engine_success :
  EngineGateway.validate_and_execute ApprovalService.get_current_approved
    reporting_success 7 ["job-1"] approved_database
  = (Ok {| GatewayResult.success := false;
           GatewayResult.run_id := None;
           GatewayResult.summary := None;
           GatewayResult.error :=
             Some ("Engine execution failed: create_autopilot_run() got an "
                     +:+ "unexpected keyword argument 'profile_snapshot'");
           GatewayResult.approved_snapshot_id := "snap-1" |},
     approved_database).
Proof. vm_compute. reflexivity. Qed.

(** * Part III: further properties of the code *)

(** ** The scorer: bounds *)

(** X1: in binary64 arithmetic the score is a number between 0.0 and 1.0
    (never NaN), and the explanation repeats it as [final_score]; a job that
    requires no skill scores exactly 1.0 when it asks for no experience and
    0.7 when it asks for some. *)
Theorem score_job_match_bounds (student : StudentArtifactPack.t) (job : JobListing.t) :
  let r := score_job_match student job in
  PrimFloat.leb 0.0 (score r) = true
  ∧ PrimFloat.leb (score r) 1.0 = true
  ∧ final_score (explanation_of r) = score r
  ∧ (JobListing.required_skills job = [] →
     JobListing.min_experience_years job = 0%Z → score r = 1.0%float)
  ∧ (JobListing.required_skills job = [] →
     JobListing.min_experience_years job ≠ 0%Z → score r = 0.7%float).
Proof.
  intros r. split_and!.
  - apply clamp_bounds.
  - apply clamp_bounds.
  - reflexivity.
  - intros Hreq Hexp. unfold r, score_job_match. rewrite Hreq, Hexp.
    cbn [list_to_set foldr score]. rewrite decide_True by done.
    vm_compute. reflexivity.
  - intros Hreq Hexp. unfold r, score_job_match. rewrite Hreq.
    cbn [list_to_set foldr score]. rewrite decide_True by done.
    destruct (Z.eqb_spec (JobListing.min_experience_years job) 0) as [|_]; [done |].
    vm_compute. reflexivity.
Qed.

Lemma score_job_match_bounds_witness :
  score (score_job_match example_student
           {| JobListing.job_id := "job-3"; JobListing.company := "Acme";
              JobListing.role := "Intern"; JobListing.location := "Remote";
              JobListing.required_skills := []; JobListing.min_experience_years := 0 |})
  = 1.0%float
  ∧ score (score_job_match example_student
             {| JobListing.job_id := "job-4"; JobListing.company := "Acme";
                JobListing.role := "Lead"; JobListing.location := "Remote";
                JobListing.required_skills := []; JobListing.min_experience_years := 5 |})
    = 0.7%float.
Proof.
  split.
  - apply score_job_match_bounds; reflexivity.
  - apply score_job_match_bounds; [reflexivity | done].
Defined.

(** ** The engine: what a run does to the portal and the generator *)

Lemma tracked_receipts_app l1 l2 :
  tracked_receipts (l1 ++ l2) = tracked_receipts l1 ++ tracked_receipts l2.
Proof. unfold tracked_receipts. apply omap_app. Qed.

Lemma map_seq_shift {A} (f : nat → A) n m :
  map f (seq (1 + n) m) = map (λ i, f (n + i)) (seq 1 m).
Proof.
  replace (1 + n) with (n + 1) by lia.
  rewrite <- (fmap_add_seq n 1).
  change (map f (Nat.add n <$> seq 1 m)) with (map f (map (Nat.add n) (seq 1 m))).
  by rewrite map_map.
Qed.

Lemma loop_effect_refl st : loop_effect st st 0 0 0 0.
Proof.
  unfold loop_effect. cbn [seq map Nat.add N.of_nat]. rewrite app_nil_r, N.add_0_r.
  repeat split; lia.
Qed.

Lemma loop_effect_trans st1 st2 st3 k a b c k' a' b' c' :
  loop_effect st1 st2 k a b c → loop_effect st2 st3 k' a' b' c' →
  loop_effect st1 st3 (k + k') (a + a') (b + b') (c + c').
Proof.
  intros (Hs & Hk & Ha & Hb & Hc & Hap & Hp & Hn & Hr & Hnf)
         (Hs' & Hk' & Ha' & Hb' & Hc' & Hap' & Hp' & Hn' & Hr' & Hnf').
  unfold loop_effect. split_and!; try lia; try congruence.
  - rewrite Hr', Hr, <- app_assoc. f_equal.
    replace (a + a' + (b + b')) with ((a + b) + (a' + b')) by lia.
    rewrite (seq_app (a + b) (a' + b')), map_app. f_equal.
    rewrite Hn, (map_seq_shift _ (a + b)).
    apply map_ext. intros i. do 2 f_equal. lia.
  - intros Hno. destruct (Hnf Hno) as [-> ->].
    rewrite Hs in Hnf'. destruct (Hnf' Hno) as [-> ->]. done.
Qed.

(** The validation loop keeps the validated entries, in order. *)
Lemma validate_jobs_valid idx jobs_data acc jobs :
  Engine.validate_jobs idx jobs_data acc = inr jobs →
  ∃ jobs', jobs = acc ++ jobs'
    ∧ Forall2 (λ j job, validate_job j = Ok job) jobs_data jobs'.
Proof.
  revert idx acc. induction jobs_data as [|j rest IH]; intros idx acc.
  - intros [= <-]. exists []. by rewrite app_nil_r.
  - cbn [Engine.validate_jobs].
    destruct (validate_job j) as [job|e] eqn:Hj; [| done].
    intros (jobs' & -> & Hall)%IH. exists (job :: jobs').
    rewrite <- app_assoc. split; [done |]. by constructor.
Qed.

Lemma validate_all_skills_and_bullets_ok self student :
  validate_all_skills_and_bullets self = Ok student → student = self.
Proof.
  unfold validate_all_skills_and_bullets.
  destruct (for_each _ _ _); [| done]. cbn [mbind result_bind]. by intros [= <-].
Qed.

Lemma validate_student_constraints student_data student :
  validate_student student_data = Ok student →
  StudentArtifactPack.constraints student = RawPack.constraints student_data.
Proof.
  unfold validate_student.
  destruct (RawPack.source_resume_hash student_data), (RawPack.skill_vocab student_data),
    (RawPack.education student_data), (RawPack.projects student_data); try done.
  destruct (check_skill_vocab_unique _); [| done]. cbn [mbind result_bind].
  destruct (validate_list _ _); [| done]. cbn [mbind result_bind].
  by intros ->%validate_all_skills_and_bullets_ok.
Qed.

Section EngineEffects.
Variable validate_job_for_scoring :
  StudentArtifactPack.t → JobListing.t → nat → result (bool * option string).
Variable format_2f : float → string.
Variable clock : nat → Z.

Ltac effect_simpl :=
  cbn [Engine.portal Engine.gen Engine.add_counts Engine.track Engine.set_tracker
       Engine.set_portal Engine.tracker Engine.queued Engine.submitted Engine.skipped
       Engine.retried Engine.failed Engine.apps_today Engine.skip
       ApplicationTracker.track ApplicationTracker.events ApplicationTracker.receipt_id
       SandboxJobPortal.receipt_id SandboxJobPortal._app_counter
       Random.random Random.stream Random.pos fst snd].

Ltac effect_done :=
  unfold loop_effect; effect_simpl;
  rewrite !tracked_receipts_app; unfold next_receipt;
  cbn [tracked_receipts omap list_omap ApplicationTracker.receipt_id seq map Nat.add
       N.of_nat Pos.of_succ_nat app];
  rewrite ?app_nil_r;
  split_and!; try done; try lia.

(** One turn of the loop. *)
Lemma process_job_effect student st job st' :
  Engine.process_job validate_job_for_scoring format_2f clock student st job = Ok st' →
  ∃ k a b c, k + a + b + c = 1 ∧ loop_effect st st' k a b c.
Proof.
  unfold Engine.process_job.
  destruct (validate_job_for_scoring _ _ _) as [[ok reason]|e]; [| done].
  cbn [mbind result_bind].
  destruct ok; cbn [negb].
  2: { intros [= <-]. exists 1, 0, 0, 0. split; [done |]. effect_done. }
  destruct (StudentArtifactPack.constraints student) as [c|]; [| done].
  destruct (PrimFloat.ltb _ _).
  { intros [= <-]. exists 1, 0, 0, 0. split; [done |]. effect_done. }
  destruct (generate_application_content student job) as [[content|] skip_reason].
  2: { intros [= <-]. exists 1, 0, 0, 0. split; [done |]. effect_done. }
  unfold Engine.submit_with_retry. effect_simpl.
  rewrite submit_application_cases, decide_True by reflexivity.
  destruct (Qlt_le_dec _ _) as [Hlt1|Hge1]; effect_simpl.
  2: { intros [= <-]. exists 0, 1, 0, 0. split; [done |]. effect_done. }
  rewrite submit_application_cases, decide_True by reflexivity.
  effect_simpl.
  destruct (Qlt_le_dec _ _) as [Hlt2|Hge2]; effect_simpl.
  - intros [= <-]. exists 0, 0, 0, 1. split; [done |]. effect_done.
    intros Hno. by apply Hno in Hlt1.
  - intros [= <-]. exists 0, 0, 1, 0. split; [done |]. effect_done.
    intros Hno. by apply Hno in Hlt1.
Qed.

(** The whole loop. *)
Lemma for_each_effect student jobs st st' :
  for_each (Engine.process_job validate_job_for_scoring format_2f clock student) jobs st
    = Ok st' →
  ∃ k a b c, k + a + b + c = length jobs ∧ loop_effect st st' k a b c.
Proof.
  revert st. induction jobs as [|job rest IH]; intros st.
  - intros [= <-]. exists 0, 0, 0, 0. split; [done | apply loop_effect_refl].
  - cbn [for_each].
    destruct (Engine.process_job _ _ _ student st job) as [st1|e] eqn:Hstep; [| done].
    intros Hrest.
    apply process_job_effect in Hstep as (k & a & b & c & Hone & Hstep).
    apply IH in Hrest as (k' & a' & b' & c' & Hlen & Hrest).
    exists (k + k'), (a + a'), (b + b'), (c + c').
    split; [cbn [length]; lia | by eapply loop_effect_trans].
Qed.

(** The loop of a run starts from fresh counters and a fresh portal. *)
Lemma run_autopilot_loop student_data jobs_data tracker g res :
  Engine.run_autopilot validate_job_for_scoring format_2f clock
    student_data jobs_data tracker g = Ok res →
  RunResult.success res = true →
  ∃ student jobs st',
    validate_student student_data = Ok student
    ∧ Engine.validate_jobs 0 jobs_data [] = inr jobs
    ∧ for_each (Engine.process_job validate_job_for_scoring format_2f clock student) jobs
        {| Engine.tracker := default ApplicationTracker.init tracker;
           Engine.portal := SandboxJobPortal.init; Engine.gen := g;
           Engine.queued := 0; Engine.skipped := 0; Engine.submitted := 0;
           Engine.failed := 0; Engine.retried := 0; Engine.apps_today := 0 |} = Ok st'
    ∧ RunResult.summary res
      = Some {| Summary.queued := Engine.queued st'; Summary.skipped := Engine.skipped st';
                Summary.submitted := Engine.submitted st';
                Summary.retried := Engine.retried st';
                Summary.failed := Engine.failed st' |}
    ∧ RunResult.tracker res = Some (Engine.tracker st').
Proof.
  unfold Engine.run_autopilot.
  destruct (validate_student student_data) as [student|e]; [| by intros [= <-]].
  destruct (Engine.validate_jobs 0 jobs_data []) as [failure|jobs] eqn:Hjobs.
  { intros [= <-] Hs. apply validate_jobs_inl in Hjobs. congruence. }
  destruct (for_each _ jobs _) as [st'|e] eqn:Hloop; [| done].
  cbn [mbind result_bind]. intros [= <-] _.
  by exists student, jobs, st'.
Qed.

(** X2: in every successful run the receipt ids the tracker gained are
    sandbox-000001, sandbox-000002, ... in this order, without a gap, and
    there are as many of them as jobs counted as submitted or retried; a
    failed attempt uses up no receipt number. *)
Theorem run_autopilot_receipts student_data jobs_data tracker g res :
  Engine.run_autopilot validate_job_for_scoring format_2f clock
    student_data jobs_data tracker g = Ok res →
  RunResult.success res = true →
  ∃ s t,
    RunResult.summary res = Some s ∧ RunResult.tracker res = Some t
    ∧ tracked_receipts (ApplicationTracker.events t)
      = tracked_receipts (ApplicationTracker.events (default ApplicationTracker.init tracker))
        ++ map (λ i, "sandbox-" +:+ format_06d (N.of_nat i))
               (seq 1 (Summary.submitted s + Summary.retried s)).
Proof.
  intros Hrun Hok.
  destruct (run_autopilot_loop _ _ _ _ _ Hrun Hok)
    as (student & jobs & st' & _ & _ & Hloop & -> & ->).
  apply for_each_effect in Hloop
    as (k & a & b & c & _ & (_ & _ & Ha & Hb & _ & _ & _ & _ & Hr & _)).
  eexists _, _. split; [reflexivity |]. split; [reflexivity |].
  cbn [Summary.submitted Summary.retried]. rewrite Hr, Ha, Hb.
  cbn [Engine.tracker Engine.portal Engine.submitted Engine.retried
       SandboxJobPortal.init SandboxJobPortal._app_counter]. 
  rewrite !Nat.add_0_l. f_equal.
Qed.

(** X3: when no draw of the random generator falls under the failure rate,
    a successful run retries nothing and fails nothing. *)
Theorem run_autopilot_without_rejections student_data jobs_data tracker g res :
  (∀ n, ¬ (Random.stream g n < SandboxJobPortal.FAILURE_RATE)%Q) →
  Engine.run_autopilot validate_job_for_scoring format_2f clock
    student_data jobs_data tracker g = Ok res →
  RunResult.success res = true →
  ∃ s, RunResult.summary res = Some s
       ∧ Summary.retried s = 0 ∧ Summary.failed s = 0.
Proof.
  intros Hno Hrun Hok.
  destruct (run_autopilot_loop _ _ _ _ _ Hrun Hok)
    as (student & jobs & st' & _ & _ & Hloop & -> & _).
  apply for_each_effect in Hloop
    as (k & a & b & c & _ & (_ & _ & _ & Hb & Hc & _ & _ & _ & _ & Hnf)).
  destruct (Hnf Hno) as [-> ->].
  eexists. split; [reflexivity |].
  cbn [Summary.retried Summary.failed]. rewrite Hb, Hc. done.
Qed.

(** X4: through the loop of a run, [apps_today] counts the jobs that
    reached the portal, whatever came of them (submitted, retried or
    failed), and never a skipped one; the portal's counter counts the
    receipts given out, and the generator has been drawn from once for each
    job submitted at the first attempt and twice for each of the others. *)
Theorem engine_loop_counters student jobs g st' :
  for_each (Engine.process_job validate_job_for_scoring format_2f clock student) jobs
    (initial_state g) = Ok st' →
  Engine.apps_today st' = Engine.submitted st' + Engine.retried st' + Engine.failed st'
  ∧ SandboxJobPortal._app_counter (Engine.portal st')
    = N.of_nat (Engine.submitted st' + Engine.retried st')
  ∧ Random.pos (Engine.gen st')
    = Random.pos g + Engine.submitted st' + 2 * Engine.retried st' + 2 * Engine.failed st'
  ∧ Random.stream (Engine.gen st') = Random.stream g.
Proof.
  intros Hloop.
  apply for_each_effect in Hloop
    as (k & a & b & c & _ & (Hs & _ & Ha & Hb & Hc & Hap & Hp & Hn & _ & _)).
  cbn [initial_state Engine.tracker Engine.portal Engine.submitted Engine.retried
       Engine.failed Engine.apps_today Engine.gen
       SandboxJobPortal.init SandboxJobPortal._app_counter] in *.
  rewrite Ha, Hb, Hc, Hap, Hp, Hn. split_and!; try done; lia.
Qed.

(** A job for which the test [score < min_score] holds is skipped, by
    the gate or by the score test. *)
Lemma process_job_low_score student st job st' c :
  StudentArtifactPack.constraints student = Some c →
  PrimFloat.ltb (score (score_job_match student job)) (Constraints.min_match_score c)
    = true →
  Engine.process_job validate_job_for_scoring format_2f clock student st job = Ok st' →
  loop_effect st st' 1 0 0 0.
Proof.
  intros Hc Hlow. unfold Engine.process_job.
  destruct (validate_job_for_scoring _ _ _) as [[ok reason]|e]; [| done].
  cbn [mbind result_bind].
  destruct ok; cbn [negb].
  2: { intros [= <-]. effect_done. }
  rewrite Hc, Hlow. intros [= <-]. effect_done.
Qed.

Lemma for_each_low_score student jobs st st' c :
  StudentArtifactPack.constraints student = Some c →
  Forall (λ job, PrimFloat.ltb (score (score_job_match student job))
                   (Constraints.min_match_score c) = true) jobs →
  for_each (Engine.process_job validate_job_for_scoring format_2f clock student) jobs st
    = Ok st' →
  loop_effect st st' (length jobs) 0 0 0.
Proof.
  intros Hc Hall. revert st. induction Hall as [|job rest Hjob _ IH]; intros st.
  - intros [= <-]. apply loop_effect_refl.
  - cbn [for_each].
    destruct (Engine.process_job _ _ _ student st job) as [st1|e] eqn:Hstep; [| done].
    intros Hrest. apply (process_job_low_score _ _ _ _ _ Hc Hjob) in Hstep.
    apply IH in Hrest. apply (loop_effect_trans _ _ _ _ _ _ _ _ _ _ _ Hstep Hrest).
Qed.

(** X5: the score test is the comparison of two binary64 values: in a
    successful run over jobs whose score is below the student's minimum
    match score in that comparison, every job is skipped, nothing is
    submitted, and the tracker gains no receipt. *)
Theorem run_autopilot_low_scores student_data student jobs_data tracker g res c :
  validate_student student_data = Ok student →
  RawPack.constraints student_data = Some c →
  Forall (λ j, ∀ job, validate_job j = Ok job →
               PrimFloat.ltb (score (score_job_match student job))
                 (Constraints.min_match_score c) = true) jobs_data →
  Engine.run_autopilot validate_job_for_scoring format_2f clock
    student_data jobs_data tracker g = Ok res →
  RunResult.success res = true →
  ∃ s t,
    RunResult.summary res = Some s ∧ RunResult.tracker res = Some t
    ∧ Summary.skipped s = length jobs_data
    ∧ Summary.submitted s = 0 ∧ Summary.retried s = 0 ∧ Summary.failed s = 0
    ∧ tracked_receipts (ApplicationTracker.events t)
      = tracked_receipts (ApplicationTracker.events (default ApplicationTracker.init tracker)).
Proof.
  intros Hstudent0 Hc Hlow Hrun Hok.
  destruct (run_autopilot_loop _ _ _ _ _ Hrun Hok)
    as (student' & jobs & st' & Hstudent & Hjobs & Hloop & -> & ->).
  assert (student' = student) as -> by congruence.
  apply validate_jobs_valid in Hjobs as (jobs' & -> & Hvalid). rewrite app_nil_l in Hloop.
  assert (Hc' : StudentArtifactPack.constraints student = Some c).
  { by rewrite (validate_student_constraints _ _ Hstudent). }
  assert (Hall : Forall (λ job, PrimFloat.ltb (score (score_job_match student job))
                                  (Constraints.min_match_score c) = true) jobs').
  { clear -Hvalid Hlow. induction Hvalid as [|j job js jobs' Hj _ IH]; [constructor |].
    inversion Hlow as [|? ? Hj0 Hrest]; subst. constructor; [by apply Hj0 | by apply IH]. }
  apply (for_each_low_score _ _ _ _ _ Hc' Hall) in Hloop
    as (_ & Hk & Ha & Hb & Hcc & _ & _ & _ & Hr & _).
  eexists _, _. split; [reflexivity |]. split; [reflexivity |].
  cbn [Summary.skipped Summary.submitted Summary.retried Summary.failed].
  rewrite Hk, Ha, Hb, Hcc, Hr. cbn [Engine.skipped Engine.submitted Engine.retried
    Engine.failed Engine.tracker seq map Nat.add]. rewrite app_nil_r.
  split_and!; try done.
  symmetry. by eapply Forall2_length.
Qed.

(** Jobs that the gate refuses leave [apps_today] alone. *)
Lemma for_each_refused student pre st :
  Forall (λ job, ∃ r, validate_job_for_scoring student job (Engine.apps_today st)
                      = Ok (false, r)) pre →
  ∃ st', for_each (Engine.process_job validate_job_for_scoring format_2f clock student) pre st
         = Ok st'
         ∧ Engine.apps_today st' = Engine.apps_today st.
Proof.
  revert st. induction pre as [|job pre IH]; intros st Hall.
  - by exists st.
  - inversion Hall as [|? ? [r Hjob] Hrest]; subst. cbn [for_each].
    unfold Engine.process_job at 1. effect_simpl.
    rewrite Nat.add_0_r, Hjob. cbn [mbind result_bind negb].
    match goal with |- context [for_each _ pre ?s] => destruct (IH s) as (st' & Hst' & Happs) end.
    { effect_simpl. by rewrite !Nat.add_0_r. }
    exists st'. split; [done |]. rewrite Happs. effect_simpl. lia.
Qed.

(** X6: a pack without constraints passes the schema, and the run then
    raises AttributeError at the first job the gate lets through instead
    of returning a result. *)
Theorem run_autopilot_without_constraints student_data student jobs_data pre job rest
    tracker g :
  validate_student student_data = Ok student →
  RawPack.constraints student_data = None →
  Engine.validate_jobs 0 jobs_data [] = inr (pre ++ job :: rest) →
  Forall (λ job', ∃ r, validate_job_for_scoring student job' 0 = Ok (false, r)) pre →
  (∃ r, validate_job_for_scoring student job 0 = Ok (true, r)) →
  Engine.run_autopilot validate_job_for_scoring format_2f clock
    student_data jobs_data tracker g
  = Raise (AttributeError "'NoneType' object has no attribute 'min_match_score'").
Proof.
  intros Hstudent Hnone Hjobs Hpre [r Hjob].
  unfold Engine.run_autopilot. rewrite Hstudent, Hjobs, for_each_app.
  match goal with |- context [for_each _ pre ?s] =>
    destruct (for_each_refused student pre s Hpre) as (st' & -> & Happs) end.
  cbn [for_each]. unfold Engine.process_job at 1. effect_simpl.
  cbn [Engine.apps_today] in Happs.
  rewrite Nat.add_0_r, Happs, Hjob. cbn [mbind result_bind negb].
  by rewrite (validate_student_constraints _ _ Hstudent), Hnone.
Qed.

Lemma validate_jobs_first_invalid idx pre j rest acc e :
  Forall (λ j', is_ok (validate_job j') = true) pre →
  validate_job j = Raise e →
  Engine.validate_jobs idx (pre ++ j :: rest) acc
  = inl {| RunResult.success := false;
           RunResult.error :=
             Some ("Job entry #" +:+ str_nat (idx + length pre + 1)
                     +:+ " schema validation failed: " +:+ str_exn e);
           RunResult.summary := None;
           RunResult.tracker := None |}.
Proof.
  intros Hpre Hj. revert idx acc. induction Hpre as [|j' pre Hj' _ IH]; intros idx acc.
  - cbn [app Engine.validate_jobs length]. by rewrite Hj, Nat.add_0_r.
  - cbn [app Engine.validate_jobs length].
    destruct (validate_job j') as [job'|]; [| done].
    rewrite IH. by replace (S idx + length pre + 1) with (idx + S (length pre) + 1) by lia.
Qed.

(** X7: when the student data is valid and some job entry is not, the run
    returns a failure that names the first invalid entry by its position,
    counted from 1, with the text of that entry's error; no summary and no
    tracker are returned, whatever the entries after it are. *)
Theorem run_autopilot_first_invalid_job student_data student pre j rest e tracker g :
  validate_student student_data = Ok student →
  Forall (λ j', is_ok (validate_job j') = true) pre →
  validate_job j = Raise e →
  Engine.run_autopilot validate_job_for_scoring format_2f clock
    student_data (pre ++ j :: rest) tracker g
  = Ok {| RunResult.success := false;
          RunResult.error :=
            Some ("Job entry #" +:+ str_nat (length pre + 1)
                    +:+ " schema validation failed: " +:+ str_exn e);
          RunResult.summary := None;
          RunResult.tracker := None |}.
Proof.
  intros Hstudent Hpre Hj. unfold Engine.run_autopilot.
  by rewrite Hstudent, (validate_jobs_first_invalid 0 pre j rest [] e Hpre Hj).
Qed.
End EngineEffects.

Lemma run_autopilot_receipts_witness :
  ∃ res t,
    Engine.run_autopilot allow_all no_format seconds four_bullet_pack
      [example_raw_job; example_raw_job] None zero_then_half = Ok res
    ∧ RunResult.tracker res = Some t
    ∧ tracked_receipts (ApplicationTracker.events t) = ["sandbox-000001"; "sandbox-000002"].
Proof.
  assert (Hr : ∃ res,
    Engine.run_autopilot allow_all no_format seconds four_bullet_pack
      [example_raw_job; example_raw_job] None zero_then_half = Ok res
    ∧ RunResult.success res = true
    ∧ RunResult.summary res
      = Some {| Summary.queued := 2; Summary.skipped := 0; Summary.submitted := 1;
                Summary.retried := 1; Summary.failed := 0 |}).
  { vm_compute. eexists. split_and!; reflexivity. }
  destruct Hr as (res & Hrun & Hok & Hsum).
  destruct (run_autopilot_receipts allow_all no_format seconds four_bullet_pack
              [example_raw_job; example_raw_job] None zero_then_half res Hrun Hok)
    as (s & t & Hs & Ht & Hrec).
  exists res, t. split; [exact Hrun |]. split; [exact Ht |].
  rewrite Hrec. rewrite Hsum in Hs. injection Hs as <-. reflexivity.
Defined.

Lemma run_autopilot_without_rejections_witness :
  ∃ res s,
    Engine.run_autopilot allow_all no_format seconds four_bullet_pack
      [example_raw_job; example_raw_job] None always_half = Ok res
    ∧ RunResult.summary res = Some s
    ∧ Summary.retried s = 0 ∧ Summary.failed s = 0.
Proof.
  assert (Hr : ∃ res,
    Engine.run_autopilot allow_all no_format seconds four_bullet_pack
      [example_raw_job; example_raw_job] None always_half = Ok res
    ∧ RunResult.success res = true).
  { vm_compute. eexists. split; reflexivity. }
  destruct Hr as (res & Hrun & Hok).
  destruct (run_autopilot_without_rejections allow_all no_format seconds four_bullet_pack
              [example_raw_job; example_raw_job] None always_half res)
    as (s & Hs & Hre & Hfa); [by vm_compute | exact Hrun | exact Hok |].
  exists res, s. split; [exact Hrun |]. split; [exact Hs |]. split; [exact Hre | exact Hfa].
Defined.

Lemma engine_loop_counters_witness :
  ∃ st',
    for_each (Engine.process_job allow_all no_format seconds four_bullet_student)
      [example_job; example_job] (initial_state zero_then_half) = Ok st'
    ∧ Engine.apps_today st' = Engine.submitted st' + Engine.retried st' + Engine.failed st'
    ∧ SandboxJobPortal._app_counter (Engine.portal st')
      = N.of_nat (Engine.submitted st' + Engine.retried st').
Proof.
  assert (Hr : ∃ st',
    for_each (Engine.process_job allow_all no_format seconds four_bullet_student)
      [example_job; example_job] (initial_state zero_then_half) = Ok st').
  { vm_compute. eexists. reflexivity. }
  destruct Hr as (st' & Hloop).
  destruct (engine_loop_counters allow_all no_format seconds four_bullet_student
              [example_job; example_job] zero_then_half st' Hloop) as (Ha & Hn & _).
  exists st'. split; [exact Hloop |]. split; [exact Ha | exact Hn].
Defined.

(** Four of five required skills give 0.5 x 0.8 + 0.3 + 0.2, which is
    0.8999999999999999 in binary64: under a minimum of 0.9 the job is
    skipped. *)
Lemma run_autopilot_low_scores_witness :
  ∃ res s,
    Engine.run_autopilot allow_all no_format seconds four_of_five_pack [five_skill_job]
      None always_half = Ok res
    ∧ RunResult.summary res = Some s
    ∧ Summary.skipped s = 1 ∧ Summary.submitted s = 0.
Proof.
  assert (Hr : ∃ res student,
    Engine.run_autopilot allow_all no_format seconds four_of_five_pack [five_skill_job]
      None always_half = Ok res
    ∧ RunResult.success res = true
    ∧ validate_student four_of_five_pack = Ok student).
  { vm_compute. eexists _, _. split_and!; reflexivity. }
  destruct Hr as (res & student & Hrun & Hok & Hstudent).
  destruct (run_autopilot_low_scores allow_all no_format seconds four_of_five_pack student
              [five_skill_job] None always_half res
              {| Constraints.max_apps_per_day := 5;
                 Constraints.min_match_score := 0.9%float;
                 Constraints.blocked_companies := [] |})
    as (s & t & Hs & _ & Hsk & Hsu & _).
  - exact Hstudent.
  - reflexivity.
  - repeat constructor. intros job Hjob.
    vm_compute in Hstudent. injection Hstudent as <-.
    vm_compute in Hjob. injection Hjob as <-. by vm_compute.
  - exact Hrun.
  - exact Hok.
  - exists res, s. split; [exact Hrun |]. split; [exact Hs |]. split; [exact Hsk | exact Hsu].
Defined.

Lemma run_autopilot_without_constraints_witness :
  Engine.run_autopilot allow_all no_format seconds
    (four_bullet_pack_with None) [example_raw_job] None always_half
  = Raise (AttributeError "'NoneType' object has no attribute 'min_match_score'").
Proof.
  apply (run_autopilot_without_constraints allow_all no_format seconds
           (four_bullet_pack_with None)
           {| StudentArtifactPack.source_resume_hash := "abc123";
              StudentArtifactPack.skill_vocab := ["python"];
              StudentArtifactPack.education := [];
              StudentArtifactPack.projects := StudentArtifactPack.projects four_bullet_student;
              StudentArtifactPack.constraints := None |}
           [example_raw_job] [] example_job []).
  - by vm_compute.
  - reflexivity.
  - by vm_compute.
  - constructor.
  - by exists None.
Defined.

Lemma run_autopilot_first_invalid_job_witness :
  ∃ res,
    Engine.run_autopilot allow_all no_format seconds four_bullet_pack
      [example_raw_job; raw_job_asking (-1); example_raw_job] None always_half = Ok res
    ∧ RunResult.error res
      = Some "Job entry #2 schema validation failed: min_experience_years must be >= 0".
Proof.
  eexists. split.
  - apply (run_autopilot_first_invalid_job allow_all no_format seconds four_bullet_pack
             four_bullet_student [example_raw_job] (raw_job_asking (-1)) [example_raw_job]
             (ValidationError "min_experience_years must be >= 0")).
    + by vm_compute.
    + repeat constructor.
    + reflexivity.
  - reflexivity.
Defined.

(** ** The execution schema: what a validated pack guarantees *)

Lemma for_each_unit_ok {A} (f : A → result unit) (l : list A) u :
  for_each (λ _ x, f x) l () = Ok u → Forall (λ x, f x = Ok ()) l.
Proof.
  induction l as [|x l IH]; [constructor |]. cbn [for_each].
  destruct (f x) as [[]|] eqn:Hx; [| done]. intros Hl. constructor; [done | by apply IH].
Qed.

Lemma validate_list_ok {A B} (f : A → result B) (l : list A) (l' : list B) :
  validate_list f l = Ok l' → Forall2 (λ x y, f x = Ok y) l l'.
Proof.
  revert l'. induction l as [|x l IH]; intros l'.
  - intros [= <-]. constructor.
  - cbn [validate_list]. destruct (f x) as [y|] eqn:Hx; [| done]. cbn [mbind result_bind].
    destruct (validate_list f l) as [ys|]; [| done]. cbn [mbind result_bind].
    intros [= <-]. constructor; [done | by apply IH].
Qed.

Lemma size_list_to_set_le (l : list string) :
  (size (list_to_set l : gset string) ≤ length l)%nat.
Proof.
  induction l as [|x l IH]; [done |]. cbn [list_to_set length].
  rewrite size_union_alt, size_singleton.
  pose proof (subseteq_size (list_to_set l ∖ {[x]}) (list_to_set l : gset string)) as Hd.
  specialize (Hd (subseteq_difference_l _ _ _ (reflexivity _))). lia.
Qed.

(** [len(v) == len(set(v))] holds only of a list without repetition. *)
Lemma length_size_NoDup (l : list string) :
  length l = size (list_to_set l : gset string) → NoDup l.
Proof.
  induction l as [|x l IH]; [constructor |]. cbn [list_to_set length]. intros Hlen.
  pose proof (size_list_to_set_le l) as Hle.
  destruct (decide (x ∈ l)) as [Hin|Hnin].
  - exfalso.
    assert (({[x]} ∪ list_to_set l : gset string) = list_to_set l) as Heq.
    { apply leibniz_equiv. apply subseteq_union_1. apply singleton_subseteq_l.
      by apply elem_of_list_to_set. }
    rewrite Heq in Hlen. lia.
  - constructor; [done |]. apply IH.
    rewrite size_union in Hlen.
    + rewrite size_singleton in Hlen. lia.
    + apply disjoint_singleton_l. by rewrite elem_of_list_to_set.
Qed.

Lemma validate_bullet_ok raw bullet :
  validate_bullet raw = Ok bullet →
  RawBullet.verified raw = Some (PyBool true) ∧ Bullet.verified bullet = true
  ∧ Bullet.skills bullet = RawBullet.skills raw
  ∧ RawBullet.description raw = Some (Bullet.description bullet).
Proof.
  unfold validate_bullet.
  destruct (RawBullet.description raw) as [d|],
    (RawBullet.verified raw) as [[| [] | | | | |]|]; try done.
  cbn [negb]. by intros [= <-].
Qed.

Lemma skills_in_vocab_ok (vocab : gset string) (err : string → exn) (skills : list string) u :
  for_each (λ _ s, if decide (s ∉ vocab) then Raise (err s) else Ok ()) skills () = Ok u →
  ∀ s, s ∈ skills → s ∈ vocab.
Proof.
  intros Hok%for_each_unit_ok s Hs. rewrite Forall_forall in Hok.
  specialize (Hok s Hs). cbn beta in Hok.
  destruct (decide (s ∉ vocab)) as [|Hin]; [done |]. by apply dec_stable.
Qed.

Lemma validate_all_skills_and_bullets_skills self student :
  validate_all_skills_and_bullets self = Ok student →
  ∀ project, project ∈ StudentArtifactPack.projects self →
    (∀ s, s ∈ Project.skills project → s ∈ StudentArtifactPack.skill_vocab self)
    ∧ ∀ bullet s, bullet ∈ Project.bullets project → s ∈ Bullet.skills bullet →
                  s ∈ StudentArtifactPack.skill_vocab self.
Proof.
  unfold validate_all_skills_and_bullets.
  destruct (for_each _ _ _) as [u|] eqn:Hloop; [| done]. intros _ project Hp.
  apply for_each_unit_ok in Hloop. rewrite Forall_forall in Hloop.
  specialize (Hloop project Hp). cbn beta in Hloop.
  destruct (for_each _ (Project.skills project) ()) as [u1|] eqn:Hps; [| done].
  cbn [mbind result_bind] in Hloop. split.
  - intros s Hs. apply (elem_of_list_to_set (C:=gset string)).
    exact (skills_in_vocab_ok _ _ _ _ Hps s Hs).
  - intros bullet s Hb Hs. apply for_each_unit_ok in Hloop. rewrite Forall_forall in Hloop.
    specialize (Hloop bullet Hb). cbn beta in Hloop.
    apply (elem_of_list_to_set (C:=gset string)).
    exact (skills_in_vocab_ok _ _ _ _ Hloop s Hs).
Qed.

(** What [validate_student] has checked of a pack it accepts. *)
Lemma validate_student_ok student_data student :
  validate_student student_data = Ok student →
  RawPack.skill_vocab student_data = Some (StudentArtifactPack.skill_vocab student)
  ∧ RawPack.source_resume_hash student_data
    = Some (StudentArtifactPack.source_resume_hash student)
  ∧ NoDup (StudentArtifactPack.skill_vocab student)
  ∧ (∃ ps, RawPack.projects student_data = Some ps
           ∧ Forall2 (λ p project, validate_project p = Ok project) ps
               (StudentArtifactPack.projects student))
  ∧ ∀ project, project ∈ StudentArtifactPack.projects student →
      (∀ s, s ∈ Project.skills project → s ∈ StudentArtifactPack.skill_vocab student)
      ∧ ∀ bullet s, bullet ∈ Project.bullets project → s ∈ Bullet.skills bullet →
                    s ∈ StudentArtifactPack.skill_vocab student.
Proof.
  unfold validate_student.
  destruct (RawPack.source_resume_hash student_data) as [h|],
    (RawPack.skill_vocab student_data) as [vocab|],
    (RawPack.education student_data) as [edu|],
    (RawPack.projects student_data) as [ps|]; try done.
  unfold check_skill_vocab_unique. destruct (decide (length vocab ≠ _)) as [|Hlen]; [done |].
  cbn [mbind result_bind].
  destruct (validate_list validate_project ps) as [ps'|] eqn:Hps; [| done].
  cbn [mbind result_bind]. intros Hall.
  pose proof (validate_all_skills_and_bullets_ok _ _ Hall) as ->.
  cbn [StudentArtifactPack.skill_vocab StudentArtifactPack.source_resume_hash
       StudentArtifactPack.projects].
  split_and!; try done.
  - apply length_size_NoDup. by apply dec_stable.
  - exists ps. split; [done |]. by apply validate_list_ok.
  - apply (validate_all_skills_and_bullets_skills _ _ Hall).
Qed.

Lemma validate_project_ok p project :
  validate_project p = Ok project →
  ∃ bs, RawProject.bullets p = Some bs
        ∧ Forall2 (λ raw bullet, validate_bullet raw = Ok bullet) bs (Project.bullets project).
Proof.
  unfold validate_project. destruct (RawProject.bullets p) as [bs|]; [| done].
  destruct (validate_list validate_bullet bs) as [bs'|] eqn:Hbs; [| done].
  cbn [mbind result_bind]. intros [= <-]. exists bs. split; [done |].
  by apply validate_list_ok.
Qed.

(** Every bullet of a validated pack is verified and lists only skills of
    the vocabulary. *)
Lemma validate_student_bullets student_data student :
  validate_student student_data = Ok student →
  ∀ project bullet, project ∈ StudentArtifactPack.projects student →
    bullet ∈ Project.bullets project →
    Bullet.verified bullet = true
    ∧ ∀ s, s ∈ Bullet.skills bullet → s ∈ StudentArtifactPack.skill_vocab student.
Proof.
  intros (_ & _ & Hnd & (ps & Hps & Hvalid) & Hskills)%validate_student_ok project bullet Hp Hb.
  destruct (Hskills project Hp) as [Hpsk Hbsk].
  split; [| intros s; by apply Hbsk].
  apply list_elem_of_lookup in Hp as [i Hi].
  destruct (Forall2_lookup_r _ _ _ _ _ Hvalid Hi) as (p & _ & Hproj).
  apply validate_project_ok in Hproj as (bs & _ & Hbs).
  apply list_elem_of_lookup in Hb as [j Hj].
  destruct (Forall2_lookup_r _ _ _ _ _ Hbs Hj) as (raw & _ & Hraw).
  by apply validate_bullet_ok in Hraw as (_ & ? & _).
Qed.

(** X8: a pack that [StudentArtifactPack] accepts has a skill vocabulary
    without repetition, every project skill and every bullet skill is in
    the vocabulary, every bullet of the validated pack is verified, and
    every bullet dictionary of the input carried verified: true. *)
Theorem validate_student_guarantees student_data student :
  validate_student student_data = Ok student →
  NoDup (StudentArtifactPack.skill_vocab student)
  ∧ (∀ project, project ∈ StudentArtifactPack.projects student →
       (∀ s, s ∈ Project.skills project → s ∈ StudentArtifactPack.skill_vocab student)
       ∧ ∀ bullet, bullet ∈ Project.bullets project →
           Bullet.verified bullet = true
           ∧ ∀ s, s ∈ Bullet.skills bullet → s ∈ StudentArtifactPack.skill_vocab student)
  ∧ (∀ raw, raw ∈ RawPack.all_bullets student_data →
            RawBullet.verified raw = Some (PyBool true)).
Proof.
  intros Hok. pose proof (validate_student_bullets _ _ Hok) as Hbullets.
  apply validate_student_ok in Hok as (_ & _ & Hnd & (ps & Hps & Hvalid) & Hskills).
  split; [done |]. split.
  - intros project Hp. destruct (Hskills project Hp) as [Hpsk _]. split; [done |].
    intros bullet Hb. by apply (Hbullets project).
  - intros raw. unfold RawPack.all_bullets. rewrite Hps. cbn [default].
    rewrite list_elem_of_In, in_concat. intros (bs & Hbs & Hraw).
    apply in_map_iff in Hbs as (p & <- & Hp). apply list_elem_of_In in Hp, Hraw.
    apply list_elem_of_lookup in Hp as [i Hi].
    destruct (Forall2_lookup_l _ _ _ _ _ Hvalid Hi) as (project & _ & Hproj).
    apply validate_project_ok in Hproj as (bs & Hbs & Hall). rewrite Hbs in Hraw.
    cbn [default] in Hraw. apply list_elem_of_lookup in Hraw as [j Hj].
    destruct (Forall2_lookup_l _ _ _ _ _ Hall Hj) as (bullet & _ & Hb).
    by apply validate_bullet_ok in Hb as (? & _).
Qed.

Lemma validate_student_guarantees_witness :
  NoDup (StudentArtifactPack.skill_vocab four_bullet_student)
  ∧ ∀ raw, raw ∈ RawPack.all_bullets four_bullet_pack →
           RawBullet.verified raw = Some (PyBool true).
Proof.
  destruct (validate_student_guarantees four_bullet_pack four_bullet_student) as (Hnd & _ & Hraw).
  - by vm_compute.
  - split; [exact Hnd | exact Hraw].
Defined.

(** X9: for a pack the schema accepted, the content the generator returns
    holds between one and three bullets; each of them is a verified bullet
    of the pack, shares a skill with the job, and lists only skills of the
    vocabulary. *)
Theorem generated_bullets_are_verified student_data student job content reason :
  validate_student student_data = Ok student →
  generate_application_content student job = (Some content, reason) →
  let selected := ApplicationContent.selected_bullets content in
  (1 ≤ length selected ≤ 3)%nat
  ∧ reason = None
  ∧ ∀ bullet, bullet ∈ selected →
      bullet ∈ all_bullets student
      ∧ Bullet.verified bullet = true
      ∧ shares_skill job bullet
      ∧ ∀ s, s ∈ Bullet.skills bullet → s ∈ StudentArtifactPack.skill_vocab student.
Proof.
  intros Hvalid Hgen selected.
  pose proof (validate_student_bullets _ _ Hvalid) as Hb.
  unfold generate_application_content in Hgen.
  rewrite relevant_verified_bullets_filter in Hgen.
  destruct (filter (shares_skill job) (all_bullets student)) as [|b0 relevant] eqn:Hrel;
    [done |].
  injection Hgen as <- <-. subst selected. cbn [ApplicationContent.selected_bullets].
  split; [| split; [done |]].
  - cbn [length]. rewrite length_take. lia.
  - intros bullet Hin.
    assert (bullet ∈ b0 :: relevant) as Hin'.
    { apply elem_of_cons in Hin as [->|Hin]; [left |].
      apply elem_of_take in Hin as (i & Hi & _). right.
      by eapply list_elem_of_lookup_2. }
    clear Hin. rename Hin' into Hin. rewrite <- Hrel in Hin.
    apply list_elem_of_filter in Hin as [Hshare Hall]. 
    destruct (proj1 (elem_of_all_bullets _ _) Hall) as (project & Hp & Hbp).
    destruct (Hb project bullet Hp Hbp) as [Hv Hs]. done.
Qed.

Lemma generated_bullets_are_verified_witness :
  (1 ≤ length (ApplicationContent.selected_bullets four_bullet_content) ≤ 3)%nat
  ∧ ∀ bullet, bullet ∈ ApplicationContent.selected_bullets four_bullet_content →
              Bullet.verified bullet = true.
Proof.
  destruct (generated_bullets_are_verified four_bullet_pack four_bullet_student example_job
              four_bullet_content None) as (Hlen & _ & Hall).
  - by vm_compute.
  - by vm_compute.
  - split; [exact Hlen |]. intros bullet Hin. exact (proj1 (proj2 (Hall bullet Hin))).
Defined.

(** ** The approval service: what an approval stores *)

Lemma all_bullets_resolve (h : gmap nat RawBullet.t) (v : RawPack.t nat) :
  RawPack.all_bullets (resolve h v) = map (λ l, h !!! l) (RawPack.all_bullets v).
Proof.
  unfold RawPack.all_bullets, resolve. cbn [RawPack.projects].
  destruct (RawPack.projects v) as [ps|]; [| done].
  cbn [fmap option_fmap option_map default]. unfold id.
  induction ps as [|p ps IH]; [done |].
  rewrite !map_cons, !concat_cons, map_app, IH.
  f_equal. unfold resolve_project. cbn [RawProject.bullets].
  by destruct (RawProject.bullets p).
Qed.

(** The row [latest_snapshot] keeps is one of the rows, and none is later. *)
Lemma latest_snapshot_loop (rows : list SnapshotRow.t) (best : option SnapshotRow.t) :
  match foldl (λ best r,
           match best with
           | None => Some r
           | Some b =>
               if (SnapshotRow.approved_at b <? SnapshotRow.approved_at r)%Z
               then Some r else Some b
           end) best rows with
  | None => best = None ∧ rows = []
  | Some b =>
      (Some b = best ∨ b ∈ rows)
      ∧ (∀ r, r ∈ rows → (SnapshotRow.approved_at r ≤ SnapshotRow.approved_at b)%Z)
      ∧ (∀ b0, best = Some b0 → (SnapshotRow.approved_at b0 ≤ SnapshotRow.approved_at b)%Z)
  end.
Proof.
  revert best. induction rows as [|r rows IH]; intros best.
  - cbn [foldl]. destruct best as [b|]; [| done].
    split; [by left |]. split; [by intros r Hr%elem_of_nil |]. intros b0 [= <-]. lia.
  - cbn [foldl].
    match goal with |- context [foldl _ ?b rows] => specialize (IH b); set (best' := b) in * end.
    destruct (foldl _ best' rows) as [b|].
    + destruct IH as (Hin & Hmax & Hbest). split_and!.
      * destruct Hin as [Hin|Hin]; [| right; by right].
        subst best'. destruct best as [b0|]; [| injection Hin as ->; right; by left].
        destruct (_ <? _)%Z; [injection Hin as ->; right; by left | by left].
      * intros r' [->|Hr']%elem_of_cons; [| by apply Hmax].
        subst best'. destruct best as [b0|]; [| by apply Hbest].
        destruct (SnapshotRow.approved_at b0 <? SnapshotRow.approved_at r)%Z eqn:Hlt.
        -- by apply Hbest.
        -- apply Z.ltb_ge in Hlt. etransitivity; [exact Hlt |]. by apply Hbest.
      * intros b0 ->. subst best'.
        destruct (SnapshotRow.approved_at b0 <? SnapshotRow.approved_at r)%Z eqn:Hlt.
        -- apply Z.ltb_lt in Hlt. specialize (Hbest r eq_refl). lia.
        -- by apply Hbest.
    + destruct IH as [Hnone _]. subst best'. destruct best as [b0|]; [| done].
      by destruct (_ <? _)%Z.
Qed.

Lemma latest_snapshot_spec (rows : list SnapshotRow.t) :
  match PersistentDatabase.latest_snapshot rows with
  | None => rows = []
  | Some b =>
      b ∈ rows ∧ ∀ r, r ∈ rows → (SnapshotRow.approved_at r ≤ SnapshotRow.approved_at b)%Z
  end.
Proof.
  unfold PersistentDatabase.latest_snapshot.
  pose proof (latest_snapshot_loop rows None) as H.
  destruct (foldl _ None rows) as [b|].
  - destruct H as ([[=]|Hin] & Hmax & _). by split.
  - by destruct H.
Qed.

(** A row later than all the others is the one kept. *)
Lemma latest_snapshot_snoc (rows : list SnapshotRow.t) (row : SnapshotRow.t) :
  (∀ r, r ∈ rows → (SnapshotRow.approved_at r < SnapshotRow.approved_at row)%Z) →
  PersistentDatabase.latest_snapshot (rows ++ [row]) = Some row.
Proof.
  intros Hlater. unfold PersistentDatabase.latest_snapshot. rewrite foldl_app. cbn [foldl].
  pose proof (latest_snapshot_spec rows) as H. unfold PersistentDatabase.latest_snapshot in H.
  destruct (foldl _ None rows) as [b|]; [| done].
  destruct H as [Hin _]. apply Hlater in Hin. apply Z.ltb_lt in Hin. by rewrite Hin.
Qed.

(** A loop over [enumerate(l)] keeps what each of its steps keeps. *)
Lemma foldl_enumerate_invariant {A St} (P : St → Prop) (Q : A → Prop)
    (f : St → nat → A → St) (k : nat → nat) (l : list A) (s : St) :
  (∀ s j x, Q x → P s → P (f s j x)) →
  Forall Q l → P s →
  P (foldl (λ s '(j, x), f s j x) s (imap (λ j x, (k j, x)) l)).
Proof.
  intros Hstep Hall. revert k s. induction Hall as [|x l Hx _ IH]; intros k s Hs; [done |].
  cbn [imap foldl]. apply (IH (k ∘ S)). by apply Hstep.
Qed.

(** The lookup is built exactly when every entry has the two keys and an
    id that can be hashed; it then holds only values the entries carry
    under [verified]. *)
Lemma verification_lookup_loop (bullets_verified : list BulletVerification.t)
    (acc : gmap string pyval) :
  match for_each (λ m bv,
            bullet_id ← subscript "bullet_id" (BulletVerification.bullet_id bv);
            verified ← subscript "verified" (BulletVerification.verified bv);
            bullet_id ← hash_check bullet_id;
            Ok (match bullet_id with
                | PyStr s => <[s := verified]> m
                | _ => m
                end)) bullets_verified acc with
  | Ok m => Forall has_verification bullets_verified
            ∧ ∀ s v, m !! s = Some v →
                acc !! s = Some v
                ∨ ∃ bv, bv ∈ bullets_verified ∧ BulletVerification.verified bv = Some v
  | Raise _ => ¬ Forall has_verification bullets_verified
  end.
Proof.
  revert acc. induction bullets_verified as [|bv rest IH]; intros acc.
  - cbn [for_each]. split; [constructor | auto].
  - cbn [for_each].
    destruct (BulletVerification.bullet_id bv) as [k|] eqn:Hid; cbn [subscript mbind result_bind].
    2: { intros Hall. apply Forall_cons in Hall as [[(k & Hk & _) _] _]. congruence. }
    destruct (BulletVerification.verified bv) as [v0|] eqn:Hv; cbn [subscript mbind result_bind].
    2: { intros Hall. apply Forall_cons in Hall as [[_ [v Hsome]] _]. congruence. }
    destruct (hash_check k) as [k'|e] eqn:Hhash; cbn [mbind result_bind].
    2: { intros Hall. apply Forall_cons in Hall as [[(k' & Hk & Hh) _] _]. congruence. }
    assert (k' = k) as ->.
    { destruct k; cbn [hash_check] in Hhash; congruence. }
    match goal with |- context [for_each _ rest ?m] => specialize (IH m); set (m1 := m) in * end.
    destruct (for_each _ rest m1) as [m|e].
    + destruct IH as [Hall Hvals]. split.
      * constructor; [| done]. split; [by exists k | by rewrite Hv].
      * intros s v Hm. destruct (Hvals s v Hm) as [Hm1 | (bv' & Hin & Hbv')].
        -- subst m1. destruct k as [| | | |t| |]; auto.
           destruct (decide (t = s)) as [->|Hne].
           ++ rewrite lookup_insert_eq in Hm1. injection Hm1 as <-.
              right. exists bv. split; [left | done].
           ++ rewrite lookup_insert_ne in Hm1 by done. by left.
        -- right. exists bv'. split; [by right | done].
    + intros Hall. apply Forall_cons in Hall as [_ Hall]. by apply IH.
Qed.

(** What holds of the heap before [_apply_user_verifications] and is kept
    by every assignment to the verified flag of a bullet of the pack, of
    [False] or of a value the confirmation carries, holds after it. *)
Lemma apply_user_verifications_invariant (P : gmap nat RawBullet.t → Prop)
    (pack pack' : RawPack.t nat) (confirmation : UserConfirmation.t)
    (h h' : gmap nat RawBullet.t) :
  (∀ h bullet v, bullet ∈ RawPack.all_bullets pack →
     (v = PyBool false
      ∨ ∃ bv, bv ∈ UserConfirmation.bullets_verified confirmation
              ∧ BulletVerification.verified bv = Some v) →
     P h → P (set_verified h bullet v)) →
  P h →
  ApprovalService._apply_user_verifications pack confirmation h = Ok (pack', h') →
  pack' = pack ∧ P h'.
Proof.
  intros Hstep Hh. unfold ApprovalService._apply_user_verifications, dict_copy.
  pose proof (verification_lookup_loop (UserConfirmation.bullets_verified confirmation) ∅)
    as Hlookup.
  unfold ApprovalService.verification_lookup_of.
  destruct (for_each _ (UserConfirmation.bullets_verified confirmation) ∅)
    as [verification_lookup|]; [| done].
  destruct Hlookup as [_ Hvals]. cbn [mbind result_bind]. intros [= <- <-].
  split; [done |]. unfold enumerate.
  apply (foldl_enumerate_invariant P
           (λ project, ∀ bullet, bullet ∈ default [] (RawProject.bullets project) →
                                 bullet ∈ RawPack.all_bullets pack)
           (λ h i project,
              foldl (λ h '(j, bullet),
                  match verification_lookup !! bullet_id_of i j with
                  | Some v => set_verified h bullet v
                  | None => set_verified h bullet (PyBool false)
                  end) h (imap (λ j x, (j, x)) (default [] (RawProject.bullets project))))
           (λ i, i)); [| | done].
  - intros h0 i project Hproject Hh0.
    apply (foldl_enumerate_invariant P (λ bullet, bullet ∈ RawPack.all_bullets pack)
             (λ h j bullet,
                match verification_lookup !! bullet_id_of i j with
                | Some v => set_verified h bullet v
                | None => set_verified h bullet (PyBool false)
                end) (λ j, j)); [| | done].
    + intros h1 j bullet Hb Hh1.
      destruct (verification_lookup !! bullet_id_of i j) as [v|] eqn:Hv.
      * apply Hstep; [done | | done]. right.
        destruct (Hvals _ _ Hv) as [Hempty|Hbv]; [by rewrite lookup_empty in Hempty | done].
      * apply Hstep; auto.
    + by apply Forall_forall.
  - apply Forall_forall. intros project Hp bullet Hb.
    unfold RawPack.all_bullets. apply list_elem_of_In, in_concat.
    exists (default [] (RawProject.bullets project)). split; [| by apply list_elem_of_In].
    apply in_map_iff. exists project. split; [done | by apply list_elem_of_In].
Qed.

Lemma set_verified_lookup (h : gmap nat RawBullet.t) (bullet l : nat) (v : pyval) :
  RawBullet.description (set_verified h bullet v !!! l) = RawBullet.description (h !!! l)
  ∧ RawBullet.skills (set_verified h bullet v !!! l) = RawBullet.skills (h !!! l)
  ∧ RawBullet.proofs (set_verified h bullet v !!! l) = RawBullet.proofs (h !!! l)
  ∧ (l ≠ bullet → set_verified h bullet v !!! l = h !!! l)
  ∧ (l = bullet → RawBullet.verified (set_verified h bullet v !!! l) = Some v).
Proof.
  unfold set_verified. destruct (decide (l = bullet)) as [->|Hne].
  - rewrite lookup_total_insert_eq. by split_and!.
  - rewrite lookup_total_insert_ne by done. by split_and!.
Qed.

(** When the bullets of the pack and the entries of the confirmation all
    carry booleans, so do the bullets after the verifications are
    applied. *)
Lemma apply_user_verifications_booleans (pack pack' : RawPack.t nat)
    (confirmation : UserConfirmation.t) (h h' : gmap nat RawBullet.t) :
  Forall boolean_verification (UserConfirmation.bullets_verified confirmation) →
  (∀ l, l ∈ RawPack.all_bullets pack → ∃ b, RawBullet.verified (h !!! l) = Some (PyBool b)) →
  ApprovalService._apply_user_verifications pack confirmation h = Ok (pack', h') →
  ∀ l, l ∈ RawPack.all_bullets pack → ∃ b, RawBullet.verified (h' !!! l) = Some (PyBool b).
Proof.
  intros Hbool Hinit Happly.
  apply (apply_user_verifications_invariant
           (λ h', ∀ l, l ∈ RawPack.all_bullets pack →
                       ∃ b, RawBullet.verified (h' !!! l) = Some (PyBool b))
           pack pack' confirmation h h'); [| done | done].
  intros h0 bullet v _ Hv Hh0 l Hl.
  destruct (set_verified_lookup h0 bullet l v) as (_ & _ & _ & Hne & Heq).
  destruct (decide (l = bullet)) as [->|Hlb].
  - rewrite Heq by done. destruct Hv as [->|(bv & Hin & Hbv)]; [by exists false |].
    rewrite Forall_forall in Hbool. destruct (Hbool bv Hin v Hbv) as [b ->]. by exists b.
  - rewrite Hne by done. by apply Hh0.
Qed.

Section ApprovalEffects.
Variable sha256_hexdigest : string → string.
Variable isoformat : Z → string.

(** The path of a call of [submit_for_approval] that returns. *)
Lemma submit_for_approval_ok (draft : DraftArtifactPack.t nat)
    (confirmation : UserConfirmation.t) (user_id : Z) (snapshot_id : string)
    (utcnow now : Z) (w w' : world) (snapshot : ArtifactSnapshot.t nat) :
  ApprovalService.submit_for_approval sha256_hexdigest isoformat
    draft confirmation user_id snapshot_id utcnow now w = (Ok snapshot, w') →
  let pack := DraftArtifactPack.student_artifact_pack draft in
  ∃ hash modified_bullets,
    let md :=
      {| ApprovalMetadata.user_confirmation := Some confirmation;
         ApprovalMetadata.verification_count :=
           Some (length (UserConfirmation.bullets_verified confirmation));
         ApprovalMetadata.modified_bullets := modified_bullets |} in
    ApprovalService._validate_user_confirmation confirmation draft = Ok ()
    ∧ ApprovalService._apply_user_verifications pack confirmation (mem w)
      = Ok (pack, mem w')
    ∧ ApprovalService.modified_bullets_of (UserConfirmation.bullets_verified confirmation)
      = Ok modified_bullets
    ∧ RawPack.source_resume_hash pack = Some hash
    ∧ ArtifactSnapshot.new (λ l, mem w' !!! l) snapshot_id user_id pack utcnow hash
        (DraftArtifactPack.source_profile_hash draft) true md = Ok snapshot
    ∧ (snapshot_id ∉ map SnapshotRow.id (PersistentDatabase.artifact_snapshots (db w)))
    ∧ db w' =
        PersistentDatabase.set_artifacts (db w)
          (filter (λ r, DraftRow.user_id r ≠ user_id)
             (PersistentDatabase.draft_artifacts (db w)))
          (PersistentDatabase.artifact_snapshots (db w) ++
             [{| SnapshotRow.id := snapshot_id; SnapshotRow.user_id := user_id;
                 SnapshotRow.student_artifact_pack := resolve (mem w') pack;
                 SnapshotRow.approved_at := now;
                 SnapshotRow.source_resume_hash := hash;
                 SnapshotRow.source_profile_hash := DraftArtifactPack.source_profile_hash draft;
                 SnapshotRow.approval_metadata := md;
                 SnapshotRow.integrity_hash :=
                   sha256_hexdigest (str_Z user_id +:+ ":" +:+ hash +:+ ":"
                                       +:+ isoformat utcnow) |}]).
Proof.
  unfold ApprovalService.submit_for_approval.
  destruct (ApprovalService._validate_user_confirmation _ _) as [[]|]; [| done].
  destruct (ApprovalService._apply_user_verifications _ _ _) as [[pack' h]|] eqn:Happly;
    [| done].
  assert (pack' = DraftArtifactPack.student_artifact_pack draft) as ->.
  { unfold ApprovalService._apply_user_verifications, dict_copy in Happly.
    destruct (ApprovalService.verification_lookup_of _); [| done].
    cbn [mbind result_bind] in Happly. by injection Happly as <- _. }
  destruct (ApprovalService.modified_bullets_of _) as [modified_bullets|]; [| done].
  destruct (RawPack.source_resume_hash _) as [hash|]; [| done].
  destruct (ArtifactSnapshot.new _ _ _ _ _ _ _ _ _) as [s|] eqn:Hnew; [| done].
  assert (Hs : ArtifactSnapshot.id s = snapshot_id ∧ ArtifactSnapshot.user_id s = user_id
               ∧ ArtifactSnapshot.source_resume_hash s = hash
               ∧ ArtifactSnapshot.source_profile_hash s
                 = DraftArtifactPack.source_profile_hash draft
               ∧ ArtifactSnapshot.approved_at s = utcnow).
  { unfold ArtifactSnapshot.new in Hnew.
    destruct (ArtifactSnapshot.validate_student_artifact_pack_structure _ _); [| done].
    cbn [mbind result_bind] in Hnew.
    destruct (ArtifactSnapshot.validate_approval_metadata _); [| done].
    cbn [mbind result_bind] in Hnew. by injection Hnew as <-. }
  destruct Hs as (Hid & Huid & Hh1 & Hh2 & Hat).
  unfold PersistentDatabase.save_artifact_snapshot, ApprovalService.generate_integrity_hash.
  cbn [db]. rewrite Hid, Huid, Hh1, Hh2, Hat.
  destruct (decide (snapshot_id ∈ _)) as [|Hfresh]; [done |].
  cbn [negb PersistentDatabase.delete_draft_artifacts].
  unfold PersistentDatabase.delete_draft_artifacts.
  intros [= <- <-]. exists hash, modified_bullets. cbn [mem db]. split_and!; try done.
Qed.

(** X10: an approval that returns has stored exactly one new snapshot row,
    under an id no stored snapshot had: the row belongs to the user, holds
    the pack as it reads in memory after the call, with the [verified]
    entry of every bullet true in a condition (and equal to [True] when the
    draft's bullets and the confirmation's entries all carry booleans), and
    carries the store's time, while its integrity hash is computed from the
    time the snapshot object was built.  The user's drafts are deleted,
    those of other users and the other tables are kept. *)
Theorem submit_for_approval_persists (draft : DraftArtifactPack.t nat)
    (confirmation : UserConfirmation.t) (user_id : Z) (snapshot_id : string)
    (utcnow now : Z) (w w' : world) (snapshot : ArtifactSnapshot.t nat) :
  ApprovalService.submit_for_approval sha256_hexdigest isoformat
    draft confirmation user_id snapshot_id utcnow now w = (Ok snapshot, w') →
  ∃ row,
    PersistentDatabase.artifact_snapshots (db w')
      = PersistentDatabase.artifact_snapshots (db w) ++ [row]
    ∧ (snapshot_id ∉ map SnapshotRow.id (PersistentDatabase.artifact_snapshots (db w)))
    ∧ SnapshotRow.id row = snapshot_id ∧ ArtifactSnapshot.id snapshot = snapshot_id
    ∧ SnapshotRow.user_id row = user_id
    ∧ SnapshotRow.student_artifact_pack row
      = resolve (mem w') (DraftArtifactPack.student_artifact_pack draft)
    ∧ (∀ bullet, bullet ∈ RawPack.all_bullets (SnapshotRow.student_artifact_pack row) →
                 ∃ value, RawBullet.verified bullet = Some value ∧ truthy value = true)
    ∧ (Forall boolean_verification (UserConfirmation.bullets_verified confirmation) →
       (∀ l, l ∈ RawPack.all_bullets (DraftArtifactPack.student_artifact_pack draft) →
             ∃ b, RawBullet.verified (mem w !!! l) = Some (PyBool b)) →
       ∀ bullet, bullet ∈ RawPack.all_bullets (SnapshotRow.student_artifact_pack row) →
                 RawBullet.verified bullet = Some (PyBool true))
    ∧ SnapshotRow.approved_at row = now ∧ ArtifactSnapshot.approved_at snapshot = utcnow
    ∧ SnapshotRow.integrity_hash row
      = sha256_hexdigest (str_Z user_id +:+ ":" +:+ SnapshotRow.source_resume_hash row
                            +:+ ":" +:+ isoformat utcnow)
    ∧ PersistentDatabase.draft_artifacts (db w')
      = filter (λ r, DraftRow.user_id r ≠ user_id) (PersistentDatabase.draft_artifacts (db w))
    ∧ PersistentDatabase.job_listings (db w') = PersistentDatabase.job_listings (db w)
    ∧ PersistentDatabase.autopilot_runs (db w') = PersistentDatabase.autopilot_runs (db w)
    ∧ PersistentDatabase.application_history (db w')
      = PersistentDatabase.application_history (db w).
Proof.
  intros Hcall.
  destruct (submit_for_approval_ok _ _ _ _ _ _ _ _ _ Hcall)
    as (hash & modified_bullets & _ & Happly & _ & _ & Hnew & Hfresh & ->).
  eexists. split; [reflexivity |].
  cbn [SnapshotRow.id SnapshotRow.user_id SnapshotRow.student_artifact_pack
       SnapshotRow.approved_at SnapshotRow.integrity_hash SnapshotRow.source_resume_hash
       PersistentDatabase.set_artifacts PersistentDatabase.draft_artifacts
       PersistentDatabase.job_listings PersistentDatabase.autopilot_runs
       PersistentDatabase.application_history].
  assert (Hbools : Forall boolean_verification (UserConfirmation.bullets_verified confirmation) →
    (∀ l, l ∈ RawPack.all_bullets (DraftArtifactPack.student_artifact_pack draft) →
          ∃ b, RawBullet.verified (mem w !!! l) = Some (PyBool b)) →
    ∀ bullet,
      bullet ∈ RawPack.all_bullets
                 (resolve (mem w') (DraftArtifactPack.student_artifact_pack draft)) →
      RawBullet.verified bullet = Some (PyBool true)).
  { intros Hbool Hinit bullet. rewrite all_bullets_resolve, list_elem_of_In, in_map_iff.
    intros (l & <- & Hl%list_elem_of_In).
    pose proof (snapshot_new_ok_verified _ _ _ _ _ _ _ _ _ _ Hnew l Hl) as Hv.
    destruct (apply_user_verifications_booleans _ _ _ _ _ Hbool Hinit Happly l Hl) as [b Hb].
    unfold is_verified, RawBullet.get_verified in Hv. rewrite Hb in Hv. simpl in Hv.
    by rewrite Hv in Hb. }
  split_and!; try done.
  - unfold ArtifactSnapshot.new in Hnew.
    destruct (ArtifactSnapshot.validate_student_artifact_pack_structure _ _); [| done].
    cbn [mbind result_bind] in Hnew.
    destruct (ArtifactSnapshot.validate_approval_metadata _); [| done].
    cbn [mbind result_bind] in Hnew. by injection Hnew as <-.
  - intros bullet. rewrite all_bullets_resolve, list_elem_of_In, in_map_iff.
    intros (l & <- & Hl%list_elem_of_In).
    pose proof (snapshot_new_ok_verified _ _ _ _ _ _ _ _ _ _ Hnew l Hl) as Hv.
    unfold is_verified, RawBullet.get_verified in Hv.
    destruct (RawBullet.verified _) as [value|]; [by exists value | done].
  - unfold ArtifactSnapshot.new in Hnew.
    destruct (ArtifactSnapshot.validate_student_artifact_pack_structure _ _); [| done].
    cbn [mbind result_bind] in Hnew.
    destruct (ArtifactSnapshot.validate_approval_metadata _); [| done].
    cbn [mbind result_bind] in Hnew. by injection Hnew as <-.
Qed.

(** X11: whenever [submit_for_approval] raises, at whatever step, the
    store is as it was before the call: no snapshot is stored and no draft
    is deleted. *)
Theorem submit_for_approval_failure_keeps_store (draft : DraftArtifactPack.t nat)
    (confirmation : UserConfirmation.t) (user_id : Z) (snapshot_id : string)
    (utcnow now : Z) (w w' : world) (e : exn) :
  ApprovalService.submit_for_approval sha256_hexdigest isoformat
    draft confirmation user_id snapshot_id utcnow now w = (Raise e, w') →
  db w' = db w.
Proof.
  unfold ApprovalService.submit_for_approval.
  destruct (ApprovalService._validate_user_confirmation _ _) as [[]|];
    [| by intros [= _ <-]].
  destruct (ApprovalService._apply_user_verifications _ _ _) as [[pack h]|];
    [| by intros [= _ <-]].
  destruct (ApprovalService.modified_bullets_of _) as [modified_bullets|];
    [| by intros [= _ <-]].
  destruct (RawPack.source_resume_hash _) as [hash|]; [| by intros [= _ <-]].
  destruct (ArtifactSnapshot.new _ _ _ _ _ _ _ _ _) as [s|]; [| by intros [= _ <-]].
  unfold PersistentDatabase.save_artifact_snapshot. cbn [db].
  destruct (decide (_ ∈ _)); [by intros [= _ <-] |].
  cbn [negb]. unfold PersistentDatabase.delete_draft_artifacts. by intros [=].
Qed.

(** The snapshot constructor reads a pack held in memory as it reads the
    same pack once written out. *)
Lemma snapshot_new_resolve (h : gmap nat RawBullet.t) sid uid (v : RawPack.t nat)
    at_ h1 h2 frozen md s :
  ArtifactSnapshot.new (λ l, h !!! l) sid uid v at_ h1 h2 frozen md = Ok s →
  ∀ at', ArtifactSnapshot.new id sid uid (resolve h v) at' h1 h2 frozen md
    = Ok {| ArtifactSnapshot.id := sid; ArtifactSnapshot.user_id := uid;
            ArtifactSnapshot.student_artifact_pack := resolve h v;
            ArtifactSnapshot.approved_at := at';
            ArtifactSnapshot.source_resume_hash := h1;
            ArtifactSnapshot.source_profile_hash := h2;
            ArtifactSnapshot.frozen := true;
            ArtifactSnapshot.approval_metadata := md |}.
Proof.
  intros Hnew at'.
  pose proof (snapshot_new_ok_verified _ _ _ _ _ _ _ _ _ _ Hnew) as Hver.
  unfold ArtifactSnapshot.new, ArtifactSnapshot.validate_student_artifact_pack_structure in *.
  assert (Hfields : ∀ field, RawPack.contains (resolve h v) field = RawPack.contains v field).
  { intros field. unfold RawPack.contains, resolve.
    cbn [RawPack.source_resume_hash RawPack.skill_vocab RawPack.education RawPack.projects
         RawPack.constraints].
    repeat case_decide; try done. apply bool_decide_ext. by rewrite fmap_is_Some. }
  cbn [for_each] in *. rewrite !Hfields.
  destruct (negb (RawPack.contains v "source_resume_hash")); [done |].
  destruct (negb (RawPack.contains v "skill_vocab")); [done |].
  destruct (negb (RawPack.contains v "education")); [done |].
  destruct (negb (RawPack.contains v "projects")); [done |].
  cbn [mbind result_bind] in *.
  rewrite (snapshot_bullets_find id).
  rewrite find_none_forall.
  2: { intros b. rewrite all_bullets_resolve, list_elem_of_In, in_map_iff.
       intros (l & <- & Hl%list_elem_of_In). cbn [id]. specialize (Hver l Hl).
       by rewrite Hver. }
  destruct (for_each _ (default [] (RawPack.projects v)) ()) as [[]|]; [| done].
  cbn [mbind result_bind] in *.
  destruct (ArtifactSnapshot.validate_frozen_always_true frozen) as [fr|] eqn:Hfr; [| done].
  cbn [mbind result_bind] in *.
  destruct (ArtifactSnapshot.validate_approval_metadata md) as [md'|] eqn:Hmd; [| done].
  cbn [mbind result_bind] in *.
  unfold ArtifactSnapshot.validate_frozen_always_true in Hfr.
  destruct frozen; [| done]. injection Hfr as <-.
  unfold ArtifactSnapshot.validate_approval_metadata in Hmd.
  destruct (for_each _ _ ()); [| done]. cbn [mbind result_bind] in Hmd.
  by injection Hmd as <-.
Qed.

(** X12: after an approval that returns, at a store time later than the
    user's earlier snapshots, [get_current_approved] returns for that user
    a frozen snapshot with the new id, whose pack is the approved pack as
    it reads in memory and passes the gateway's check of the bullets. *)
Theorem approval_round_trip (draft : DraftArtifactPack.t nat)
    (confirmation : UserConfirmation.t) (user_id : Z) (snapshot_id : string)
    (utcnow now : Z) (w w' : world) (snapshot : ArtifactSnapshot.t nat) :
  ApprovalService.submit_for_approval sha256_hexdigest isoformat
    draft confirmation user_id snapshot_id utcnow now w = (Ok snapshot, w') →
  (∀ r, r ∈ PersistentDatabase.artifact_snapshots (db w) →
        SnapshotRow.user_id r = user_id → (SnapshotRow.approved_at r < now)%Z) →
  ∃ current,
    ApprovalService.get_current_approved (db w') user_id = Ok (Some current)
    ∧ ArtifactSnapshot.id current = snapshot_id
    ∧ ArtifactSnapshot.user_id current = user_id
    ∧ ArtifactSnapshot.frozen current = true
    ∧ ArtifactSnapshot.approved_at current = now
    ∧ ArtifactSnapshot.student_artifact_pack current
      = resolve (mem w') (DraftArtifactPack.student_artifact_pack draft)
    ∧ ArtifactSnapshot.approval_metadata current = ArtifactSnapshot.approval_metadata snapshot
    ∧ EngineGateway._validate_all_bullets_verified
        (ArtifactSnapshot.student_artifact_pack current) = Ok ().
Proof.
  intros Hcall Hlater.
  destruct (submit_for_approval_ok _ _ _ _ _ _ _ _ _ Hcall)
    as (hash & modified_bullets & _ & _ & _ & _ & Hnew & Hfresh & ->).
  unfold ApprovalService.get_current_approved,
    PersistentDatabase.get_current_artifact_snapshot.
  cbn [PersistentDatabase.set_artifacts PersistentDatabase.artifact_snapshots].
  rewrite filter_app, filter_cons_True, filter_nil by done.
  rewrite latest_snapshot_snoc.
  2: { intros r [Hu Hr]%list_elem_of_filter. cbn [SnapshotRow.approved_at]. by apply Hlater. }
  cbn [mbind option_bind SnapshotRow.id SnapshotRow.user_id SnapshotRow.student_artifact_pack
       SnapshotRow.approved_at SnapshotRow.source_resume_hash SnapshotRow.source_profile_hash
       SnapshotRow.approval_metadata].
  rewrite (snapshot_new_resolve _ _ _ _ _ _ _ _ _ _ Hnew now). cbn [mbind result_bind].
  eexists. split; [reflexivity |].
  cbn [ArtifactSnapshot.id ArtifactSnapshot.user_id ArtifactSnapshot.frozen
       ArtifactSnapshot.approved_at ArtifactSnapshot.student_artifact_pack
       ArtifactSnapshot.approval_metadata].
  split_and!; try done.
  - unfold ArtifactSnapshot.new in Hnew.
    destruct (ArtifactSnapshot.validate_student_artifact_pack_structure _ _); [| done].
    cbn [mbind result_bind] in Hnew.
    destruct (ArtifactSnapshot.validate_approval_metadata _) as [md'|] eqn:Hmd; [| done].
    cbn [mbind result_bind] in Hnew. injection Hnew as <-.
    cbn [ArtifactSnapshot.approval_metadata].
    unfold ArtifactSnapshot.validate_approval_metadata in Hmd.
    destruct (for_each _ _ ()); [| done]. cbn [mbind result_bind] in Hmd.
    by injection Hmd as <-.
  - rewrite validate_all_bullets_verified_find. unfold first_unverified.
    rewrite find_none_forall; [done |].
    intros b. rewrite all_bullets_resolve, list_elem_of_In, in_map_iff.
    intros (l & <- & Hl%list_elem_of_In).
    by rewrite (snapshot_new_ok_verified _ _ _ _ _ _ _ _ _ _ Hnew l Hl).
Qed.
End ApprovalEffects.

(** X13: [get_current_artifact_snapshot] returns nothing exactly when the
    user has no stored snapshot; otherwise it returns one of that user's
    rows, never another user's, no other row of the user is later, and the
    frozen flag it reports is always true. *)
Theorem get_current_artifact_snapshot_spec (d : PersistentDatabase.t) (user_id : Z) :
  match PersistentDatabase.get_current_artifact_snapshot d user_id with
  | None =>
      ∀ r, r ∈ PersistentDatabase.artifact_snapshots d → SnapshotRow.user_id r ≠ user_id
  | Some (row, frozen) =>
      frozen = true
      ∧ row ∈ PersistentDatabase.artifact_snapshots d
      ∧ SnapshotRow.user_id row = user_id
      ∧ ∀ r, r ∈ PersistentDatabase.artifact_snapshots d → SnapshotRow.user_id r = user_id →
             (SnapshotRow.approved_at r ≤ SnapshotRow.approved_at row)%Z
  end.
Proof.
  unfold PersistentDatabase.get_current_artifact_snapshot.
  pose proof (latest_snapshot_spec
                (filter (λ r, SnapshotRow.user_id r = user_id)
                   (PersistentDatabase.artifact_snapshots d))) as H.
  destruct (PersistentDatabase.latest_snapshot _) as [row|]; cbn [mbind option_bind].
  - destruct H as [[Hu Hin]%list_elem_of_filter Hmax]. split_and!; try done.
    intros r Hr Hru. apply Hmax. by apply list_elem_of_filter.
  - intros r Hr Hu.
    assert (r ∈ filter (λ r, SnapshotRow.user_id r = user_id)
                  (PersistentDatabase.artifact_snapshots d)) as Hin
      by by apply list_elem_of_filter.
    rewrite H in Hin. by apply elem_of_nil in Hin.
Qed.

Lemma submit_for_approval_persists_witness :
  ∃ snapshot w' row,
    ApprovalService.submit_for_approval plain_digest plain_time draft_in_memory
      full_confirmation 7 "snap-1" 10 11 example_world = (Ok snapshot, w')
    ∧ PersistentDatabase.artifact_snapshots (db w') = [row]
    ∧ SnapshotRow.id row = "snap-1"
    ∧ SnapshotRow.approved_at row = 11%Z.
Proof.
  assert (Hr : ∃ snapshot w',
    ApprovalService.submit_for_approval plain_digest plain_time draft_in_memory
      full_confirmation 7 "snap-1" 10 11 example_world = (Ok snapshot, w')).
  { vm_compute. eexists _, _. reflexivity. }
  destruct Hr as (snapshot & w' & Hcall).
  destruct (submit_for_approval_persists plain_digest plain_time draft_in_memory
              full_confirmation 7 "snap-1" 10 11 example_world w' snapshot Hcall)
    as (row & Hrows & _ & Hid & _ & _ & _ & _ & _ & Hat & _).
  exists snapshot, w', row.
  split; [exact Hcall |]. split; [exact Hrows |]. split; [exact Hid | exact Hat].
Defined.

Lemma submit_for_approval_failure_keeps_store_witness :
  ∃ e w',
    ApprovalService.submit_for_approval plain_digest plain_time draft_in_memory
      partial_confirmation 7 "snap-1" 10 11 example_world = (Raise e, w')
    ∧ db w' = empty_database.
Proof.
  assert (Hr : ∃ e w',
    ApprovalService.submit_for_approval plain_digest plain_time draft_in_memory
      partial_confirmation 7 "snap-1" 10 11 example_world = (Raise e, w')).
  { vm_compute. eexists _, _. reflexivity. }
  destruct Hr as (e & w' & Hcall).
  exists e, w'. split; [exact Hcall |].
  exact (submit_for_approval_failure_keeps_store plain_digest plain_time draft_in_memory
           partial_confirmation 7 "snap-1" 10 11 example_world w' e Hcall).
Defined.

Lemma approval_round_trip_witness :
  ∃ snapshot w' current,
    ApprovalService.submit_for_approval plain_digest plain_time draft_in_memory
      full_confirmation 7 "snap-1" 10 11 example_world = (Ok snapshot, w')
    ∧ ApprovalService.get_current_approved (db w') 7 = Ok (Some current)
    ∧ ArtifactSnapshot.id current = "snap-1".
Proof.
  assert (Hr : ∃ snapshot w',
    ApprovalService.submit_for_approval plain_digest plain_time draft_in_memory
      full_confirmation 7 "snap-1" 10 11 example_world = (Ok snapshot, w')).
  { vm_compute. eexists _, _. reflexivity. }
  destruct Hr as (snapshot & w' & Hcall).
  destruct (approval_round_trip plain_digest plain_time draft_in_memory
              full_confirmation 7 "snap-1" 10 11 example_world w' snapshot Hcall)
    as (current & Hget & Hid & _).
  - intros r Hr. by apply elem_of_nil in Hr.
  - exists snapshot, w', current.
    split; [exact Hcall |]. split; [exact Hget | exact Hid].
Defined.

(** ** Status indicators *)

Lemma count_bullets_inner {B} (test : B → bool) (bullets : list B) (total hits : nat) :
  foldl (λ '(total, hits) bullet,
      let total := total + 1 in
      if test bullet then (total, hits + 1) else (total, hits))
    (total, hits) bullets
  = (total + length bullets, hits + length (filter (λ b, test b = true) bullets)).
Proof.
  revert total hits. induction bullets as [|b bullets IH]; intros total hits.
  - cbn [foldl length]. rewrite filter_nil. cbn [length]. f_equal; lia.
  - cbn [foldl]. rewrite filter_cons. destruct (test b) eqn:Hb.
    + rewrite IH, decide_True by done. cbn [length]. f_equal; lia.
    + rewrite IH, decide_False by done. cbn [length]. f_equal; lia.
Qed.

(** The two counting loops of the indicators. *)
Lemma count_bullets_loop {B} (test : B → bool) (v : RawPack.t B) :
  foldl (λ counts project,
      foldl (λ '(total, hits) bullet,
          let total := total + 1 in
          if test bullet then (total, hits + 1) else (total, hits))
        counts (default [] (RawProject.bullets project)))
    (0, 0) (default [] (RawPack.projects v))
  = (length (RawPack.all_bullets v),
     length (filter (λ b, test b = true) (RawPack.all_bullets v))).
Proof.
  unfold RawPack.all_bullets.
  assert (Hgen : ∀ projects total hits,
    foldl (λ counts project,
        foldl (λ '(total, hits) bullet,
            let total := total + 1 in
            if test bullet then (total, hits + 1) else (total, hits))
          counts (default [] (RawProject.bullets project)))
      (total, hits) projects
    = (total + length (concat (map (λ p : RawProject.t B,
                                      default [] (RawProject.bullets p)) projects)),
       hits + length (filter (λ b, test b = true)
                        (concat (map (λ p : RawProject.t B,
                                        default [] (RawProject.bullets p)) projects))))).
  { induction projects as [|p projects IH]; intros total hits.
    - cbn [foldl map concat length]. rewrite filter_nil. cbn [length]. f_equal; lia.
    - cbn [foldl map concat]. rewrite count_bullets_inner, IH.
      rewrite filter_app, !length_app. f_equal; lia. }
  apply Hgen.
Qed.

Lemma filter_all {A} (P : A → Prop) `{∀ x, Decision (P x)} (l : list A) :
  (∀ x, x ∈ l → P x) → filter P l = l.
Proof.
  induction l as [|x l IH]; intros Hall; [done |].
  rewrite filter_cons_True by (apply Hall; left). f_equal. apply IH.
  intros y Hy. apply Hall. by right.
Qed.

Section StatusIndicators.
Variable sha256_hexdigest : string → string.
Variable isoformat : Z → string.
Context {B : Type} (rd : B → RawBullet.t).

(** X14: for every draft object, the indicators count every bullet of the
    pack, the unverified count is the number of bullets that do not read
    verified, and [ready_for_approval] is true exactly when every bullet
    reads verified, which is the test the snapshot constructor applies. *)
Theorem draft_indicators_counts (draft : DraftArtifactPack.t B) :
  let i := StatusIndicators.get_draft_artifact_indicators rd draft in
  let bullets := RawPack.all_bullets (DraftArtifactPack.student_artifact_pack draft) in
  DraftIndicators.total_bullets i = length bullets
  ∧ DraftIndicators.unverified_bullets i
    = length (filter (λ b, is_verified (rd b) = false) bullets)
  ∧ (DraftIndicators.unverified_bullets i ≤ DraftIndicators.total_bullets i)%nat
  ∧ (DraftIndicators.ready_for_approval i = true
     ↔ ∀ b, b ∈ bullets → is_verified (rd b) = true).
Proof.
  intros i bullets. unfold i, StatusIndicators.get_draft_artifact_indicators.
  rewrite (count_bullets_loop (λ b, negb (truthy (RawBullet.get_verified (rd b))))).
  cbn [DraftIndicators.total_bullets DraftIndicators.unverified_bullets
       DraftIndicators.ready_for_approval]. fold bullets.
  assert (Hf : filter (λ b, negb (truthy (RawBullet.get_verified (rd b))) = true) bullets
               = filter (λ b, is_verified (rd b) = false) bullets).
  { apply list_filter_iff. intros b. unfold is_verified.
    by destruct (truthy _). }
  rewrite Hf. split_and!; try done.
  - apply length_filter.
  - rewrite bool_decide_eq_true, length_zero_iff_nil. split.
    + intros Hnil b Hb. destruct (is_verified (rd b)) eqn:Hv; [done |].
      assert (b ∈ filter (λ b, is_verified (rd b) = false) bullets) as Hin
        by by apply list_elem_of_filter.
      rewrite Hnil in Hin. by apply elem_of_nil in Hin.
    + intros Hall.
      destruct (filter (λ b, is_verified (rd b) = false) bullets) as [|b rest] eqn:Hflt;
        [done |].
      assert (b ∈ filter (λ b, is_verified (rd b) = false) bullets) as Hin
        by (rewrite Hflt; left).
      apply list_elem_of_filter in Hin as [Hv Hb]. rewrite (Hall b Hb) in Hv. done.
Qed.

(** X15: a draft that the [DraftArtifactPack] constructor accepted reads
    "0/N verified" with [N] its number of bullets, every bullet counted as
    unverified, and is flagged ready for approval only when it has no
    bullet at all. *)
Theorem draft_indicators_of_new_draft (v : RawPack.t B) (status : string) (created_at : Z)
    (source_profile_hash : string) (draft : DraftArtifactPack.t B) :
  DraftArtifactPack.new rd v status created_at source_profile_hash = Ok draft →
  let i := StatusIndicators.get_draft_artifact_indicators rd draft in
  DraftIndicators.total_bullets i = length (RawPack.all_bullets v)
  ∧ DraftIndicators.unverified_bullets i = DraftIndicators.total_bullets i
  ∧ DraftIndicators.verification_progress i
    = "0/" +:+ str_nat (length (RawPack.all_bullets v)) +:+ " verified"
  ∧ (DraftIndicators.ready_for_approval i = true ↔ RawPack.all_bullets v = []).
Proof.
  intros Hnew i.
  pose proof (draft_new_ok_unverified rd _ _ _ _ _ Hnew) as Hun.
  assert (Hpack : DraftArtifactPack.student_artifact_pack draft = v).
  { unfold DraftArtifactPack.new in Hnew. rewrite validate_no_verified_bullets_find in Hnew.
    destruct (List.find _ _); [done |]. cbn [mbind result_bind] in Hnew.
    destruct (DraftArtifactPack.validate_status_is_draft status); [| done].
    cbn [mbind result_bind] in Hnew. by injection Hnew as <-. }
  unfold i, StatusIndicators.get_draft_artifact_indicators.
  rewrite (count_bullets_loop (λ b, negb (truthy (RawBullet.get_verified (rd b))))).
  rewrite Hpack.
  assert (Hf : filter (λ b, negb (truthy (RawBullet.get_verified (rd b))) = true)
                 (RawPack.all_bullets v) = RawPack.all_bullets v).
  { apply filter_all. intros b Hb. specialize (Hun b Hb). unfold is_verified in Hun.
    by rewrite Hun. }
  rewrite Hf.
  cbn [DraftIndicators.total_bullets DraftIndicators.unverified_bullets
       DraftIndicators.ready_for_approval DraftIndicators.verification_progress].
  rewrite Z.sub_diag. split_and!; try done.
  by rewrite bool_decide_eq_true, length_zero_iff_nil.
Qed.

(** X16: for a snapshot that the [ArtifactSnapshot] constructor accepted,
    the approved indicators count every bullet as verified and report
    frozen. *)
Theorem approved_indicators_of_new_snapshot (sid : string) (user_id : Z) (v : RawPack.t B)
    (approved_at : Z) (h1 h2 : string) (frozen : bool) (md : ApprovalMetadata.t)
    (snapshot : ArtifactSnapshot.t B) :
  ArtifactSnapshot.new rd sid user_id v approved_at h1 h2 frozen md = Ok snapshot →
  let i := StatusIndicators.get_approved_artifact_indicators sha256_hexdigest isoformat rd
             snapshot in
  ApprovedIndicators.total_bullets i = length (RawPack.all_bullets v)
  ∧ ApprovedIndicators.verified_bullets i = ApprovedIndicators.total_bullets i
  ∧ ApprovedIndicators.frozen i = true
  ∧ ApprovedIndicators.integrity_hash i
    = sha256_hexdigest (str_Z user_id +:+ ":" +:+ h1 +:+ ":" +:+ isoformat approved_at).
Proof.
  intros Hnew i.
  pose proof (snapshot_new_ok_verified rd _ _ _ _ _ _ _ _ _ Hnew) as Hver.
  assert (Hs : snapshot = {| ArtifactSnapshot.id := sid; ArtifactSnapshot.user_id := user_id;
                             ArtifactSnapshot.student_artifact_pack := v;
                             ArtifactSnapshot.approved_at := approved_at;
                             ArtifactSnapshot.source_resume_hash := h1;
                             ArtifactSnapshot.source_profile_hash := h2;
                             ArtifactSnapshot.frozen := true;
                             ArtifactSnapshot.approval_metadata := md |}).
  { unfold ArtifactSnapshot.new in Hnew.
    unfold ArtifactSnapshot.validate_student_artifact_pack_structure in Hnew.
    destruct (for_each _ ["source_resume_hash"; _; _; _] ()) as [[]|]; [| done].
    cbn [mbind result_bind] in Hnew.
    destruct (for_each _ (default [] (RawPack.projects v)) ()) as [[]|]; [| done].
    cbn [mbind result_bind] in Hnew.
    unfold ArtifactSnapshot.validate_frozen_always_true in Hnew.
    destruct frozen; [| done]. cbn [negb mbind result_bind] in Hnew.
    unfold ArtifactSnapshot.validate_approval_metadata in Hnew.
    destruct (for_each _ _ ()); [| done]. cbn [mbind result_bind] in Hnew.
    by injection Hnew as <-. }
  unfold i, StatusIndicators.get_approved_artifact_indicators.
  rewrite (count_bullets_loop (λ b, truthy (RawBullet.get_verified (rd b)))).
  rewrite Hs. cbn [ArtifactSnapshot.student_artifact_pack ArtifactSnapshot.frozen].
  rewrite filter_all by (intros b Hb; apply (Hver b Hb)).
  cbn [ApprovedIndicators.total_bullets ApprovedIndicators.verified_bullets
       ApprovedIndicators.frozen ApprovedIndicators.integrity_hash].
  by split_and!.
Qed.
End StatusIndicators.

(** X17: the workflow status always points at one of the four steps: the
    progress is 25 times the number of steps before it, so at most 75 and
    never 100, the next action is the description of the current step
    (the text "Execute autopilot" is never returned), the current step is
    4 exactly when an approval time is given, whether or not a draft or a
    profile time is, and step 4 is enabled exactly when step 3 is
    completed. *)
Theorem workflow_status_spec (user_profile_modified draft_created approved_at : option string) :
  let s := StatusIndicators.format_approval_workflow_status
             user_profile_modified draft_created approved_at in
  let step n := WorkflowStatus.workflow_steps s !! n in
  (1 ≤ WorkflowStatus.current_step s ≤ 4)%Z
  ∧ WorkflowStatus.progress_percentage s = (25 * (WorkflowStatus.current_step s - 1))%Z
  ∧ (WorkflowStatus.progress_percentage s ≤ 75)%Z
  ∧ (∃ st, step (Z.to_nat (WorkflowStatus.current_step s - 1)) = Some st
           ∧ WorkflowStep.step st = WorkflowStatus.current_step s
           ∧ WorkflowStatus.next_action s = WorkflowStep.description st)
  ∧ WorkflowStatus.next_action s ≠ "Execute autopilot"
  ∧ (WorkflowStatus.current_step s = 4%Z ↔ str_truthy approved_at = true)
  ∧ (WorkflowStatus.current_step s = 1%Z ↔
       str_truthy approved_at = false ∧ str_truthy draft_created = false
       ∧ str_truthy user_profile_modified = false)
  ∧ (WorkflowStep.status <$> step 3 = Some "enabled"
     ↔ WorkflowStep.status <$> step 2 = Some "completed").
Proof.
  cbv zeta. unfold StatusIndicators.format_approval_workflow_status.
  destruct (str_truthy approved_at), (str_truthy draft_created),
    (str_truthy user_profile_modified);
    cbn;
    (split; [lia |]; split; [lia |]; split; [lia |];
     split; [eexists; split; [reflexivity | split; reflexivity] |];
     split; [done |]; split; [by split |];
     split; split; intros; try done; try (by split_and!); by destruct_and!).
Qed.

Lemma draft_indicators_of_new_draft_witness :
  ∃ draft,
    DraftArtifactPack.new id unverified_pack "DRAFT" 0 "p-hash" = Ok draft
    ∧ DraftIndicators.verification_progress
        (StatusIndicators.get_draft_artifact_indicators id draft) = "0/2 verified"
    ∧ DraftIndicators.unverified_bullets
        (StatusIndicators.get_draft_artifact_indicators id draft) = 2.
Proof.
  assert (Hr : ∃ draft, DraftArtifactPack.new id unverified_pack "DRAFT" 0 "p-hash" = Ok draft).
  { vm_compute. eexists. reflexivity. }
  destruct Hr as (draft & Hnew).
  destruct (draft_indicators_of_new_draft id unverified_pack "DRAFT" 0 "p-hash" draft Hnew)
    as (Htotal & Hun & Hprogress & _).
  exists draft. split; [exact Hnew |]. split; [exact Hprogress |].
  rewrite Hun. exact Htotal.
Defined.

Lemma approved_indicators_of_new_snapshot_witness :
  ∃ snapshot,
    ArtifactSnapshot.new id "snap-1" 7 four_bullet_pack 10 "abc123" "p-hash" true
      example_metadata = Ok snapshot
    ∧ ApprovedIndicators.verified_bullets
        (StatusIndicators.get_approved_artifact_indicators plain_digest plain_time id snapshot)
      = 4.
Proof.
  assert (Hr : ∃ snapshot,
    ArtifactSnapshot.new id "snap-1" 7 four_bullet_pack 10 "abc123" "p-hash" true
      example_metadata = Ok snapshot).
  { vm_compute. eexists. reflexivity. }
  destruct Hr as (snapshot & Hnew).
  destruct (approved_indicators_of_new_snapshot plain_digest plain_time id "snap-1" 7
              four_bullet_pack 10 "abc123" "p-hash" true example_metadata snapshot Hnew)
    as (Htotal & Hver & _).
  exists snapshot. split; [exact Hnew |]. rewrite Hver. exact Htotal.
Defined.

(** X18: the display status and the engine execution status agree: the
    display reads APPROVED exactly when execution is reported enabled,
    that is exactly when a snapshot is passed; a draft passed along with a
    snapshot is ignored, and an action is asked for in every other case. *)
Theorem status_display_matches_execution {B} (isoformat : Z → string)
    (draft : option (DraftArtifactPack.t B)) (approved : option (ArtifactSnapshot.t B)) :
  let display := StatusIndicators.get_artifact_status_display isoformat draft approved in
  let execution := StatusIndicators.get_engine_execution_status approved in
  (display !! "status" = Some (Some "APPROVED")
   ↔ ExecutionStatus.execution_enabled execution = true)
  ∧ (ExecutionStatus.execution_enabled execution = true ↔ is_Some approved)
  ∧ ExecutionStatus.button_enabled execution = ExecutionStatus.execution_enabled execution
  ∧ (is_Some approved →
     display = StatusIndicators.get_artifact_status_display isoformat None approved)
  ∧ (display !! "action_required" = Some None ↔ is_Some approved)
  ∧ (approved = None →
     (display !! "status" = Some (Some "DRAFT") ↔ is_Some draft)
     ∧ (display !! "status" = Some (Some "NONE") ↔ draft = None)).
Proof.
  cbv zeta. unfold StatusIndicators.get_engine_execution_status.
  destruct approved as [s|]; [| destruct draft as [d|]];
    cbn [ExecutionStatus.execution_enabled ExecutionStatus.button_enabled];
    match goal with
    | |- context [StatusIndicators.get_artifact_status_display ?f ?a ?b !! "status"] =>
        assert (∃ st act,
                  StatusIndicators.get_artifact_status_display f a b !! "status"
                    = Some (Some st)
                  ∧ StatusIndicators.get_artifact_status_display f a b !! "action_required"
                    = Some act
                  ∧ (st = "APPROVED" ↔ is_Some b) ∧ (act = None ↔ is_Some b)
                  ∧ (b = None → (st = "DRAFT" ↔ is_Some a) ∧ (st = "NONE" ↔ a = None)))
          as (st & act & -> & -> & Hst & Hact & Hnone)
    end.
  1,3,5: (eexists _, _; split; [by vm_compute |]; split; [by vm_compute |]).
  all: try (repeat split; intros; try done; try (by eexists);
            repeat match goal with H : is_Some None |- _ => destruct H as [? [=]] end; done).
  all: repeat split; intros; try done; try (by eexists).
  all: repeat match goal with
       | H : is_Some None |- _ => destruct H as [? [=]]
       | H : Some _ = Some _ |- _ => injection H as H
       end.
  all: try (f_equal; f_equal).
  all: try tauto.
  all: try (apply Hst; by eexists).
  all: by apply Hst in H as [? [=]].
Qed.

(** ** Authentication *)

Lemma get_user_by_email_Some (d : UserTable.t) (email : string) (user : UserRow.t) :
  UserTable.get_user_by_email d email = Some user →
  user ∈ UserTable.users d ∧ UserRow.email user = email.
Proof.
  unfold UserTable.get_user_by_email.
  destruct (filter _ _) as [|row rest] eqn:Hf; [done |]. intros [= <-].
  assert (row ∈ filter (λ r, UserRow.email r = email) (UserTable.users d)) as Hin
    by (rewrite Hf; left).
  apply list_elem_of_filter in Hin. tauto.
Qed.

Lemma get_user_by_email_None (d : UserTable.t) (email : string) :
  UserTable.get_user_by_email d email = None ↔ email ∉ map UserRow.email (UserTable.users d).
Proof.
  unfold UserTable.get_user_by_email. split.
  - destruct (filter _ _) as [|row rest] eqn:Hf; [| done]. intros _ Hin.
    apply list_elem_of_In, in_map_iff in Hin as (r & Hr & Hin).
    apply list_elem_of_In in Hin.
    assert (r ∈ filter (λ r, UserRow.email r = email) (UserTable.users d)) as Hin'
      by by apply list_elem_of_filter.
    rewrite Hf in Hin'. by apply elem_of_nil in Hin'.
  - intros Hnot. destruct (filter _ _) as [|row rest] eqn:Hf; [done |]. exfalso.
    assert (row ∈ filter (λ r, UserRow.email r = email) (UserTable.users d)) as Hin
      by (rewrite Hf; left).
    apply list_elem_of_filter in Hin as [He Hin]. apply Hnot.
    apply list_elem_of_In, in_map_iff. exists row. by rewrite <- list_elem_of_In.
Qed.

Section Authentication.
Variable sha256_hexdigest : string → string.

(** X19: [login_user] succeeds exactly for an active account whose stored
    hash is the hash of the password given; it then opens the session
    [token] for that user.  A login that fails changes neither the
    sessions nor the store and returns no token; an unknown email and a
    wrong password give the same message, while a deactivated account is
    reported as such whatever the password. *)
Theorem login_user_spec (self : AuthManager.t) (email password token : string) (now : Z) :
  let out := AuthManager.login_user sha256_hexdigest self email password token now in
  let '(success, message, session, user_id) := out.1 in
  let account := UserTable.get_user_by_email (AuthManager.db self) email in
  (success = true ↔
   ∃ user, account = Some user ∧ UserRow.is_active user = true
           ∧ AuthManager.hash_password sha256_hexdigest password = UserRow.password_hash user)
  ∧ (success = true →
     session = Some token ∧ user_id = UserRow.id <$> account
     ∧ AuthManager.get_user_from_token out.2 token = user_id
     ∧ ∀ other, other ≠ token →
         AuthManager.get_user_from_token out.2 other
         = AuthManager.get_user_from_token self other)
  ∧ (success = false → out.2 = self ∧ session = None ∧ user_id = None)
  ∧ (success = false →
     (message = "Account is deactivated"
      ∧ ∃ user, account = Some user ∧ UserRow.is_active user = false)
     ∨ (message = "Invalid email or password"
        ∧ (account = None
           ∨ ∃ user, account = Some user ∧ UserRow.is_active user = true
                     ∧ AuthManager.hash_password sha256_hexdigest password
                       ≠ UserRow.password_hash user))).
Proof.
  unfold AuthManager.login_user.
  destruct (UserTable.get_user_by_email (AuthManager.db self) email) as [user|] eqn:Hacc;
    cbn [fst snd].
  2: { split; [| split; [| split]].
       - split; [done |]. by intros (u & Hu & _).
       - done.
       - done.
       - intros _. right. split; [done | by left]. }
  destruct (UserRow.is_active user) eqn:Hact; cbn [negb fst snd].
  2: { split; [| split; [| split]].
       - split; [done |]. intros (u & Hu & Hu' & _). injection Hu as <-. congruence.
       - done.
       - done.
       - intros _. left. split; [done | by exists user]. }
  destruct (decide (_ ≠ _)) as [Hne|Heq%dec_stable]; cbn [fst snd].
  - split; [| split; [| split]].
    + split; [done |]. intros (u & Hu & _ & Hu'). by injection Hu as <-.
    + done.
    + done.
    + intros _. right. split; [done |]. right. by exists user.
  - split; [| split; [| split]].
    + split; [| done]. intros _. by exists user.
    + intros _. unfold AuthManager.get_user_from_token. cbn [AuthManager.active_sessions].
      split; [done |]. split; [done |]. split.
      * by rewrite lookup_insert_eq.
      * intros other Hother. by rewrite lookup_insert_ne.
    + done.
    + done.
Qed.

Lemma register_user_new (self : AuthManager.t) (email password : string) (now : Z) :
  UserTable.get_user_by_email (AuthManager.db self) email = None →
  let user_id := (UserTable.users_seq (AuthManager.db self) + 1)%Z in
  let row := {| UserRow.id := user_id; UserRow.email := email;
                UserRow.password_hash := AuthManager.hash_password sha256_hexdigest password;
                UserRow.created_at := now; UserRow.last_login := None;
                UserRow.is_active := true |} in
  AuthManager.register_user sha256_hexdigest self email password now
  = ((true, "User registered successfully", Some user_id),
     {| AuthManager.db :=
          {| UserTable.users := UserTable.users (AuthManager.db self) ++ [row];
             UserTable.users_seq := user_id |};
        AuthManager.active_sessions := AuthManager.active_sessions self |})
  ∧ UserTable.get_user_by_email
      {| UserTable.users := UserTable.users (AuthManager.db self) ++ [row];
         UserTable.users_seq := user_id |} email = Some row.
Proof.
  intros Hnone user_id row. unfold AuthManager.register_user. rewrite Hnone.
  unfold UserTable.create_user.
  rewrite decide_False by by apply get_user_by_email_None.
  split; [done |].
  unfold UserTable.get_user_by_email in *. cbn [UserTable.users].
  rewrite filter_app, filter_cons_True, filter_nil by done.
  by destruct (filter _ (UserTable.users (AuthManager.db self))).
Qed.

(** X20: registering an email no user has succeeds with the next row id;
    the user can then log in with the same password and the session token
    authenticates as that user.  A second registration of the email is
    refused whatever the password and changes nothing, and a login with a
    password of another hash is refused. *)
Theorem register_then_login (self : AuthManager.t) (email password token : string)
    (now1 now2 : Z) :
  UserTable.get_user_by_email (AuthManager.db self) email = None →
  (0 ≤ UserTable.users_seq (AuthManager.db self))%Z →
  token ≠ "" →
  let user_id := (UserTable.users_seq (AuthManager.db self) + 1)%Z in
  let registered := AuthManager.register_user sha256_hexdigest self email password now1 in
  let logged_in :=
    AuthManager.login_user sha256_hexdigest registered.2 email password token now2 in
  registered.1 = (true, "User registered successfully", Some user_id)
  ∧ logged_in.1 = (true, "Login successful", Some token, Some user_id)
  ∧ AuthManager.require_auth logged_in.2 (Some token) = (true, Some user_id, "Authenticated")
  ∧ AuthManager.is_authenticated logged_in.2 token = true
  ∧ (∀ other_password now3,
       AuthManager.register_user sha256_hexdigest registered.2 email other_password now3
       = ((false, "User with this email already exists", None), registered.2))
  ∧ (∀ other_password other_token now3,
       AuthManager.hash_password sha256_hexdigest other_password
         ≠ AuthManager.hash_password sha256_hexdigest password →
       AuthManager.login_user sha256_hexdigest registered.2 email other_password
         other_token now3
       = ((false, "Invalid email or password", None, None), registered.2)).
Proof.
  intros Hnone Hseq Htoken user_id registered logged_in.
  destruct (register_user_new self email password now1 Hnone) as [Hreg Hget].
  fold user_id in Hreg, Hget. subst logged_in registered. rewrite Hreg. cbn [fst snd].
  unfold AuthManager.login_user, AuthManager.register_user. cbn [AuthManager.db].
  rewrite Hget. cbn [UserRow.is_active UserRow.password_hash UserRow.id negb].
  rewrite decide_False by (by intros H; apply H).
  cbn [fst snd]. split; [done |]. split; [done |]. split; [| split; [| split]].
  - unfold AuthManager.require_auth, AuthManager.get_user_from_token.
    cbn [AuthManager.active_sessions].
    rewrite decide_False by done. rewrite lookup_insert_eq.
    rewrite decide_False by (unfold user_id; lia). done.
  - unfold AuthManager.is_authenticated. cbn [AuthManager.active_sessions].
    apply bool_decide_eq_true_2. apply elem_of_dom. rewrite lookup_insert_eq. by eexists.
  - done.
  - intros other_password other_token now3 Hne. by rewrite decide_True.
Qed.

(** X21: [logout_user] returns whether the token was a session; afterwards
    the token is no session and is refused by [require_auth], every other
    session is as before, the store is untouched, and a second logout
    returns false. *)
Theorem logout_user_spec (self : AuthManager.t) (token : string) :
  let out := AuthManager.logout_user self token in
  out.1 = AuthManager.is_authenticated self token
  ∧ AuthManager.is_authenticated out.2 token = false
  ∧ (AuthManager.require_auth out.2 (Some token)).1.1 = false
  ∧ (∀ other, other ≠ token →
       AuthManager.get_user_from_token out.2 other
       = AuthManager.get_user_from_token self other)
  ∧ AuthManager.db out.2 = AuthManager.db self
  ∧ AuthManager.logout_user out.2 token = (false, out.2).
Proof.
  cbv zeta. unfold AuthManager.logout_user, AuthManager.is_authenticated.
  destruct (decide (token ∈ dom (AuthManager.active_sessions self))) as [Hin|Hnot];
    cbn [fst snd AuthManager.active_sessions AuthManager.db].
  - assert (Hgone : token ∉ dom (delete token (AuthManager.active_sessions self))).
    { rewrite not_elem_of_dom. apply lookup_delete_eq. }
    split; [| split; [| split; [| split; [| split]]]].
    + by rewrite bool_decide_eq_true_2.
    + by rewrite bool_decide_eq_false_2.
    + unfold AuthManager.require_auth, AuthManager.get_user_from_token.
      cbn [AuthManager.active_sessions]. rewrite lookup_delete_eq. by case_decide.
    + intros other Hother. unfold AuthManager.get_user_from_token.
      cbn [AuthManager.active_sessions]. by rewrite lookup_delete_ne.
    + done.
    + by rewrite decide_False.
  - split; [| split; [| split; [| split; [| split]]]].
    + by rewrite bool_decide_eq_false_2.
    + by rewrite bool_decide_eq_false_2.
    + unfold AuthManager.require_auth, AuthManager.get_user_from_token.
      apply not_elem_of_dom in Hnot. rewrite Hnot. by case_decide.
    + done.
    + done.
    + by rewrite decide_False.
Qed.
End Authentication.

Lemma register_then_login_witness :
  let registered :=
    AuthManager.register_user plain_digest
      (AuthManager.init {| UserTable.users := []; UserTable.users_seq := 0 |})
      "ada@example.org" "secret" 1 in
  (AuthManager.login_user plain_digest registered.2 "ada@example.org" "secret" "token-1" 2).1
  = (true, "Login successful", Some "token-1", Some 1%Z).
Proof.
  destruct (register_then_login plain_digest
              (AuthManager.init {| UserTable.users := []; UserTable.users_seq := 0 |})
              "ada@example.org" "secret" "token-1" 1 2) as (_ & Hlogin & _).
  - reflexivity.
  - by vm_compute.
  - done.
  - exact Hlogin.
Defined.

(** ** The store: job listings and application history *)

Lemma length_filter_split {A} (P : A → Prop) `{∀ x, Decision (P x)} (l : list A) :
  length l = length (filter P l) + length (filter (λ x, ¬ P x) l).
Proof.
  induction l as [|x l IH]; [done |]. rewrite !filter_cons.
  destruct (decide (P x)); [rewrite decide_False by tauto | rewrite decide_True by done];
    cbn [length]; lia.
Qed.

Lemma filter_none {A} (P : A → Prop) `{∀ x, Decision (P x)} (l : list A) :
  (∀ x, x ∈ l → ¬ P x) → filter P l = [].
Proof.
  induction l as [|x l IH]; intros Hall; [done |].
  rewrite filter_cons_False by (apply Hall; left). apply IH.
  intros y Hy. apply Hall. by right.
Qed.

Lemma filter_filter_implied {A} (P Q : A → Prop) `{∀ x, Decision (P x)} `{∀ x, Decision (Q x)}
    (l : list A) :
  (∀ x, P x → Q x) → filter P (filter Q l) = filter P l.
Proof.
  intros Himp. induction l as [|x l IH]; [done |]. rewrite !filter_cons.
  destruct (decide (Q x)) as [Hq|Hq].
  - rewrite filter_cons. by rewrite IH.
  - rewrite IH. rewrite decide_False; [done |]. intros Hp. by apply Hq, Himp.
Qed.

(** X22: writing a job listing and reading it back by its id returns the
    data written, whether or not a listing with that id, active or not,
    was stored before; listings under other ids read as before.  The
    dictionary read back carries five keys beyond the job schema, so the
    [JobListing] constructor refuses it even when the data written is
    valid. *)
Theorem add_job_listing_round_trip (d : PersistentDatabase.t) (seq : Z) (job : JobData.t) :
  let d' := (JobListings.add_job_listing d seq job).2 in
  (∃ j, PersistentDatabase.get_job_by_id d' (JobData.job_id job) = Some j
        ∧ RawJob.job_id j = JobData.job_id job
        ∧ RawJob.company j = JobData.company job
        ∧ RawJob.role j = JobData.role job
        ∧ RawJob.location j = JobData.location job
        ∧ RawJob.required_skills j = JobData.required_skills job
        ∧ RawJob.min_experience_years j = JobData.min_experience_years job
        ∧ validate_job j = Raise (ValidationError "Extra inputs are not permitted"))
  ∧ (∀ other, other ≠ JobData.job_id job →
       PersistentDatabase.get_job_by_id d' other = PersistentDatabase.get_job_by_id d other)
  ∧ (JobListings.add_job_listing d seq job).1 = (seq + 1)%Z.
Proof.
  cbv zeta. unfold JobListings.add_job_listing, PersistentDatabase.get_job_by_id.
  cbn [snd fst PersistentDatabase.job_listings]. split; [| split; [| done]].
  - rewrite filter_app, filter_cons_True, filter_nil by done.
    rewrite filter_none.
    2: { intros r [Hr _]%list_elem_of_filter [Hid _]. done. }
    cbn [app]. eexists. split; [reflexivity |]. by split_and!.
  - intros other Hother.
    rewrite filter_app, filter_cons_False, filter_nil, app_nil_r.
    2: { cbn [JobRow.job_id]. intros [Hid _]. by apply Hother. }
    rewrite filter_filter_implied; [done |].
    intros r [Hid _]. by rewrite Hid.
Qed.

(** X23: [delete_application_history_entry] removes the rows that carry
    the given id and belong to the given user, and nothing else: rows of
    other users stay even under the same id, the result is true exactly
    when such a row existed, and a call that returns false leaves the
    store as it was. *)
Theorem delete_history_entry_spec (d : PersistentDatabase.t) (user_id history_id : Z) :
  let out := ApplicationHistory.delete_application_history_entry d user_id history_id in
  let rows := PersistentDatabase.application_history d in
  let rows' := PersistentDatabase.application_history out.2 in
  (∀ r, r ∈ rows' ↔
        r ∈ rows ∧ ¬ (HistoryRow.id r = history_id ∧ HistoryRow.user_id r = user_id))
  ∧ (∀ r, r ∈ rows → HistoryRow.user_id r ≠ user_id → r ∈ rows')
  ∧ (out.1 = true ↔
     ∃ r, r ∈ rows ∧ HistoryRow.id r = history_id ∧ HistoryRow.user_id r = user_id)
  ∧ (out.1 = false → out.2 = d).
Proof.
  cbv zeta. unfold ApplicationHistory.delete_application_history_entry.
  cbn [fst snd PersistentDatabase.set_history PersistentDatabase.application_history].
  set (rows := PersistentDatabase.application_history d).
  set (P := λ r, HistoryRow.id r = history_id ∧ HistoryRow.user_id r = user_id).
  pose proof (length_filter_split P rows) as Hlen.
  assert (Hiff : (0 < length rows - length (filter (λ r, ¬ P r) rows))%nat
                 ↔ ∃ r, r ∈ rows ∧ P r).
  { split.
    - intros Hpos. destruct (filter P rows) as [|r rest] eqn:Hf.
      + cbn [length] in Hlen. lia.
      + exists r. assert (r ∈ filter P rows) as Hin by (rewrite Hf; left).
        apply list_elem_of_filter in Hin. tauto.
    - intros (r & Hr & Hp).
      assert (r ∈ filter P rows) as Hin by by apply list_elem_of_filter.
      destruct (filter P rows); [by apply elem_of_nil in Hin |]. cbn [length] in Hlen. lia. }
  split; [| split; [| split]].
  - intros r. rewrite list_elem_of_filter. tauto.
  - intros r Hr Hu. apply list_elem_of_filter. split; [| done]. intros [_ Hu']. done.
  - rewrite bool_decide_eq_true. etransitivity; [exact Hiff |]. unfold P.
    split; intros (r & Hr & Hp); exists r; tauto.
  - rewrite bool_decide_eq_false. intros Hnone.
    assert (Hkept : filter (λ r, ¬ P r) rows = rows).
    { apply filter_all. intros r Hr Hp. apply Hnone, Hiff. by exists r. }
    unfold P in Hkept. rewrite Hkept. unfold rows. by destruct d.
Qed.

Lemma stats_loop (rows : list HistoryRow.t) (stats : gmap string nat) (status : string) :
  foldl (λ stats r,
      <[HistoryRow.status r := default 0 (stats !! HistoryRow.status r) + 1]> stats)
    stats rows !! status
  = match length (filter (λ r, HistoryRow.status r = status) rows) with
    | O => stats !! status
    | S n => Some (default 0 (stats !! status) + S n)
    end.
Proof.
  revert stats. induction rows as [|r rows IH]; intros stats; [done |].
  cbn [foldl]. rewrite IH, filter_cons.
  destruct (decide (HistoryRow.status r = status)) as [<-|Hne].
  - rewrite lookup_insert_eq. cbn [length default].
    destruct (length (filter _ rows)); unfold id; f_equal; lia.
  - by rewrite lookup_insert_ne.
Qed.

(** X24: the statistics of a user hold, for each status, the number of
    that user's history rows with the status, and no entry for a status
    without rows; rows of other users are not counted.  After
    [clear_user_application_history], which returns the number of the
    user's rows, the user's statistics are empty and those of every other
    user are as before. *)
Theorem application_stats_spec (d : PersistentDatabase.t) (user_id : Z) :
  let count u status :=
    length (filter (λ r, HistoryRow.user_id r = u ∧ HistoryRow.status r = status)
              (PersistentDatabase.application_history d)) in
  let cleared := ApplicationHistory.clear_user_application_history d user_id in
  (∀ status,
     ApplicationHistory.get_application_stats d user_id !! status
     = if decide (count user_id status = 0) then None else Some (count user_id status))
  ∧ cleared.1 = length (filter (λ r, HistoryRow.user_id r = user_id)
                          (PersistentDatabase.application_history d))
  ∧ ApplicationHistory.get_application_stats cleared.2 user_id = ∅
  ∧ (∀ other, other ≠ user_id →
       ApplicationHistory.get_application_stats cleared.2 other
       = ApplicationHistory.get_application_stats d other).
Proof.
  cbv zeta. unfold ApplicationHistory.get_application_stats,
    ApplicationHistory.clear_user_application_history.
  cbn [fst snd PersistentDatabase.set_history PersistentDatabase.application_history].
  set (rows := PersistentDatabase.application_history d).
  split; [| split; [| split]].
  - intros status. rewrite stats_loop, list_filter_filter, lookup_empty. cbn [default].
    rewrite (list_filter_iff _ (λ r, HistoryRow.user_id r = user_id
                                     ∧ HistoryRow.status r = status)) by (intros; tauto).
    destruct (length _) as [|n]; [done |]. rewrite decide_False by done. f_equal.
  - pose proof (length_filter_split (λ r, HistoryRow.user_id r = user_id) rows) as Hlen.
    lia.
  - rewrite filter_none; [done |]. intros r [Hr _]%list_elem_of_filter. done.
  - intros other Hother. rewrite filter_filter_implied; [done |]. intros r ->. done.
Qed.

Lemma get_application_stats_count (d : PersistentDatabase.t) (user_id : Z) (status : string) :
  default 0 (ApplicationHistory.get_application_stats d user_id !! status)
  = length (filter (λ r, HistoryRow.status r = status)
              (filter (λ r, HistoryRow.user_id r = user_id)
                 (PersistentDatabase.application_history d))).
Proof.
  unfold ApplicationHistory.get_application_stats. rewrite stats_loop, lookup_empty.
  by destruct (length _).
Qed.

(** The row [save_application_history] writes for an application. *)
Lemma save_application_history_loop (self : PersistentDatabase.t) (user_id run_id : Z)
    (applications : list Application.t) (db : PersistentDatabase.t) :
  let row (rowid : Z) (app : Application.t) :=
    let job_details := PersistentDatabase.get_job_by_id self (Application.job_id app) in
    {| HistoryRow.id := rowid; HistoryRow.user_id := user_id; HistoryRow.run_id := run_id;
       HistoryRow.job_id := Application.job_id app;
       HistoryRow.company :=
         PersistentDatabase.str_or (Application.company app)
           (from_option RawJob.company "Unknown" job_details);
       HistoryRow.role :=
         PersistentDatabase.str_or (Application.role app)
           (from_option RawJob.role "Unknown" job_details);
       HistoryRow.status := Application.status app;
       HistoryRow.skip_reason := Application.reason app;
       HistoryRow.receipt_id := Application.receipt_id app;
       HistoryRow.timestamp := Application.timestamp app |} in
  foldl (λ db app,
      let company := Application.company app in
      let role := Application.role app in
      let job_details := PersistentDatabase.get_job_by_id self (Application.job_id app) in
      let company :=
        PersistentDatabase.str_or company (from_option RawJob.company "Unknown" job_details) in
      let role :=
        PersistentDatabase.str_or role (from_option RawJob.role "Unknown" job_details) in
      let rowid := (PersistentDatabase.application_history_seq db + 1)%Z in
      PersistentDatabase.set_history db
        (PersistentDatabase.application_history db ++
           [{| HistoryRow.id := rowid; HistoryRow.user_id := user_id;
               HistoryRow.run_id := run_id;
               HistoryRow.job_id := Application.job_id app;
               HistoryRow.company := company; HistoryRow.role := role;
               HistoryRow.status := Application.status app;
               HistoryRow.skip_reason := Application.reason app;
               HistoryRow.receipt_id := Application.receipt_id app;
               HistoryRow.timestamp := Application.timestamp app |}])
        rowid)
    db applications
  = PersistentDatabase.set_history db
      (PersistentDatabase.application_history db ++
         imap (λ i app, row (PersistentDatabase.application_history_seq db + 1 + Z.of_nat i)%Z
                          app) applications)
      (PersistentDatabase.application_history_seq db + Z.of_nat (length applications))%Z.
Proof.
  intros row. revert db. induction applications as [|application rest IH]; intros db.
  - cbn [foldl imap length]. rewrite app_nil_r, Z.add_0_r. by destruct db.
  - cbn [foldl]. rewrite IH. unfold PersistentDatabase.set_history.
    cbn [PersistentDatabase.application_history PersistentDatabase.application_history_seq
         PersistentDatabase.job_listings PersistentDatabase.autopilot_runs
         PersistentDatabase.autopilot_runs_seq PersistentDatabase.draft_artifacts
         PersistentDatabase.artifact_snapshots imap length].
    rewrite <- app_assoc. cbn [app]. f_equal; [| lia]. f_equal. f_equal.
    + unfold row. f_equal. lia.
    + apply imap_ext. intros i x _. unfold row. cbn. f_equal. lia.
Qed.

Lemma stats_of_new_rows (applications : list Application.t) (rows : list HistoryRow.t)
    (user_id : Z) (status : string) :
  Forall2 (λ app r, HistoryRow.user_id r = user_id
                    ∧ HistoryRow.status r = Application.status app) applications rows →
  length (filter (λ r, HistoryRow.status r = status)
            (filter (λ r, HistoryRow.user_id r = user_id) rows))
  = length (filter (λ app, Application.status app = status) applications).
Proof.
  induction 1 as [|a r apps rows [Hu Hs] _ IH]; [done |].
  rewrite (filter_cons (λ r, HistoryRow.user_id r = user_id) r), decide_True by done.
  rewrite (filter_cons _ r), (filter_cons _ a), Hs.
  destruct (decide (Application.status a = status)); cbn [length]; by rewrite IH.
Qed.

(** X25: [save_application_history] appends one row per application, in
    order, under fresh consecutive ids; each row carries the user, the
    run and the application's job id, status, reason, receipt and
    timestamp; an application without company or role takes them from
    the active listing of its job, or reads "Unknown" when there is none.
    Nothing else in the store changes, and the user's statistics grow, for
    each status, by the number of applications with that status. *)
Theorem save_application_history_spec (d : PersistentDatabase.t) (user_id run_id : Z)
    (applications : list Application.t) :
  let d' := PersistentDatabase.save_application_history d user_id run_id applications in
  let first := (PersistentDatabase.application_history_seq d + 1)%Z in
  ∃ new,
    PersistentDatabase.application_history d' = PersistentDatabase.application_history d ++ new
    ∧ Forall2 (λ app r,
          HistoryRow.user_id r = user_id ∧ HistoryRow.run_id r = run_id
          ∧ HistoryRow.job_id r = Application.job_id app
          ∧ HistoryRow.status r = Application.status app
          ∧ HistoryRow.skip_reason r = Application.reason app
          ∧ HistoryRow.receipt_id r = Application.receipt_id app
          ∧ HistoryRow.timestamp r = Application.timestamp app
          ∧ HistoryRow.company r
            = PersistentDatabase.str_or (Application.company app)
                (from_option RawJob.company "Unknown"
                   (PersistentDatabase.get_job_by_id d (Application.job_id app))))
        applications new
    ∧ map HistoryRow.id new
      = map (λ i, (first + Z.of_nat i)%Z) (seq 0 (length applications))
    ∧ PersistentDatabase.application_history_seq d'
      = (PersistentDatabase.application_history_seq d + Z.of_nat (length applications))%Z
    ∧ PersistentDatabase.job_listings d' = PersistentDatabase.job_listings d
    ∧ PersistentDatabase.autopilot_runs d' = PersistentDatabase.autopilot_runs d
    ∧ PersistentDatabase.artifact_snapshots d' = PersistentDatabase.artifact_snapshots d
    ∧ PersistentDatabase.draft_artifacts d' = PersistentDatabase.draft_artifacts d
    ∧ ∀ status,
        default 0 (ApplicationHistory.get_application_stats d' user_id !! status)
        = default 0 (ApplicationHistory.get_application_stats d user_id !! status)
          + length (filter (λ app, Application.status app = status) applications).
Proof.
  cbv zeta. unfold PersistentDatabase.save_application_history.
  rewrite save_application_history_loop.
  set (new := imap _ applications).
  assert (Hall : ∀ (k : nat → Z) apps,
    Forall2 (λ app r,
        HistoryRow.user_id r = user_id ∧ HistoryRow.run_id r = run_id
        ∧ HistoryRow.job_id r = Application.job_id app
        ∧ HistoryRow.status r = Application.status app
        ∧ HistoryRow.skip_reason r = Application.reason app
        ∧ HistoryRow.receipt_id r = Application.receipt_id app
        ∧ HistoryRow.timestamp r = Application.timestamp app
        ∧ HistoryRow.company r
          = PersistentDatabase.str_or (Application.company app)
              (from_option RawJob.company "Unknown"
                 (PersistentDatabase.get_job_by_id d (Application.job_id app))))
      apps
      (imap (λ i app,
         {| HistoryRow.id := k i; HistoryRow.user_id := user_id; HistoryRow.run_id := run_id;
            HistoryRow.job_id := Application.job_id app;
            HistoryRow.company :=
              PersistentDatabase.str_or (Application.company app)
                (from_option RawJob.company "Unknown"
                   (PersistentDatabase.get_job_by_id d (Application.job_id app)));
            HistoryRow.role :=
              PersistentDatabase.str_or (Application.role app)
                (from_option RawJob.role "Unknown"
                   (PersistentDatabase.get_job_by_id d (Application.job_id app)));
            HistoryRow.status := Application.status app;
            HistoryRow.skip_reason := Application.reason app;
            HistoryRow.receipt_id := Application.receipt_id app;
            HistoryRow.timestamp := Application.timestamp app |}) apps)).
  { intros k apps. revert k. induction apps as [|app apps IH]; intros k; [constructor |].
    cbn [imap]. constructor; [by split_and! | apply (IH (k ∘ S))]. }
  assert (Hids : ∀ (k : nat → Z) apps,
    map HistoryRow.id
      (imap (λ i app,
         {| HistoryRow.id := k i; HistoryRow.user_id := user_id; HistoryRow.run_id := run_id;
            HistoryRow.job_id := Application.job_id app;
            HistoryRow.company :=
              PersistentDatabase.str_or (Application.company app)
                (from_option RawJob.company "Unknown"
                   (PersistentDatabase.get_job_by_id d (Application.job_id app)));
            HistoryRow.role :=
              PersistentDatabase.str_or (Application.role app)
                (from_option RawJob.role "Unknown"
                   (PersistentDatabase.get_job_by_id d (Application.job_id app)));
            HistoryRow.status := Application.status app;
            HistoryRow.skip_reason := Application.reason app;
            HistoryRow.receipt_id := Application.receipt_id app;
            HistoryRow.timestamp := Application.timestamp app |}) apps)
    = map k (seq 0 (length apps))).
  { intros k apps. revert k. induction apps as [|app apps IH]; intros k; [done |].
    cbn [imap length seq]. rewrite !map_cons. cbn [HistoryRow.id]. f_equal.
    etransitivity; [apply (IH (k ∘ S)) |]. rewrite <- seq_shift, map_map. done. }
  exists new. cbn [PersistentDatabase.set_history PersistentDatabase.application_history
    PersistentDatabase.application_history_seq PersistentDatabase.job_listings
    PersistentDatabase.autopilot_runs PersistentDatabase.artifact_snapshots
    PersistentDatabase.draft_artifacts].
  split; [done |]. split; [apply Hall |]. split; [apply Hids |].
  split; [done |]. split; [done |]. split; [done |]. split; [done |]. split; [done |].
  intros status. rewrite !get_application_stats_count.
  cbn [PersistentDatabase.set_history PersistentDatabase.application_history].
  rewrite !filter_app, length_app. f_equal.
  apply stats_of_new_rows.
  eapply Forall2_impl; [apply Hall |]. intros a r (Hu & _ & _ & Hs & _). by split.
Qed.

(** ** The artifact generator and the way to the engine *)

Lemma foldl_snoc_map {A B} (f : A → B) (l : list A) (acc : list B) :
  foldl (λ acc x, acc ++ [f x]) acc l = acc ++ map f l.
Proof.
  revert acc. induction l as [|x l IH]; intros acc; [by rewrite app_nil_r |].
  cbn [foldl map]. by rewrite IH, <- app_assoc.
Qed.

Lemma validate_student_raw_verified student_data student :
  validate_student student_data = Ok student →
  ∀ raw, raw ∈ RawPack.all_bullets student_data →
         RawBullet.verified raw = Some (PyBool true).
Proof.
  intros (_ & _ & _ & (ps & Hps & Hvalid) & _)%validate_student_ok raw.
  unfold RawPack.all_bullets. rewrite Hps. cbn [default].
  rewrite list_elem_of_In, in_concat. intros (bs & Hbs & Hraw).
  apply in_map_iff in Hbs as (p & <- & Hp). apply list_elem_of_In in Hp, Hraw.
  apply list_elem_of_lookup in Hp as [i Hi].
  destruct (Forall2_lookup_l _ _ _ _ _ Hvalid Hi) as (project & _ & Hproj).
  apply validate_project_ok in Hproj as (bs & Hbs & Hall). rewrite Hbs in Hraw.
  cbn [default] in Hraw. apply list_elem_of_lookup in Hraw as [j Hj].
  destruct (Forall2_lookup_l _ _ _ _ _ Hall Hj) as (bullet & _ & Hb).
  by apply validate_bullet_ok in Hb as (? & _).
Qed.

Section Generator.
Variable sha256_hexdigest : string → string.

(** The bullet the generator writes for a project. *)
Lemma converted_projects (profile : UserProfileSchema.UserProfile.t) :
  RawPack.projects (ArtifactGenerator._convert_to_student_artifact_pack sha256_hexdigest profile)
  = Some (map (λ project,
            {| RawProject.name := UserProfileSchema.Project.name project;
               RawProject.description := UserProfileSchema.Project.description project;
               RawProject.skills := UserProfileSchema.Project.skills project;
               RawProject.bullets :=
                 Some [{| RawBullet.description :=
                            Some (UserProfileSchema.Project.description project);
                          RawBullet.skills :=
                            take 3 (UserProfileSchema.Project.skills project);
                          RawBullet.verified := Some (PyBool false);
                          RawBullet.proofs := None |}] |})
            (UserProfileSchema.UserProfile.projects profile)).
Proof.
  unfold ArtifactGenerator._convert_to_student_artifact_pack. cbn [RawPack.projects].
  f_equal. exact (foldl_snoc_map _ _ []).
Qed.

Lemma converted_bullets (profile : UserProfileSchema.UserProfile.t) :
  RawPack.all_bullets
    (ArtifactGenerator._convert_to_student_artifact_pack sha256_hexdigest profile)
  = map (λ project,
       {| RawBullet.description := Some (UserProfileSchema.Project.description project);
          RawBullet.skills := take 3 (UserProfileSchema.Project.skills project);
          RawBullet.verified := Some (PyBool false);
          RawBullet.proofs := None |})
      (UserProfileSchema.UserProfile.projects profile).
Proof.
  unfold RawPack.all_bullets. rewrite converted_projects.
  cbn [default from_option]. unfold id. rewrite map_map.
  cbn [RawProject.bullets default from_option]. unfold id.
  induction (UserProfileSchema.UserProfile.projects profile) as [|p ps IH]; [done |].
  cbn [map concat app]. by rewrite IH.
Qed.

(** X26: whatever the profile, the pack the generator writes holds one
    bullet per project, with the project's description, its first three
    skills at most, no proofs and verified false.  The [DraftArtifactPack]
    constructor accepts the pack as a draft; as soon as the profile has a
    project, the [ArtifactSnapshot] constructor and the engine's
    [StudentArtifactPack] schema both refuse it. *)
Theorem generated_pack_is_a_draft (profile : UserProfileSchema.UserProfile.t)
    (created_at : Z) (source_profile_hash : string) :
  let pack := ArtifactGenerator._convert_to_student_artifact_pack sha256_hexdigest profile in
  length (RawPack.all_bullets pack) = length (UserProfileSchema.UserProfile.projects profile)
  ∧ (∀ bullet, bullet ∈ RawPack.all_bullets pack →
       RawBullet.verified bullet = Some (PyBool false) ∧ RawBullet.proofs bullet = None
       ∧ (length (RawBullet.skills bullet) ≤ 3)%nat
       ∧ ∃ project, project ∈ UserProfileSchema.UserProfile.projects profile
           ∧ RawBullet.description bullet
             = Some (UserProfileSchema.Project.description project)
           ∧ RawBullet.skills bullet = take 3 (UserProfileSchema.Project.skills project))
  ∧ DraftArtifactPack.new id pack "DRAFT" created_at source_profile_hash
    = Ok {| DraftArtifactPack.student_artifact_pack := pack;
            DraftArtifactPack.status := "DRAFT";
            DraftArtifactPack.created_at := created_at;
            DraftArtifactPack.source_profile_hash := source_profile_hash |}
  ∧ (UserProfileSchema.UserProfile.projects profile ≠ [] →
     (∀ sid user_id approved_at h1 h2 frozen md,
        is_ok (ArtifactSnapshot.new id sid user_id pack approved_at h1 h2 frozen md) = false)
     ∧ is_ok (validate_student pack) = false).
Proof.
  intros pack.
  assert (Hb : ∀ bullet, bullet ∈ RawPack.all_bullets pack →
    ∃ project, project ∈ UserProfileSchema.UserProfile.projects profile
      ∧ bullet = {| RawBullet.description :=
                      Some (UserProfileSchema.Project.description project);
                    RawBullet.skills := take 3 (UserProfileSchema.Project.skills project);
                    RawBullet.verified := Some (PyBool false);
                    RawBullet.proofs := None |}).
  { intros bullet. unfold pack. rewrite converted_bullets, list_elem_of_In, in_map_iff.
    intros (project & <- & Hin%list_elem_of_In). by exists project. }
  split; [| split; [| split]].
  - unfold pack. by rewrite converted_bullets, length_map.
  - intros bullet (project & Hp & ->)%Hb. cbn. split_and!; try done.
    + rewrite length_take. lia.
    + by exists project.
  - unfold DraftArtifactPack.new. rewrite validate_no_verified_bullets_find.
    rewrite find_none_forall; [done |].
    intros bullet (project & _ & ->)%Hb. done.
  - intros Hne. split.
    + intros sid user_id approved_at h1 h2 frozen md.
      destruct (ArtifactSnapshot.new _ _ _ _ _ _ _ _ _) as [s|] eqn:Hnew; [| done].
      pose proof (snapshot_new_ok_verified id _ _ _ _ _ _ _ _ _ Hnew) as Hver.
      destruct (RawPack.all_bullets pack) as [|b bs] eqn:Hall.
      { apply (f_equal length) in Hall. unfold pack in Hall.
        rewrite converted_bullets, length_map in Hall.
        by destruct (UserProfileSchema.UserProfile.projects profile). }
      specialize (Hver b ltac:(left)).
      destruct (Hb b ltac:(left)) as (project & _ & ->). done.
    + destruct (validate_student pack) as [student|] eqn:Hval; [| done].
      exfalso.
      assert (Hall : RawPack.all_bullets pack ≠ []).
      { unfold pack. rewrite converted_bullets.
        by destruct (UserProfileSchema.UserProfile.projects profile). }
      destruct (RawPack.all_bullets pack) as [|b bs] eqn:Hbs; [done |].
      pose proof (validate_student_raw_verified _ _ Hval) as Hv.
      rewrite Hbs in Hv. specialize (Hv b ltac:(left)).
      destruct (Hb b ltac:(left)) as (project & _ & ->). done.
Qed.
End Generator.

(** X27: [_apply_user_verifications] raises, before it writes anything,
    exactly when some entry of the confirmation lacks [bullet_id] or
    [verified] or has an id that cannot be hashed; otherwise it returns the
    pack it was given and writes nothing but verified flags: every bullet
    in memory keeps its description, skills and proofs, and a bullet that is
    not in the pack is left as it was. *)
Theorem apply_user_verifications_frame (pack : RawPack.t nat)
    (confirmation : UserConfirmation.t) (h : gmap nat RawBullet.t) :
  match ApprovalService._apply_user_verifications pack confirmation h with
  | Ok out =>
      Forall has_verification (UserConfirmation.bullets_verified confirmation)
      ∧ out.1 = pack
      ∧ (∀ l, RawBullet.description (out.2 !!! l) = RawBullet.description (h !!! l)
              ∧ RawBullet.skills (out.2 !!! l) = RawBullet.skills (h !!! l)
              ∧ RawBullet.proofs (out.2 !!! l) = RawBullet.proofs (h !!! l))
      ∧ (∀ l, l ∉ RawPack.all_bullets pack → out.2 !!! l = h !!! l)
  | Raise _ => ¬ Forall has_verification (UserConfirmation.bullets_verified confirmation)
  end.
Proof.
  destruct (ApprovalService._apply_user_verifications pack confirmation h)
    as [[pack' h']|e] eqn:Happly.
  - cbn [fst snd]. split_and!.
    + unfold ApprovalService._apply_user_verifications,
        ApprovalService.verification_lookup_of in Happly.
      pose proof (verification_lookup_loop
                    (UserConfirmation.bullets_verified confirmation) ∅) as Hlookup.
      destruct (for_each _ (UserConfirmation.bullets_verified confirmation) ∅); [| done].
      by destruct Hlookup.
    + by apply (apply_user_verifications_invariant (λ _, True) pack pack' confirmation h h').
    + intros l.
      apply (apply_user_verifications_invariant
               (λ h', RawBullet.description (h' !!! l) = RawBullet.description (h !!! l)
                      ∧ RawBullet.skills (h' !!! l) = RawBullet.skills (h !!! l)
                      ∧ RawBullet.proofs (h' !!! l) = RawBullet.proofs (h !!! l))
               pack pack' confirmation h h'); [| done | done].
      intros h0 bullet v _ _ (Hd & Hs & Hp).
      destruct (set_verified_lookup h0 bullet l v) as (Hd' & Hs' & Hp' & _).
      by rewrite Hd', Hs', Hp'.
    + intros l Hl.
      apply (apply_user_verifications_invariant (λ h', h' !!! l = h !!! l)
               pack pack' confirmation h h'); [| done | done].
      intros h0 bullet v Hb _ Hh0.
      destruct (set_verified_lookup h0 bullet l v) as (_ & _ & _ & Hne & _).
      rewrite Hne; [done |]. by intros ->.
  - unfold ApprovalService._apply_user_verifications,
      ApprovalService.verification_lookup_of in Happly.
    pose proof (verification_lookup_loop
                  (UserConfirmation.bullets_verified confirmation) ∅) as Hlookup.
    by destruct (for_each _ (UserConfirmation.bullets_verified confirmation) ∅).
Qed.

Lemma for_each_unit_all {A} (f : A → result unit) (l : list A) :
  Forall (λ x, f x = Ok ()) l → for_each (λ _ x, f x) l () = Ok ().
Proof.
  induction 1 as [|x l Hx _ IH]; [done |]. cbn [for_each]. by rewrite Hx.
Qed.

Lemma validate_list_map {A B C} (f : B → result C) (g : A → B) (k : A → C) (l : list A) :
  (∀ x, f (g x) = Ok (k x)) → validate_list f (map g l) = Ok (map k l).
Proof.
  intros Hx. induction l as [|x l IH]; [done |]. cbn [validate_list map].
  by rewrite Hx, IH.
Qed.

(** The generated pack once every bullet is verified, and the pack the
    execution schema builds from it. *)
Lemma validate_student_of_approved (h : string) (vocab : list string)
    (education : list Education.t) (projects : list UserProfileSchema.Project.t)
    (constraints : option Constraints.t) :
  NoDup vocab →
  (∀ project s, project ∈ projects → s ∈ UserProfileSchema.Project.skills project →
                s ∈ vocab) →
  validate_student
    {| RawPack.source_resume_hash := Some h;
       RawPack.skill_vocab := Some vocab;
       RawPack.education := Some education;
       RawPack.projects :=
         Some (map (λ project,
                 {| RawProject.name := UserProfileSchema.Project.name project;
                    RawProject.description := UserProfileSchema.Project.description project;
                    RawProject.skills := UserProfileSchema.Project.skills project;
                    RawProject.bullets :=
                      Some [{| RawBullet.description :=
                                 Some (UserProfileSchema.Project.description project);
                               RawBullet.skills :=
                                 take 3 (UserProfileSchema.Project.skills project);
                               RawBullet.verified := Some (PyBool true);
                               RawBullet.proofs := None |}] |}) projects);
       RawPack.constraints := constraints |}
  = Ok {| StudentArtifactPack.source_resume_hash := h;
          StudentArtifactPack.skill_vocab := vocab;
          StudentArtifactPack.education := education;
          StudentArtifactPack.projects :=
            map (λ project,
              {| Project.name := UserProfileSchema.Project.name project;
                 Project.description := UserProfileSchema.Project.description project;
                 Project.skills := UserProfileSchema.Project.skills project;
                 Project.bullets :=
                   [{| Bullet.description := UserProfileSchema.Project.description project;
                       Bullet.skills := take 3 (UserProfileSchema.Project.skills project);
                       Bullet.verified := true;
                       Bullet.proofs := None |}] |}) projects;
          StudentArtifactPack.constraints := constraints |}.
Proof.
  intros Hnd Hskills. unfold validate_student.
  cbn [RawPack.source_resume_hash RawPack.skill_vocab RawPack.education RawPack.projects
       RawPack.constraints].
  unfold check_skill_vocab_unique.
  rewrite decide_False by (rewrite size_list_to_set by done; lia).
  cbn [mbind result_bind].
  rewrite (validate_list_map validate_project _
             (λ project,
                {| Project.name := UserProfileSchema.Project.name project;
                   Project.description := UserProfileSchema.Project.description project;
                   Project.skills := UserProfileSchema.Project.skills project;
                   Project.bullets :=
                     [{| Bullet.description := UserProfileSchema.Project.description project;
                         Bullet.skills := take 3 (UserProfileSchema.Project.skills project);
                         Bullet.verified := true;
                         Bullet.proofs := None |}] |})) by done.
  cbn [mbind result_bind]. unfold validate_all_skills_and_bullets.
  cbn [StudentArtifactPack.skill_vocab StudentArtifactPack.projects].
  rewrite for_each_unit_all; [done |].
  apply Forall_forall. intros p (project & <- & Hp%list_elem_of_In)%list_elem_of_In%in_map_iff.
  cbn [Project.skills Project.bullets Project.name].
  assert (Hin : ∀ s, s ∈ UserProfileSchema.Project.skills project →
                     s ∈ (list_to_set vocab : gset string)).
  { intros s Hs. apply elem_of_list_to_set. by apply (Hskills project). }
  match goal with
  | |- context [for_each ?f (UserProfileSchema.Project.skills project) ()] =>
      assert (for_each f (UserProfileSchema.Project.skills project) () = Ok ()) as ->
  end.
  { apply (for_each_unit_all (λ ps, if decide (ps ∉ (list_to_set vocab : gset string))
                                    then Raise _ else Ok ())).
    apply Forall_forall. intros s Hs. cbn beta.
    rewrite decide_False; [done |]. intros Hn. by apply Hn, Hin. }
  cbn [mbind result_bind for_each Bullet.skills].
  match goal with
  | |- context [for_each ?f (take 3 (UserProfileSchema.Project.skills project)) ()] =>
      assert (for_each f (take 3 (UserProfileSchema.Project.skills project)) () = Ok ()) as ->
  end.
  { apply (for_each_unit_all (λ bs, if decide (bs ∉ (list_to_set vocab : gset string))
                                    then Raise _ else Ok ())).
    apply Forall_forall. intros s Hs. cbn beta.
    rewrite decide_False; [done |]. intros Hn. apply Hn, Hin.
    by apply (subseteq_take 3). }
  done.
Qed.

(** The projects of a generated pack held in memory, read after every one
    of its bullets became verified. *)
Lemma resolve_projects_verified (h h' : gmap nat RawBullet.t)
    (ps : list (RawProject.t nat)) (projects : list UserProfileSchema.Project.t) :
  (∀ l, l ∈ concat (map (λ p : RawProject.t nat, default [] (RawProject.bullets p)) ps) →
        RawBullet.description (h' !!! l) = RawBullet.description (h !!! l)
        ∧ RawBullet.skills (h' !!! l) = RawBullet.skills (h !!! l)
        ∧ RawBullet.proofs (h' !!! l) = RawBullet.proofs (h !!! l)
        ∧ RawBullet.verified (h' !!! l) = Some (PyBool true)) →
  map (resolve_project h) ps
  = map (λ project,
       {| RawProject.name := UserProfileSchema.Project.name project;
          RawProject.description := UserProfileSchema.Project.description project;
          RawProject.skills := UserProfileSchema.Project.skills project;
          RawProject.bullets :=
            Some [{| RawBullet.description :=
                       Some (UserProfileSchema.Project.description project);
                     RawBullet.skills := take 3 (UserProfileSchema.Project.skills project);
                     RawBullet.verified := Some (PyBool false);
                     RawBullet.proofs := None |}] |}) projects →
  map (resolve_project h') ps
  = map (λ project,
       {| RawProject.name := UserProfileSchema.Project.name project;
          RawProject.description := UserProfileSchema.Project.description project;
          RawProject.skills := UserProfileSchema.Project.skills project;
          RawProject.bullets :=
            Some [{| RawBullet.description :=
                       Some (UserProfileSchema.Project.description project);
                     RawBullet.skills := take 3 (UserProfileSchema.Project.skills project);
                     RawBullet.verified := Some (PyBool true);
                     RawBullet.proofs := None |}] |}) projects.
Proof.
  revert projects. induction ps as [|p ps IH]; intros projects Hcells Hmap.
  - by destruct projects.
  - destruct projects as [|project projects]; [done |].
    rewrite !map_cons in Hmap. injection Hmap as Hname Hdesc Hskills Hb Hrest.
    rewrite !map_cons. f_equal.
    + unfold resolve_project. rewrite Hname, Hdesc, Hskills. f_equal.
      destruct (RawProject.bullets p) as [[|l [|l' bs]]|] eqn:Hbs; try done.
      cbn [fmap option_fmap option_map map] in Hb |- *. injection Hb as Hl.
      destruct (Hcells l) as (Hd & Hs & Hpr & Hv).
      { rewrite map_cons, concat_cons, Hbs. cbn [default from_option]. unfold id.
        apply elem_of_app. left. left. }
      rewrite Hl in Hd, Hs, Hpr.
      cbn [RawBullet.description RawBullet.skills RawBullet.proofs] in Hd, Hs, Hpr.
      do 2 f_equal. destruct (h' !!! l).
      cbn [RawBullet.description RawBullet.skills RawBullet.proofs RawBullet.verified]
        in Hd, Hs, Hpr, Hv. by subst.
    + apply IH; [| done]. intros l Hl. apply Hcells.
      rewrite map_cons, concat_cons. apply elem_of_app. by right.
Qed.

Section GeneratedToEngine.
Variable sha256_hexdigest : string → string.
Variable isoformat : Z → string.

(** X28: a generated pack that went through an approval with boolean
    flags is valid engine input.  When the profile's vocabulary has no
    repetition and holds every project skill (the two checks of the
    [UserProfile] schema), the draft in memory reads as the pack generated
    from the profile, and every entry of the confirmation carries a boolean
    under [verified], every approval that returns has stored a pack that
    the engine's [StudentArtifactPack] schema accepts, with the profile's
    vocabulary, one verified bullet per project and the profile's
    constraints. *)
Theorem approved_generated_pack_validates (profile : UserProfileSchema.UserProfile.t)
    (draft : DraftArtifactPack.t nat) (confirmation : UserConfirmation.t) (user_id : Z)
    (snapshot_id : string) (utcnow now : Z) (w w' : world)
    (snapshot : ArtifactSnapshot.t nat) :
  NoDup (UserProfileSchema.UserProfile.skill_vocab profile) →
  (∀ project s, project ∈ UserProfileSchema.UserProfile.projects profile →
                s ∈ UserProfileSchema.Project.skills project →
                s ∈ UserProfileSchema.UserProfile.skill_vocab profile) →
  resolve (mem w) (DraftArtifactPack.student_artifact_pack draft)
    = ArtifactGenerator._convert_to_student_artifact_pack sha256_hexdigest profile →
  Forall boolean_verification (UserConfirmation.bullets_verified confirmation) →
  ApprovalService.submit_for_approval sha256_hexdigest isoformat
    draft confirmation user_id snapshot_id utcnow now w = (Ok snapshot, w') →
  ∃ row student,
    PersistentDatabase.artifact_snapshots (db w')
      = PersistentDatabase.artifact_snapshots (db w) ++ [row]
    ∧ validate_student (SnapshotRow.student_artifact_pack row) = Ok student
    ∧ StudentArtifactPack.skill_vocab student
      = UserProfileSchema.UserProfile.skill_vocab profile
    ∧ map Project.name (StudentArtifactPack.projects student)
      = map UserProfileSchema.Project.name (UserProfileSchema.UserProfile.projects profile)
    ∧ (∀ project, project ∈ StudentArtifactPack.projects student →
                  length (Project.bullets project) = 1)
    ∧ (∃ c, StudentArtifactPack.constraints student = Some c
            ∧ Constraints.min_match_score c
              = UserProfileSchema.Constraints.min_match_score
                  (UserProfileSchema.UserProfile.constraints profile)
            ∧ Constraints.max_apps_per_day c
              = UserProfileSchema.Constraints.max_apps_per_day
                  (UserProfileSchema.UserProfile.constraints profile)).
Proof.
  intros Hnd Hskills Hmem Hbool Hcall.
  destruct (submit_for_approval_ok _ _ _ _ _ _ _ _ _ _ _ Hcall)
    as (hash & modified_bullets & _ & Happly & _ & Hhash & Hnew & _ & ->).
  set (pack := DraftArtifactPack.student_artifact_pack draft) in *.
  pose proof (snapshot_new_ok_verified _ _ _ _ _ _ _ _ _ _ Hnew) as Hver.
  assert (Hframe : ∀ l,
    RawBullet.description (mem w' !!! l) = RawBullet.description (mem w !!! l)
    ∧ RawBullet.skills (mem w' !!! l) = RawBullet.skills (mem w !!! l)
    ∧ RawBullet.proofs (mem w' !!! l) = RawBullet.proofs (mem w !!! l)).
  { intros l.
    apply (apply_user_verifications_invariant
             (λ h', RawBullet.description (h' !!! l) = RawBullet.description (mem w !!! l)
                    ∧ RawBullet.skills (h' !!! l) = RawBullet.skills (mem w !!! l)
                    ∧ RawBullet.proofs (h' !!! l) = RawBullet.proofs (mem w !!! l))
             pack pack confirmation (mem w) (mem w')); [| done | done].
    intros h0 bullet v _ _ (Hd & Hs & Hp).
    destruct (set_verified_lookup h0 bullet l v) as (Hd' & Hs' & Hp' & _).
    by rewrite Hd', Hs', Hp'. }
  assert (Hinit : ∀ l, l ∈ RawPack.all_bullets pack →
                       ∃ b, RawBullet.verified (mem w !!! l) = Some (PyBool b)).
  { intros l Hl. exists false.
    assert (Hin : mem w !!! l ∈ RawPack.all_bullets (resolve (mem w) pack)).
    { rewrite all_bullets_resolve. apply list_elem_of_In.
      apply (in_map (λ l, mem w !!! l)). by apply list_elem_of_In. }
    rewrite Hmem, converted_bullets in Hin.
    apply list_elem_of_In, in_map_iff in Hin as (project & <- & _). done. }
  pose proof (apply_user_verifications_booleans _ _ _ _ _ Hbool Hinit Happly) as Hflags.
  eexists _, _. split; [reflexivity |]. cbn [SnapshotRow.student_artifact_pack].
  assert (Hstored : resolve (mem w') pack
    = {| RawPack.source_resume_hash := RawPack.source_resume_hash pack;
         RawPack.skill_vocab := Some (UserProfileSchema.UserProfile.skill_vocab profile);
         RawPack.education := RawPack.education pack;
         RawPack.projects :=
           Some (map (λ project,
                   {| RawProject.name := UserProfileSchema.Project.name project;
                      RawProject.description := UserProfileSchema.Project.description project;
                      RawProject.skills := UserProfileSchema.Project.skills project;
                      RawProject.bullets :=
                        Some [{| RawBullet.description :=
                                   Some (UserProfileSchema.Project.description project);
                                 RawBullet.skills :=
                                   take 3 (UserProfileSchema.Project.skills project);
                                 RawBullet.verified := Some (PyBool true);
                                 RawBullet.proofs := None |}] |})
                   (UserProfileSchema.UserProfile.projects profile));
         RawPack.constraints := RawPack.constraints pack |}).
  { pose proof (f_equal RawPack.projects Hmem) as Hps.
    pose proof (f_equal RawPack.skill_vocab Hmem) as Hvocab.
    rewrite converted_projects in Hps. unfold resolve in *.
    cbn [RawPack.projects RawPack.skill_vocab] in Hps, Hvocab.
    unfold ArtifactGenerator._convert_to_student_artifact_pack in Hvocab.
    cbn [RawPack.skill_vocab] in Hvocab. rewrite Hvocab. f_equal.
    destruct (RawPack.projects pack) as [ps|] eqn:Hpack; [| done].
    cbn [fmap option_fmap option_map] in *. injection Hps as Hps. f_equal.
    apply (resolve_projects_verified (mem w)); [| done].
    intros l Hl. destruct (Hframe l) as (Hd & Hs & Hp). split_and!; try done.
    assert (Hin : l ∈ RawPack.all_bullets pack).
    { unfold RawPack.all_bullets. by rewrite Hpack. }
    specialize (Hver l Hin). destruct (Hflags l Hin) as [b Hb].
    unfold is_verified, RawBullet.get_verified in Hver. cbn beta in Hver.
    rewrite Hb in Hver. simpl in Hver. by rewrite Hver in Hb. }
  rewrite Hstored.
  pose proof (f_equal RawPack.education Hmem) as Hedu.
  pose proof (f_equal RawPack.constraints Hmem) as Hcons.
  unfold resolve, ArtifactGenerator._convert_to_student_artifact_pack in Hedu, Hcons.
  cbn [RawPack.education RawPack.constraints] in Hedu, Hcons.
  rewrite Hhash, Hedu, Hcons.
  split; [by apply validate_student_of_approved |].
  cbn [StudentArtifactPack.skill_vocab StudentArtifactPack.projects
       StudentArtifactPack.constraints].
  split; [done |]. split; [by rewrite map_map |]. split.
  - intros project (p & <- & _)%list_elem_of_In%in_map_iff. done.
  - eexists. split; [reflexivity |]. done.
Qed.
End GeneratedToEngine.

Lemma approved_generated_pack_validates_witness :
  ∃ snapshot w' row student,
    ApprovalService.submit_for_approval plain_digest plain_time generated_draft
      first_bullet_confirmation 7 "snap-1" 10 11
      {| mem := generated_heap; db := empty_database |} = (Ok snapshot, w')
    ∧ PersistentDatabase.artifact_snapshots (db w') = [row]
    ∧ validate_student (SnapshotRow.student_artifact_pack row) = Ok student
    ∧ StudentArtifactPack.skill_vocab student = ["python"; "sql"].
Proof.
  assert (Hr : ∃ snapshot w',
    ApprovalService.submit_for_approval plain_digest plain_time generated_draft
      first_bullet_confirmation 7 "snap-1" 10 11
      {| mem := generated_heap; db := empty_database |} = (Ok snapshot, w')).
  { vm_compute. eexists _, _. reflexivity. }
  destruct Hr as (snapshot & w' & Hcall).
  destruct (approved_generated_pack_validates plain_digest plain_time example_profile
              generated_draft first_bullet_confirmation 7 "snap-1" 10 11
              {| mem := generated_heap; db := empty_database |} w' snapshot)
    as (row & student & Hrows & Hvalid & Hvocab & _).
  - cbn. repeat constructor; rewrite ?elem_of_cons, ?elem_of_nil; intuition discriminate.
  - intros project s Hp Hs. cbn in Hp.
    apply list_elem_of_singleton in Hp as ->. cbn in Hs.
    apply list_elem_of_singleton in Hs as ->. cbn. left.
  - by vm_compute.
  - repeat constructor. intros v [= <-]. by exists true.
  - exact Hcall.
  - exists snapshot, w', row, student.
    split; [exact Hcall |]. split; [exact Hrows |]. split; [exact Hvalid | exact Hvocab].
Defined.

